(** * PyHealth: the EmbedGRU model and its training controller

    A shallow embedding of [pyhealth/models/embedgru.py]: the [callPredictor]
    network (embedding, stack of recurrent modules, output projection) and the
    [EmbedGRU] controller (argument checks, the fit loop with its checkpoints,
    reload and result retrieval).

    Conventions.
    - Python exceptions are values of [exn]; a computation that may raise
      returns a [result].
    - A Python [float] is a [pyfloat]: a rational, an infinity or NaN.  Only
      comparisons are taken on scores and hyperparameters; these are exact on
      floats.  Tensor arithmetic is carried out in [Q].
    - A torch tensor is its size together with its flat row-major storage.
    - What PyTorch computes inside [nn.GRU] is a parameter of the development,
      constrained only by the documented size of its output. *)

From Stdlib Require Import ZArith QArith String List Lia.
From stdpp Require Import gmap strings pretty list fin_maps.

Local Open Scope string_scope.
Local Open Scope list_scope.

(** ** Python values, exceptions, results *)

Inductive exn : Type :=
  | AssertionError (msg : string)
  | TypeError (msg : string)
  | ValueError (msg : string)
  | IndexError (msg : string)
  | IOError (msg : string)
  | AttributeError (name : string)
  | UnboundLocalError (name : string)
  | ZeroDivisionError
  | RuntimeError (msg : string).

Inductive result (A : Type) : Type :=
  | Ok (a : A)
  | Raise (e : exn).
Arguments Ok {A} a.
Arguments Raise {A} e.

#[global] Instance result_ret : MRet result := fun _ a => Ok a.
#[global] Instance result_bind : MBind result := fun _ _ f m =>
  match m with
  | Ok a => f a
  | Raise e => Raise e
  end.

Definition raises {A} (r : result A) : Prop :=
  match r with Ok _ => False | Raise _ => True end.

Inductive pyfloat : Type :=
  | Fin (q : Q)
  | PosInf
  | NegInf
  | NaN.

Definition Qltb (x y : Q) : bool := (Qnum x * QDen y <? Qnum y * QDen x)%Z.

(** [x < y] on floats. *)
Definition float_lt (x y : pyfloat) : bool :=
  match x, y with
  | NaN, _ | _, NaN => false
  | _, NegInf => false
  | NegInf, _ => true
  | PosInf, _ => false
  | Fin _, PosInf => true
  | Fin a, Fin b => Qltb a b
  end.

(** [x >= y] on floats. *)
Definition float_ge (x y : pyfloat) : bool :=
  match x, y with
  | NaN, _ | _, NaN => false
  | _, NegInf => true
  | NegInf, _ => false
  | PosInf, _ => true
  | Fin _, PosInf => false
  | Fin a, Fin b => Qle_bool b a
  end.

Definition float_gt (x y : pyfloat) : bool := float_lt y x.
Definition float_le (x y : pyfloat) : bool := float_ge y x.

#[warnings="-register-all"]
Inductive pyval : Type :=
  | VNone
  | VBool (b : bool)
  | VInt (z : Z)
  | VFloat (f : pyfloat)
  | VStr (s : string)
  | VList (l : list pyval).

(** ** Tensors *)

Record Tensor : Type := mkTensor { shape : list nat; data : list Q }.

Definition numel (dims : list nat) : nat := fold_right Nat.mul 1%nat dims.

(** The storage holds exactly the elements the size announces. *)
Definition wf_tensor (t : Tensor) : Prop := length (data t) = numel (shape t).

Definition tabulate {A} (n : nat) (f : nat -> A) : list A := map f (seq 0 n).

Definition get (t : Tensor) (i : nat) : Q := nth i (data t) 0%Q.

(** Element [(i, j, k)] of a tensor of size [(_, d1, d2)]. *)
Definition get3 (t : Tensor) (d1 d2 i j k : nat) : Q :=
  get t ((i * d1 + j) * d2 + k).

(** [t.view(-1, f)] *)
Definition view_rows (t : Tensor) (f : nat) : result Tensor :=
  let n := numel (shape t) in
  if (f =? 0)%nat then Raise (RuntimeError "view: cannot infer -1")
  else if (n mod f =? 0)%nat then Ok (mkTensor [n / f; f]%nat (data t))
  else Raise (RuntimeError "view: size mismatch").

(** [t.reshape(dims)] *)
Definition reshape (t : Tensor) (dims : list nat) : result Tensor :=
  if (numel dims =? numel (shape t))%nat then Ok (mkTensor dims (data t))
  else Raise (RuntimeError "reshape: size mismatch").

(** [t.unsqueeze(-1)] *)
Definition unsqueeze_last (t : Tensor) : Tensor :=
  mkTensor (shape t ++ [1%nat]) (data t).

(** Broadcasting of one dimension: equal, or one of them is 1. *)
Definition bcast_dim (a b : nat) : option nat :=
  if (a =? b)%nat then Some a
  else if (a =? 1)%nat then Some b
  else if (b =? 1)%nat then Some a
  else None.

Definition bidx (d i : nat) : nat := if (d =? 1)%nat then 0%nat else i.

(** [a * b] for two 3-dimensional tensors, with broadcasting.  Operands of
    other ranks, which PyTorch would align from the right, are outside the
    documented batch layout and are not modelled. *)
Definition mul3 (a b : Tensor) : result Tensor :=
  match shape a, shape b with
  | [a0; a1; a2], [b0; b1; b2] =>
    match bcast_dim a0 b0, bcast_dim a1 b1, bcast_dim a2 b2 with
    | Some d0, Some d1, Some d2 =>
      Ok (mkTensor [d0; d1; d2]
            (concat (tabulate d0 (fun i =>
             concat (tabulate d1 (fun j =>
                     tabulate d2 (fun k =>
               (get3 a a1 a2 (bidx a0 i) (bidx a1 j) (bidx a2 k) *
                get3 b b1 b2 (bidx b0 i) (bidx b1 j) (bidx b2 k))%Q)))))))
    | _, _, _ => Raise (RuntimeError "mul: sizes do not broadcast")
    end
  | _, _ => Raise (RuntimeError "mul: expected 3-dimensional operands")
  end.

Definition Qsum (l : list Q) : Q := fold_right Qplus 0%Q l.

(** [t.sum(dim=1)] for a 3-dimensional tensor. *)
Definition sum_dim1 (t : Tensor) : result Tensor :=
  match shape t with
  | [d0; d1; d2] =>
    Ok (mkTensor [d0; d2]
          (concat (tabulate d0 (fun i =>
                   tabulate d2 (fun k =>
                     Qsum (tabulate d1 (fun j => get3 t d1 d2 i j k)))))))
  | _ => Raise (RuntimeError "sum: expected a 3-dimensional tensor")
  end.

(** ** Layers *)

(** The values a freshly built module draws for its parameters: by parameter
    name and position in the storage. *)
Definition initializer : Type := string -> nat -> Q.

Definition fresh (init : initializer) (name : string) (dims : list nat) : Tensor :=
  mkTensor dims (tabulate (numel dims) (init name)).

Record Linear : Type := mkLinear {
  in_features : nat;
  out_features : nat;
  weight : Tensor;   (* (out_features, in_features) *)
  lbias : Tensor     (* (out_features) *)
}.

(** [nn.Linear(i, o)] *)
Definition nn_Linear (init : initializer) (prefix : string) (i o : nat) : Linear :=
  mkLinear i o (fresh init (prefix +:+ ".weight") [o; i])
               (fresh init (prefix +:+ ".bias") [o]).

(** A linear layer applied to a 2-dimensional input [(n, in_features)]. *)
Definition Linear_forward (l : Linear) (x : Tensor) : result Tensor :=
  match shape x with
  | [n; f] =>
    if (f =? in_features l)%nat then
      Ok (mkTensor [n; out_features l]
            (concat (tabulate n (fun r =>
                     tabulate (out_features l) (fun o =>
                       (Qsum (tabulate f (fun c =>
                          (get x (r * f + c) * get (weight l) (o * f + c))%Q))
                        + get (lbias l) o)%Q)))))
    else Raise (RuntimeError "linear: size mismatch")
  | _ => Raise (RuntimeError "linear: expected a 2-dimensional input")
  end.

Record GRU : Type := mkGRU {
  gru_input_size : nat;
  gru_hidden_size : nat;
  gru_num_layers : nat;
  gru_bias : bool;
  gru_dropout : pyfloat;
  gru_bidirectional : bool;
  gru_batch_first : bool;
  gru_weights : list (string * Tensor)
}.

Definition num_directions (bidirectional : bool) : nat :=
  if bidirectional then 2%nat else 1%nat.

(** Parameters of one direction of one internal layer of a GRU, named as
    PyTorch names them ([weight_ih_l0], [weight_hh_l0_reverse], ...). *)
Definition gru_layer_weights (init : initializer) (prefix suffix : string)
    (layer_in hidden : nat) (bias : bool) : list (string * Tensor) :=
  let param name dims :=
    (name +:+ suffix, fresh init (prefix +:+ "." +:+ name +:+ suffix) dims) in
  [param "weight_ih" [3 * hidden; layer_in]%nat;
   param "weight_hh" [3 * hidden; hidden]%nat]
  ++ (if bias then [param "bias_ih" [3 * hidden]%nat;
                    param "bias_hh" [3 * hidden]%nat]
      else []).

(** [nn.GRU(input_size, hidden_size, num_layers, bias, dropout, bidirectional,
    batch_first)]: every internal layer, in every direction, owns its
    weights. *)
Definition nn_GRU (init : initializer) (prefix : string)
    (input_size hidden_size n_layers : nat)
    (bias : bool) (dropout : pyfloat) (bidirectional batch_first : bool) : GRU :=
  mkGRU input_size hidden_size n_layers bias dropout bidirectional batch_first
    (flat_map (fun k =>
       let layer_in := if (k =? 0)%nat then input_size
                       else (num_directions bidirectional * hidden_size)%nat in
       let suffix := "_l" +:+ pretty k in
       gru_layer_weights init prefix suffix layer_in hidden_size bias
       ++ (if bidirectional
           then gru_layer_weights init prefix (suffix +:+ "_reverse")
                                  layer_in hidden_size bias
           else []))
     (seq 0 n_layers)).

(** ** The predictor *)

Record PredictorConfig : Type := mkConfig {
  cfg_input_size : option nat;
  cfg_embed_size : nat;
  cfg_layer_hidden_sizes : list nat;
  cfg_num_layers : nat;
  cfg_bias : bool;
  cfg_dropout : pyfloat;
  cfg_bidirectional : bool;
  cfg_batch_first : bool;
  cfg_label_size : nat
}.

Record callPredictor : Type := mkPredictor {
  num_layers : nat;
  rnn_models : list GRU;        (* a Python list held as a plain attribute *)
  input_size : nat;
  embed_size : nat;
  label_size : nat;
  output_size : nat;
  embed_func : Linear;          (* registered submodule *)
  output_func : Linear          (* registered submodule *)
}.

(** [l[i]] for [0 <= i] *)
Definition index {A} (l : list A) (i : nat) : result A :=
  match nth_error l i with
  | Some a => Ok a
  | None => Raise (IndexError "list index out of range")
  end.

(** [callPredictor.__init__] *)
Definition callPredictor_init (init : initializer) (c : PredictorConfig)
    : result callPredictor :=
  match cfg_input_size c with
  | None => Raise (AssertionError "fill in correct input_size")
  | Some input_size =>
    let embed_size := cfg_embed_size c in
    let layer_hidden_sizes := cfg_layer_hidden_sizes c in
    let layer_input_sizes :=
      if cfg_bidirectional c
      then [embed_size] ++ map (fun chs => 2 * chs)%nat layer_hidden_sizes
      else [embed_size] ++ layer_hidden_sizes in
    let output_size := List.last layer_input_sizes embed_size in
    let embed_func := nn_Linear init "embed_func" input_size embed_size in
    rnn_models ← mapM (fun i =>
        layer_in ← index layer_input_sizes i;
        hidden ← index layer_hidden_sizes i;
        mret (nn_GRU init ("rnn_models." +:+ pretty i) layer_in hidden
                (cfg_num_layers c) (cfg_bias c) (cfg_dropout c)
                (cfg_bidirectional c) (cfg_batch_first c)))
      (seq 0 (cfg_num_layers c));
    let output_func := nn_Linear init "output_func" output_size (cfg_label_size c) in
    mret (mkPredictor (cfg_num_layers c) rnn_models input_size embed_size
            (cfg_label_size c) output_size embed_func output_func)
  end.

Record Batch : Type := mkBatch {
  input_X : Tensor;       (* (batchsize, n_timestep, n_featdim) *)
  input_M : Tensor;       (* (batchsize, n_timestep) *)
  input_cur_M : Tensor    (* (batchsize, n_timestep) *)
}.

Fixpoint foldM `{MBind M, MRet M} {A B} (f : A -> B -> M A) (a : A) (l : list B)
    : M A :=
  match l with
  | [] => mret a
  | b :: l' => a' ← f a b; foldM f a' l'
  end.

Section Forward.

(** The numerical function a GRU module computes from its weights. *)
Variable gru_eval : GRU -> Tensor -> Tensor.

(** Calling a GRU module on a 3-dimensional input. *)
Definition GRU_forward (g : GRU) (x : Tensor) : result Tensor :=
  match shape x with
  | [_; _; f] =>
    if (f =? gru_input_size g)%nat then Ok (gru_eval g x)
    else Raise (RuntimeError "gru: input.size(-1) must be equal to input_size")
  | _ => Raise (RuntimeError "gru: expected a 3-dimensional input")
  end.

(** [callPredictor.forward] *)
Definition forward (self : callPredictor) (input_data : Batch)
    : result (Tensor * Tensor) :=
  let X := input_X input_data in
  let M := input_M input_data in
  let cur_M := input_cur_M input_data in
  match shape X with
  | [batchsize; n_timestep; n_orifeatdim] =>
    _ori_X ← view_rows X n_orifeatdim;
    _embed_X ← Linear_forward (embed_func self) _ori_X;
    _data ← reshape _embed_X [batchsize; n_timestep; embed_size self];
    outputs ← foldM (fun d temp_rnn_model => GRU_forward temp_rnn_model d)
                    _data (rnn_models self);
    all_output ← mul3 outputs (unsqueeze_last M);
    match shape all_output with
    | [n_batchsize; n_timestep; n_featdim] =>
      flat ← reshape outputs [n_batchsize * n_timestep; n_featdim]%nat;
      projected ← Linear_forward (output_func self) flat;
      all_output ← reshape projected [n_batchsize; n_timestep; label_size self];
      weighted ← mul3 all_output (unsqueeze_last cur_M);
      cur_output ← sum_dim1 weighted;
      mret (all_output, cur_output)
    | _ => Raise (ValueError "not enough values to unpack")
    end
  | _ => Raise (ValueError "not enough values to unpack")
  end.

(** What the contract of the forward pass describes: the projection applied
    to the recurrent output multiplied by the validity mask. *)
Definition masked_projection (self : callPredictor) (outputs M : Tensor)
    : result Tensor :=
  masked ← mul3 outputs (unsqueeze_last M);
  match shape masked with
  | [n_batchsize; n_timestep; n_featdim] =>
    flat ← reshape masked [n_batchsize * n_timestep; n_featdim]%nat;
    projected ← Linear_forward (output_func self) flat;
    reshape projected [n_batchsize; n_timestep; label_size self]
  | _ => Raise (ValueError "not enough values to unpack")
  end.

(** The recurrent stack's output for an input batch. *)
Definition recurrent_output (self : callPredictor) (X : Tensor) : result Tensor :=
  match shape X with
  | [batchsize; n_timestep; n_orifeatdim] =>
    _ori_X ← view_rows X n_orifeatdim;
    _embed_X ← Linear_forward (embed_func self) _ori_X;
    _data ← reshape _embed_X [batchsize; n_timestep; embed_size self];
    foldM (fun d temp_rnn_model => GRU_forward temp_rnn_model d)
          _data (rnn_models self)
  | _ => Raise (ValueError "not enough values to unpack")
  end.

End Forward.

(** *** Parameter state *)

(** The parameters [nn.Module] registers for a linear layer. *)
Definition Linear_state_dict (prefix : string) (l : Linear) : list (string * Tensor) :=
  [(prefix +:+ "weight", weight l); (prefix +:+ "bias", lbias l)].

(** [callPredictor.state_dict()]: the parameters of the registered
    submodules, in registration order.  [rnn_models] is a list attribute, and
    [nn.Module] registers only parameters and modules assigned as
    attributes. *)
Definition state_dict (self : callPredictor) : list (string * Tensor) :=
  Linear_state_dict "embed_func." (embed_func self)
  ++ Linear_state_dict "output_func." (output_func self).

(** Every parameter tensor the network owns, by qualified name. *)
Definition all_parameters (self : callPredictor) : list (string * Tensor) :=
  Linear_state_dict "embed_func." (embed_func self)
  ++ concat (imap (fun i g =>
       map (fun kv => ("rnn_models." +:+ pretty i +:+ "." +:+ fst kv, snd kv))
           (gru_weights g)) (rnn_models self))
  ++ Linear_state_dict "output_func." (output_func self).

(** [torch.nn.DataParallel(p).state_dict()] *)
Definition DataParallel_state_dict (p : callPredictor) : list (string * Tensor) :=
  map (fun kv => ("module." +:+ fst kv, snd kv)) (state_dict p).

(** [s[n:]] *)
Fixpoint str_drop (n : nat) (s : string) : string :=
  match n, s with
  | O, _ => s
  | S n', String _ s' => str_drop n' s'
  | S _, EmptyString => EmptyString
  end.

(** A dict built from items in order: a later item replaces an earlier one
    with the same key. *)
Definition dict_of_items {V} (items : list (string * V)) : gmap string V :=
  fold_left (fun m kv => <[fst kv := snd kv]> m) items ∅.

Definition load_param (d : gmap string Tensor) (key : string) (old : Tensor)
    : result Tensor :=
  match d !! key with
  | None => Raise (RuntimeError ("Missing key(s) in state_dict: " +:+ key))
  | Some v =>
    if bool_decide (shape v = shape old) then Ok v
    else Raise (RuntimeError ("size mismatch for " +:+ key))
  end.

Definition Linear_load (d : gmap string Tensor) (prefix : string) (l : Linear)
    : result Linear :=
  w ← load_param d (prefix +:+ "weight") (weight l);
  b ← load_param d (prefix +:+ "bias") (lbias l);
  mret (mkLinear (in_features l) (out_features l) w b).

(** [callPredictor.load_state_dict(d)] (strict) *)
Definition load_state_dict (self : callPredictor) (d : gmap string Tensor)
    : result callPredictor :=
  let own := map fst (state_dict self) in
  if forallb (fun k => bool_decide (k ∈ own)) (map fst (map_to_list d)) then
    e ← Linear_load d "embed_func." (embed_func self);
    o ← Linear_load d "output_func." (output_func self);
    mret (mkPredictor (num_layers self) (rnn_models self) (input_size self)
            (embed_size self) (label_size self) (output_size self) e o)
  else Raise (RuntimeError "Unexpected key(s) in state_dict").

(** ** The controller *)

(** A persisted checkpoint: the [unit] dict built by [fit]. *)
Record checkpoint : Type := mkUnit {
  epoch : Z;
  unit_state_dict : list (string * Tensor);
  score : pyfloat;
  best_score : pyfloat;
  optimizer : list (string * Tensor)
}.

(** [self.predictor]: the bare network, or the network wrapped for
    multi-device execution. *)
Inductive predictor_obj : Type :=
  | Bare (p : callPredictor)
  | DataParallel (p : callPredictor).

Definition obj_state_dict (o : predictor_obj) : list (string * Tensor) :=
  match o with
  | Bare p => state_dict p
  | DataParallel p => DataParallel_state_dict p
  end.

Definition network (o : predictor_obj) : callPredictor :=
  match o with Bare p | DataParallel p => p end.

(** One call [self._save_checkpoint(unit, epoch, is_best)]. *)
Record save_call : Type := mkCall {
  call_unit : checkpoint;
  call_epoch : Z;
  call_is_best : bool
}.

(** The controller object together with the part of the outside world its
    methods touch.  A directory is a map from file names to contents;
    [writes] records every checkpoint save in order. *)
Record World : Type := mkWorld {
  attrs : gmap string pyval;              (* hyperparameter attributes of self *)
  predictor : option predictor_obj;       (* self.predictor, when set *)
  _loaded_epoch : option string;          (* self._loaded_epoch, when set *)
  acc_train : list pyfloat;               (* self.acc['train'] *)
  acc_valid : list pyfloat;               (* self.acc['valid'] *)
  checkout_files : gmap string checkpoint;   (* files under self.checkout_dir *)
  result_files : gmap string pyval;          (* files under self.result_dir *)
  writes : list save_call;
  stdout : list string
}.

Definition new_world : World :=
  mkWorld ∅ None None [] [] ∅ ∅ [] [].

(** Methods run in a state monad over [World] in which exceptions keep the
    state reached when they were raised. *)
Definition prog (A : Type) : Type := World -> result A * World.

#[global] Instance prog_ret : MRet prog := fun _ a w => (Ok a, w).
#[global] Instance prog_bind : MBind prog := fun _ _ f m w =>
  match m w with
  | (Ok a, w') => f a w'
  | (Raise e, w') => (Raise e, w')
  end.

Definition raise {A} (e : exn) : prog A := fun w => (Raise e, w).
Definition lift {A} (r : result A) : prog A := fun w => (r, w).

Definition setattr (name : string) (v : pyval) : prog unit := fun w =>
  (Ok tt, mkWorld (<[name := v]> (attrs w)) (predictor w) (_loaded_epoch w)
            (acc_train w) (acc_valid w) (checkout_files w) (result_files w)
            (writes w) (stdout w)).

Definition attr (o : gmap string pyval) (name : string) : result pyval :=
  match o !! name with
  | Some v => Ok v
  | None => Raise (AttributeError name)
  end.

Definition getattr (name : string) : prog pyval := fun w => (attr (attrs w) name, w).

Definition print (line : string) : prog unit := fun w =>
  (Ok tt, mkWorld (attrs w) (predictor w) (_loaded_epoch w) (acc_train w)
            (acc_valid w) (checkout_files w) (result_files w) (writes w)
            (stdout w ++ [line])).

Definition set_predictor (o : predictor_obj) : prog unit := fun w =>
  (Ok tt, mkWorld (attrs w) (Some o) (_loaded_epoch w) (acc_train w)
            (acc_valid w) (checkout_files w) (result_files w) (writes w) (stdout w)).

Definition set_loaded_epoch (s : string) : prog unit := fun w =>
  (Ok tt, mkWorld (attrs w) (predictor w) (Some s) (acc_train w)
            (acc_valid w) (checkout_files w) (result_files w) (writes w) (stdout w)).

(** *** Python predicates used by the argument checks *)

Definition isinstance_str (v : pyval) : bool :=
  match v with VStr _ => true | _ => false end.
(** [bool] is a subclass of [int]. *)
Definition isinstance_int (v : pyval) : bool :=
  match v with VInt _ | VBool _ => true | _ => false end.
Definition isinstance_float (v : pyval) : bool :=
  match v with VFloat _ => true | _ => false end.
Definition isinstance_bool (v : pyval) : bool :=
  match v with VBool _ => true | _ => false end.
Definition isinstance_list (v : pyval) : bool :=
  match v with VList _ => true | _ => false end.

Definition to_int (v : pyval) : option Z :=
  match v with
  | VInt z => Some z
  | VBool b => Some (if b then 1 else 0)%Z
  | _ => None
  end.

Definition to_float (v : pyval) : option pyfloat :=
  match v with VFloat f => Some f | _ => None end.

(** [isinstance(v, int) and v > 0] *)
Definition int_gt0 (v : pyval) : bool :=
  match to_int v with Some z => (0 <? z)%Z | None => false end.

(** [a < b] between integers *)
Definition int_lt (a b : pyval) : result bool :=
  match to_int a, to_int b with
  | Some x, Some y => Ok (x <? y)%Z
  | _, _ => Raise (TypeError "'<' not supported")
  end.

(** [isinstance(v, str) and v in options] *)
Definition str_in (v : pyval) (options : list string) : bool :=
  match v with
  | VStr s => existsb (String.eqb s) options
  | _ => false
  end.

(** [len(v)] *)
Definition py_len (v : pyval) : result Z :=
  match v with
  | VList l => Ok (Z.of_nat (length l))
  | VStr s => Ok (Z.of_nat (String.length s))
  | _ => Raise (TypeError "object has no len()")
  end.

Definition zero : pyfloat := Fin 0.
Definition one : pyfloat := Fin 1.

(** *** Construction and argument checks *)

Record InitArgs : Type := mkArgs {
  arg_expmodel_id : pyval;
  arg_task : pyval;
  arg_n_epoch : pyval;
  arg_n_batchsize : pyval;
  arg_learn_ratio : pyval;
  arg_weight_decay : pyval;
  arg_n_epoch_saved : pyval;
  arg_embed_size : pyval;
  arg_layer_hidden_sizes : pyval;
  arg_bias : pyval;
  arg_dropout : pyval;
  arg_bidirectional : pyval;
  arg_batch_first : pyval;
  arg_loss_name : pyval;
  arg_target_repl : pyval;
  arg_target_repl_coef : pyval;
  arg_aggregate : pyval;
  arg_optimizer_name : pyval;
  arg_use_gpu : pyval
}.

(** The default values of the keyword arguments. *)
Definition default_args : InitArgs :=
  mkArgs (VStr "test.new") (VStr "phenotyping") (VInt 100) (VInt 5)
         (VFloat (Fin (1 # 10000))) (VFloat (Fin (1 # 10000))) (VInt 1)
         (VInt 16) (VList [VInt 10; VInt 20; VInt 15]) (VBool true)
         (VFloat (Fin (1 # 2))) (VBool true) (VBool true)
         (VStr "L1LossSigmoid") (VBool false) (VFloat (Fin 0)) (VStr "sum")
         (VStr "adam") (VBool false).

(** One [assert condition, message] line of [_args_check]; [chk_field] is
    the attribute the condition examines. *)
Record check : Type := mkCheck {
  chk_field : string;
  chk_cond : gmap string pyval -> result bool;
  chk_msg : string
}.

Definition on_attr (name : string) (p : pyval -> bool) (o : gmap string pyval)
    : result bool :=
  v ← attr o name; mret (p v).

Definition float_in (lo_strict : bool) (lo : pyfloat) (hi : option (bool * pyfloat))
    (v : pyval) : bool :=
  match v with
  | VFloat f =>
    (if lo_strict then float_gt f lo else float_ge f lo)
    && match hi with
       | None => true
       | Some (hi_strict, h) => if hi_strict then float_lt f h else float_le f h
       end
  | _ => false
  end.

(** The assertions of [_args_check], in source order. *)
Definition checks : list check :=
  [ mkCheck "task"
      (on_attr "task" (fun v => str_in v ["mortality"; "phenotyping"]))
      "fill in correct task (str, ['mortality','phenotyping'])";
    mkCheck "n_batchsize" (on_attr "n_batchsize" int_gt0)
      "fill in correct n_batchsize (int, >0)";
    mkCheck "n_epoch" (on_attr "n_epoch" int_gt0)
      "fill in correct n_epoch (int, >0)";
    mkCheck "learn_ratio" (on_attr "learn_ratio" (float_in true zero None))
      "fill in correct learn_ratio (float, >0.)";
    mkCheck "weight_decay" (on_attr "weight_decay" (float_in false zero None))
      "fill in correct weight_decay (float, >=0.)";
    mkCheck "n_epoch_saved"
      (fun o => v ← attr o "n_epoch_saved";
                if int_gt0 v then n ← attr o "n_epoch"; int_lt v n
                else mret false)
      "fill in correct n_epoch (int, >0 and <{0}).format(self.n_epoch)";
    mkCheck "embed_size" (on_attr "embed_size" int_gt0)
      "fill in correct embed_size (int, >0)";
    mkCheck "layer_hidden_sizes"
      (on_attr "layer_hidden_sizes"
         (fun v => match v with VList l => (0 <? length l)%nat | _ => false end))
      "fill in correct layer_hidden_sizes (list, such as [10,20,15])";
    mkCheck "num_layers" (on_attr "num_layers" int_gt0)
      "fill in correct num_layers (int, >0)";
    mkCheck "bias" (on_attr "bias" isinstance_bool)
      "fill in correct bias (bool)";
    mkCheck "dropout"
      (on_attr "dropout" (float_in true zero (Some (true, one))))
      "fill in correct learn_ratio (float, >0 and <1.)";
    mkCheck "bidirectional" (on_attr "bidirectional" isinstance_bool)
      "fill in correct bidirectional (bool)";
    mkCheck "batch_first" (on_attr "batch_first" isinstance_bool)
      "fill in correct batch_first (bool)";
    mkCheck "target_repl" (on_attr "target_repl" isinstance_bool)
      "fill in correct target_repl (bool)";
    mkCheck "target_repl_coef"
      (on_attr "target_repl_coef" (float_in false zero (Some (false, one))))
      "fill in correct target_repl_coef (float, >=0 and <=1.)";
    mkCheck "aggregate" (on_attr "aggregate" (fun v => str_in v ["sum"; "avg"]))
      "fill in correct aggregate (str, ['sum','avg'])";
    mkCheck "optimizer_name" (on_attr "optimizer_name" (fun v => str_in v ["adam"]))
      "fill in correct optimizer_name (str, ['adam'])";
    mkCheck "use_gpu" (on_attr "use_gpu" isinstance_bool)
      "fill in correct use_gpu (bool)";
    mkCheck "loss_name" (on_attr "loss_name" isinstance_str)
      "fill in correct optimizer_name (str)" ].

(** Running the assertions: the first one that fails raises. *)
Fixpoint run_checks (cs : list check) (o : gmap string pyval) : result unit :=
  match cs with
  | [] => Ok tt
  | c :: cs' =>
    b ← chk_cond c o;
    if b : bool then run_checks cs' o else Raise (AssertionError (chk_msg c))
  end.

Section Controller.

(** Methods inherited from [BaseControler]. *)
Variable BaseControler_init : pyval -> prog unit.
Variable _get_lossname : pyval -> prog pyval.
Variable _get_device : prog pyval.
Variable _load_predictor_config : prog PredictorConfig.

(** [EmbedGRU._args_check] *)
Definition _args_check : prog unit :=
  (fun w => (run_checks checks (attrs w), w));;
  loss_name ← getattr "loss_name";
  loss_name' ← _get_lossname loss_name;
  setattr "loss_name" loss_name';;
  device ← _get_device;
  setattr "device" device.

(** The attribute assignments of [EmbedGRU.__init__], up to the call of
    [_args_check]. *)
Definition assign_args (a : InitArgs) : prog unit :=
  setattr "task" (arg_task a);;
  setattr "n_batchsize" (arg_n_batchsize a);;
  setattr "n_epoch" (arg_n_epoch a);;
  setattr "learn_ratio" (arg_learn_ratio a);;
  setattr "weight_decay" (arg_weight_decay a);;
  setattr "n_epoch_saved" (arg_n_epoch_saved a);;
  setattr "embed_size" (arg_embed_size a);;
  setattr "layer_hidden_sizes" (arg_layer_hidden_sizes a);;
  n ← lift (py_len (arg_layer_hidden_sizes a));
  setattr "num_layers" (VInt n);;
  setattr "bias" (arg_bias a);;
  setattr "dropout" (arg_dropout a);;
  setattr "bidirectional" (arg_bidirectional a);;
  setattr "batch_first" (arg_batch_first a);;
  setattr "loss_name" (arg_loss_name a);;
  setattr "target_repl" (arg_target_repl a);;
  setattr "target_repl_coef" (arg_target_repl_coef a);;
  setattr "aggregate" (arg_aggregate a);;
  setattr "optimizer_name" (arg_optimizer_name a);;
  setattr "use_gpu" (arg_use_gpu a).

(** [EmbedGRU.__init__] *)
Definition EmbedGRU_init (a : InitArgs) : prog unit :=
  BaseControler_init (arg_expmodel_id a);;
  assign_args a;;
  _args_check.

(** *** The fit loop *)

(** Modelled from the spec: the label under which
    [BaseControler._save_checkpoint], whose code is not part of
    [embedgru.py], stores a checkpoint: [best], [latest] (the epoch marker
    -1) or the epoch number. *)
Definition checkpoint_label (epoch : Z) (is_best : bool) : string :=
  if is_best then "best"
  else if (epoch =? -1)%Z then "latest"
  else pretty epoch.

(** Modelled from the spec: [BaseControler._save_checkpoint], whose code is
    not part of [embedgru.py].  The checkpoint is written, replacing any
    earlier one, to [<checkout_dir>/<label>.checkpoint.pth.tar]. *)
Definition _save_checkpoint (unit_ : checkpoint) (epoch : Z) (is_best : bool)
    : prog unit := fun w =>
  let label := checkpoint_label epoch is_best in
  (Ok tt, mkWorld (attrs w) (predictor w) (_loaded_epoch w) (acc_train w)
            (acc_valid w)
            (<[label +:+ ".checkpoint.pth.tar" := unit_]> (checkout_files w))
            (result_files w) (writes w ++ [mkCall unit_ epoch is_best]) (stdout w)).

(** What one pass of [_train] and [_valid] leaves behind: the two mean
    losses, the network with its updated parameters and the optimizer
    state. *)
Record epoch_outcome : Type := mkOutcome {
  train_loss : pyfloat;
  valid_loss : pyfloat;
  trained : callPredictor;
  optimizer_state : list (string * Tensor)
}.

(** [self._train(train_reader); self._valid(valid_reader)] *)
Definition run_epoch (o : epoch_outcome) : prog unit := fun w =>
  (Ok tt, mkWorld (attrs w) (Some (DataParallel (trained o))) (_loaded_epoch w)
            (acc_train w ++ [train_loss o]) (acc_valid w ++ [valid_loss o])
            (checkout_files w) (result_files w) (writes w) (stdout w)).

(** [self.acc['valid'][-1]] *)
Definition last_valid : prog pyfloat := fun w =>
  (match rev (acc_valid w) with
   | x :: _ => Ok x
   | [] => Raise (IndexError "list index out of range")
   end, w).

(** [self.predictor.state_dict()] *)
Definition predictor_state_dict : prog (list (string * Tensor)) := fun w =>
  (match predictor w with
   | Some o => Ok (obj_state_dict o)
   | None => Raise (AttributeError "predictor")
   end, w).

(** [epoch % n] between integers *)
Definition py_mod (epoch : Z) (n : pyval) : result Z :=
  match to_int n with
  | Some 0%Z => Raise ZeroDivisionError
  | Some z => Ok (epoch mod z)%Z
  | None => Raise (TypeError "unsupported operand type(s) for %")
  end.

Definition with_best_score (u : checkpoint) (b : pyfloat) : checkpoint :=
  mkUnit (epoch u) (unit_state_dict u) (score u) b (optimizer u).

(** The body of the epoch loop of [EmbedGRU.fit]; the loop variable
    [best_score] is passed in and returned.  The two progress lines it
    prints are left out. *)
Definition fit_epoch (outcome : nat -> epoch_outcome)
    (best_score : pyfloat) (epoch : nat) : prog pyfloat :=
  run_epoch (outcome epoch);;
  test_score ← last_valid;
  sd ← predictor_state_dict;
  let unit_ := mkUnit (Z.of_nat epoch) sd test_score best_score
                     (optimizer_state (outcome epoch)) in
  st ← (if float_lt test_score best_score then
          let best_score := test_score in
          let unit_ := with_best_score unit_ best_score in
          _save_checkpoint unit_ (Z.of_nat epoch) true;;
          mret (best_score, unit_)
        else mret (best_score, unit_));
  let best_score := fst st in
  let unit_ := snd st in
  n_epoch_saved ← getattr "n_epoch_saved";
  r ← lift (py_mod (Z.of_nat epoch) n_epoch_saved);
  (if (r =? 0)%Z then _save_checkpoint unit_ (Z.of_nat epoch) false
   else mret tt);;
  _save_checkpoint unit_ (-1) false;;
  mret best_score.

(** [range(0, n)] *)
Definition py_range (n : pyval) : result (list nat) :=
  match to_int n with
  | Some z => Ok (seq 0 (Z.to_nat z))
  | None => Raise (TypeError "object cannot be interpreted as an integer")
  end.

(** The initial value of [best_score], [1e5]. *)
Definition initial_best_score : pyfloat := Fin 100000.

(** The epoch loop of [EmbedGRU.fit]. *)
Definition fit_loop (outcome : nat -> epoch_outcome) : prog pyfloat :=
  n_epoch ← getattr "n_epoch";
  epochs ← lift (py_range n_epoch);
  foldM (fit_epoch outcome) initial_best_score epochs.

(** *** Reload and result retrieval *)

Definition getattr_str (name : string) : prog string :=
  v ← getattr name;
  match v with
  | VStr s => mret s
  | _ => raise (TypeError "expected str")
  end.

(** [os.path.join(d, f)], for the messages. *)
Definition path_join (d f : string) : string := d +:+ "/" +:+ f.

Definition loaded_epoch_attr : prog string := fun w =>
  (match _loaded_epoch w with
   | Some s => Ok s
   | None => Raise (AttributeError "_loaded_epoch")
   end, w).

Definition find_checkpoint (file : string) : prog (option checkpoint) := fun w =>
  (Ok (checkout_files w !! file), w).

(** [EmbedGRU.load_model]; [init] holds the values the fresh network draws
    for its parameters.  Moving the network to [self.device] reads the
    attribute and leaves the parameters as they are; a checkpoint file that
    exists is taken to be readable by [torch.load]. *)
Definition load_model (init : initializer) (loaded_epoch : string) : prog unit :=
  predictor_config ← _load_predictor_config;
  p ← lift (callPredictor_init init predictor_config);
  _ ← getattr "device";
  set_predictor (Bare p);;
  (if negb (String.eqb loaded_epoch "") then set_loaded_epoch loaded_epoch
   else set_loaded_epoch "best");;
  checkout_dir ← getattr_str "checkout_dir";
  name ← loaded_epoch_attr;
  let file := name +:+ ".checkpoint.pth.tar" in
  found ← find_checkpoint file;
  match found with
  | Some checkpoint =>
    p' ← lift (load_state_dict p
                 (dict_of_items (map (fun kv => (str_drop 7 (fst kv), snd kv))
                                     (unit_state_dict checkpoint))));
    set_predictor (Bare p');;
    print ("load " +:+ name +:+ "-th epoch model")
  | None =>
    print ("no exist " +:+ name +:+ "-th epoch model, please dbcheck in dir "
           +:+ checkout_dir)
  end.

Definition find_result (file : string) : prog (option pyval) := fun w =>
  (Ok (result_files w !! file), w).

(** [os.path.join(self.result_dir, prefix + self._loaded_epoch)]: the
    directory, and the file name inside it. *)
Definition result_path (prefix : string) : prog (string * string) :=
  result_dir ← getattr_str "result_dir";
  name ← loaded_epoch_attr;
  mret (result_dir, prefix +:+ name).

(** [pickle.load(open(path, 'rb'))] *)
Definition pickle_load_result (path : string * string) : prog pyval :=
  found ← find_result (snd path);
  match found with
  | Some v => mret v
  | None => raise (IOError ("No such file or directory: "
                            +:+ path_join (fst path) (snd path)))
  end.

(** [try: body  except IOError: handler] *)
Definition try_except_IOError {A} (body handler : prog A) : prog A := fun w =>
  match body w with
  | (Raise (IOError _), w') => handler w'
  | r => r
  end.

(** Reading a local variable that may not have been bound. *)
Definition local {A} (name : string) (v : option A) : prog A :=
  match v with
  | Some a => mret a
  | None => raise (UnboundLocalError name)
  end.

(** The diagnostic line of [get_results] for a path. *)
Definition cannot_find (path : string * string) : prog unit :=
  print ("Error: cannot find file " +:+ path_join (fst path) (snd path)
         +:+ " or load failed").

(** [EmbedGRU.get_results] *)
Definition get_results : prog (pyval * pyval) :=
  hat_y ← try_except_IOError
            (path ← result_path "hat_y.";
             v ← pickle_load_result path;
             mret (Some v))
            (path ← result_path "hat_y.";
             cannot_find path;;
             mret None);
  y ← try_except_IOError
        (path ← result_path "y.";
         v ← pickle_load_result path;
         mret (Some v))
        (path ← result_path "y.";
         cannot_find path;;
         mret None);
  hat_y' ← local "hat_y" hat_y;
  y' ← local "y" y;
  mret (hat_y', y').

End Controller.

(** Runs a controller method as far as the state at hand determines it. *)
Ltac run_prog :=
  cbv [mbind prog_bind try_except_IOError loaded_epoch_attr pickle_load_result
       result_path fst snd cannot_find getattr_str getattr attr find_result find_checkpoint print
       local raise lift mret prog_ret set_predictor set_loaded_epoch setattr
       attrs predictor _loaded_epoch checkout_files stdout
       acc_train acc_valid result_files writes].

(** ** Notions used in the statements *)

(** Total number of internal recurrent layers over the stack. *)
Definition recurrent_depth (p : callPredictor) : nat :=
  list_sum (map gru_num_layers (rnn_models p)).

(** Width of a recurrent module's output, as PyTorch documents it. *)
Definition gru_output_size (g : GRU) : nat :=
  (num_directions (gru_bidirectional g) * gru_hidden_size g)%nat.

(** The documented size of [nn.GRU]'s output: an input [(d0, d1, input_size)]
    gives an output [(d0, d1, num_directions * hidden_size)]. *)
Definition gru_shape_contract (gru_eval : GRU -> Tensor -> Tensor) : Prop :=
  forall g x d0 d1,
    shape x = [d0; d1; gru_input_size g] ->
    shape (gru_eval g x) = [d0; d1; gru_output_size g].

Definition widen (bidirectional : bool) (h : nat) : nat :=
  if bidirectional then (2 * h)%nat else h.

(** The module [callPredictor.__init__] builds at position [i] of the stack. *)
Definition build_gru (init : initializer) (c : PredictorConfig)
    (i layer_in hidden : nat) : GRU :=
  nn_GRU init ("rnn_models." +:+ pretty i) layer_in hidden
         (cfg_num_layers c) (cfg_bias c) (cfg_dropout c)
         (cfg_bidirectional c) (cfg_batch_first c).

(** The stack from position [i] on, for an input of width [w]. *)
Fixpoint build_stack (init : initializer) (c : PredictorConfig)
    (i w : nat) (hs : list nat) : list GRU :=
  match hs with
  | [] => []
  | h :: hs' =>
    build_gru init c i w h
    :: build_stack init c (S i) (widen (cfg_bidirectional c) h) hs'
  end.

(** Each module of a stack accepts what the one before it produces. *)
Fixpoint chain_ok (w : nat) (gs : list GRU) : Prop :=
  match gs with
  | [] => True
  | g :: gs' => gru_input_size g = w /\ chain_ok (gru_output_size g) gs'
  end.

Fixpoint chain_out (w : nat) (gs : list GRU) : nat :=
  match gs with
  | [] => w
  | g :: gs' => chain_out (gru_output_size g) gs'
  end.

(** A stand-in for the numerics of a GRU: every output feature of a timestep
    is the sum of the timestep's input features. *)
Definition toy_gru (g : GRU) (x : Tensor) : Tensor :=
  match shape x with
  | [d0; d1; f] =>
    mkTensor [d0; d1; gru_output_size g]
      (concat (tabulate (d0 * d1) (fun r =>
         tabulate (gru_output_size g) (fun _ =>
           Qred (Qsum (tabulate f (fun c => get x (r * f + c))))))))
  | _ => x
  end.

(** *** The checkpoint saves of the fit loop, as a function of the scores *)

(** [best_score] after an epoch that started with [best]. *)
Definition next_best (outcome : nat -> epoch_outcome) (best : pyfloat) (e : nat)
    : pyfloat :=
  if float_lt (valid_loss (outcome e)) best then valid_loss (outcome e) else best.

(** [best_score] after the epochs [es]. *)
Definition loop_best (outcome : nat -> epoch_outcome) (best : pyfloat)
    (es : list nat) : pyfloat :=
  fold_left (next_best outcome) es best.

Definition epoch_unit (outcome : nat -> epoch_outcome) (best : pyfloat) (e : nat)
    : checkpoint :=
  mkUnit (Z.of_nat e) (DataParallel_state_dict (trained (outcome e)))
         (valid_loss (outcome e)) (next_best outcome best e)
         (optimizer_state (outcome e)).

(** The saves of epoch [e], entered with [best], for [n_epoch_saved = k]. *)
Definition epoch_calls (k : Z) (outcome : nat -> epoch_outcome)
    (best : pyfloat) (e : nat) : list save_call :=
  let u := epoch_unit outcome best e in
  (if float_lt (valid_loss (outcome e)) best
   then [mkCall u (Z.of_nat e) true] else [])
  ++ (if (Z.of_nat e mod k =? 0)%Z then [mkCall u (Z.of_nat e) false] else [])
  ++ [mkCall u (-1) false].

Fixpoint loop_calls (k : Z) (outcome : nat -> epoch_outcome)
    (best : pyfloat) (es : list nat) : list save_call :=
  match es with
  | [] => []
  | e :: es' =>
    epoch_calls k outcome best e
    ++ loop_calls k outcome (next_best outcome best e) es'
  end.

Definition file_of_call (c : save_call) : string :=
  checkpoint_label (call_epoch c) (call_is_best c) +:+ ".checkpoint.pth.tar".

(** The checkpoint directory after a sequence of saves. *)
Definition apply_calls (calls : list save_call) (files : gmap string checkpoint)
    : gmap string checkpoint :=
  fold_left (fun m c => <[file_of_call c := call_unit c]> m) calls files.

(** A [best] checkpoint was saved by epoch [e]. *)
Definition best_saved_at (calls : list save_call) (e : nat) : Prop :=
  exists c, In c calls /\ call_is_best c = true
            /\ epoch (call_unit c) = Z.of_nat e.

(** A [latest] checkpoint (epoch marker -1) was saved by epoch [e]. *)
Definition latest_saved_at (calls : list save_call) (e : nat) : Prop :=
  exists c, In c calls /\ call_is_best c = false /\ call_epoch c = (-1)%Z
            /\ epoch (call_unit c) = Z.of_nat e.

(** A numbered checkpoint was saved by epoch [e]. *)
Definition numbered_saved_at (calls : list save_call) (e : nat) : Prop :=
  exists c, In c calls /\ call_is_best c = false /\ call_epoch c = Z.of_nat e
            /\ epoch (call_unit c) = Z.of_nat e.

Definition is_latest_call (c : save_call) : bool :=
  negb (call_is_best c) && (call_epoch c =? -1)%Z.

(** *** Construction, as a function of the arguments *)

(** The attributes of the controller once [__init__] has made its
    assignments, [n] being [len(layer_hidden_sizes)]. *)
Definition assigned_attrs (a : InitArgs) (n : Z) (m : gmap string pyval)
    : gmap string pyval :=
  <["use_gpu" := arg_use_gpu a]>
  (<["optimizer_name" := arg_optimizer_name a]>
  (<["aggregate" := arg_aggregate a]>
  (<["target_repl_coef" := arg_target_repl_coef a]>
  (<["target_repl" := arg_target_repl a]>
  (<["loss_name" := arg_loss_name a]>
  (<["batch_first" := arg_batch_first a]>
  (<["bidirectional" := arg_bidirectional a]>
  (<["dropout" := arg_dropout a]>
  (<["bias" := arg_bias a]>
  (<["num_layers" := VInt n]>
  (<["layer_hidden_sizes" := arg_layer_hidden_sizes a]>
  (<["embed_size" := arg_embed_size a]>
  (<["n_epoch_saved" := arg_n_epoch_saved a]>
  (<["weight_decay" := arg_weight_decay a]>
  (<["learn_ratio" := arg_learn_ratio a]>
  (<["n_epoch" := arg_n_epoch a]>
  (<["n_batchsize" := arg_n_batchsize a]>
  (<["task" := arg_task a]> m)))))))))))))))))).

Definition with_attrs (w : World) (m : gmap string pyval) : World :=
  mkWorld m (predictor w) (_loaded_epoch w) (acc_train w) (acc_valid w)
          (checkout_files w) (result_files w) (writes w) (stdout w).

(** The hyperparameter attributes and the argument each one is given. *)
Definition hyperparameters (a : InitArgs) : list (string * pyval) :=
  [("task", arg_task a); ("n_batchsize", arg_n_batchsize a);
   ("n_epoch", arg_n_epoch a); ("learn_ratio", arg_learn_ratio a);
   ("weight_decay", arg_weight_decay a); ("n_epoch_saved", arg_n_epoch_saved a);
   ("embed_size", arg_embed_size a);
   ("layer_hidden_sizes", arg_layer_hidden_sizes a); ("bias", arg_bias a);
   ("dropout", arg_dropout a); ("bidirectional", arg_bidirectional a);
   ("batch_first", arg_batch_first a); ("loss_name", arg_loss_name a);
   ("target_repl", arg_target_repl a);
   ("target_repl_coef", arg_target_repl_coef a);
   ("aggregate", arg_aggregate a); ("optimizer_name", arg_optimizer_name a);
   ("use_gpu", arg_use_gpu a)].

(** The message of a check starts by naming the attribute it examines. *)
Definition names_field (c : check) : bool :=
  String.prefix ("fill in correct " +:+ chk_field c +:+ " ") (chk_msg c).

(** The error class of the specification for an invalid hyperparameter: in
    the code, the [AssertionError] of a failed check, or the [TypeError] of
    [len] on a value without a length. *)
Definition ConfigurationError (e : exn) : Prop :=
  match e with
  | AssertionError _ | TypeError _ => True
  | _ => False
  end.

(** *** The documented constraints on the hyperparameters *)

Definition is_pos_int (v : pyval) : Prop := exists z, v = VInt z /\ (0 < z)%Z.

Definition is_bool (v : pyval) : Prop := exists b, v = VBool b.

(** The constraints of the configuration options, with the types the
    docstring of [EmbedGRU] gives them. *)
Record documented_ok (a : InitArgs) : Prop := mkDocumented {
  doc_task :
    arg_task a = VStr "mortality" \/ arg_task a = VStr "phenotyping";
  doc_n_epoch : is_pos_int (arg_n_epoch a);
  doc_n_batchsize : is_pos_int (arg_n_batchsize a);
  doc_learn_ratio :
    exists f, arg_learn_ratio a = VFloat f /\ float_lt zero f = true;
  doc_weight_decay :
    exists f, arg_weight_decay a = VFloat f /\ float_le zero f = true;
  doc_n_epoch_saved :
    exists s n, arg_n_epoch_saved a = VInt s /\ arg_n_epoch a = VInt n
                /\ (0 < s < n)%Z;
  doc_embed_size : is_pos_int (arg_embed_size a);
  doc_layer_hidden_sizes :
    exists l, arg_layer_hidden_sizes a = VList l /\ l <> []
              /\ Forall is_pos_int l;
  doc_dropout :
    exists f, arg_dropout a = VFloat f
              /\ float_lt zero f = true /\ float_lt f one = true;
  doc_bias : is_bool (arg_bias a);
  doc_bidirectional : is_bool (arg_bidirectional a);
  doc_batch_first : is_bool (arg_batch_first a);
  doc_target_repl : is_bool (arg_target_repl a);
  doc_use_gpu : is_bool (arg_use_gpu a);
  doc_target_repl_coef :
    exists f, arg_target_repl_coef a = VFloat f
              /\ float_le zero f = true /\ float_le f one = true;
  doc_aggregate : arg_aggregate a = VStr "sum" \/ arg_aggregate a = VStr "avg";
  doc_optimizer_name : arg_optimizer_name a = VStr "adam";
  doc_loss_name : exists s, arg_loss_name a = VStr s
}.

(** [dropout] is not a float strictly between 0 and 1. *)
Definition dropout_outside_unit_interval (a : InitArgs) : Prop :=
  ~ exists f, arg_dropout a = VFloat f
              /\ float_lt zero f = true /\ float_lt f one = true.

(** [n_epoch_saved >= n_epoch], both integers. *)
Definition n_epoch_saved_reaches_n_epoch (a : InitArgs) : Prop :=
  exists s n, to_int (arg_n_epoch_saved a) = Some s
              /\ to_int (arg_n_epoch a) = Some n /\ (n <= s)%Z.

(** [weight_decay] is a negative number. *)
Definition weight_decay_negative (a : InitArgs) : Prop :=
  (exists f, arg_weight_decay a = VFloat f /\ float_lt f zero = true)
  \/ (exists z, arg_weight_decay a = VInt z /\ (z < 0)%Z).

(** *** Reload, retrieval and the base class, in the statements *)

(** The label [load_model] records: [best] when none is given. *)
Definition reload_label (loaded_epoch : string) : string :=
  if String.eqb loaded_epoch "" then "best" else loaded_epoch.

(** The diagnostic line of [get_results] for a missing file. *)
Definition cannot_find_line (dir file : string) : string :=
  "Error: cannot find file " +:+ path_join dir file +:+ " or load failed".

(** A method of the base class that returns normally from every state. *)
Definition always_returns {A} (m : prog A) : Prop :=
  forall w, exists r w', m w = (Ok r, w').

(** *** Concrete inputs *)

(** Stand-ins for the methods of [BaseControler]: a base constructor that
    sets nothing, a loss name taken as given, the CPU as device. *)
Definition base_noop : pyval -> prog unit := fun _ => mret tt.
Definition lossname_as_given : pyval -> prog pyval := fun v => mret v.
Definition device_cpu : prog pyval := mret (VStr "cpu").

Definition with_task (a : InitArgs) (v : pyval) : InitArgs :=
  mkArgs (arg_expmodel_id a) v (arg_n_epoch a) (arg_n_batchsize a)
         (arg_learn_ratio a) (arg_weight_decay a) (arg_n_epoch_saved a)
         (arg_embed_size a) (arg_layer_hidden_sizes a) (arg_bias a)
         (arg_dropout a) (arg_bidirectional a) (arg_batch_first a)
         (arg_loss_name a) (arg_target_repl a) (arg_target_repl_coef a)
         (arg_aggregate a) (arg_optimizer_name a) (arg_use_gpu a).

Definition with_dropout (a : InitArgs) (v : pyval) : InitArgs :=
  mkArgs (arg_expmodel_id a) (arg_task a) (arg_n_epoch a) (arg_n_batchsize a)
         (arg_learn_ratio a) (arg_weight_decay a) (arg_n_epoch_saved a)
         (arg_embed_size a) (arg_layer_hidden_sizes a) (arg_bias a)
         v (arg_bidirectional a) (arg_batch_first a)
         (arg_loss_name a) (arg_target_repl a) (arg_target_repl_coef a)
         (arg_aggregate a) (arg_optimizer_name a) (arg_use_gpu a).

Definition init_const (q : Q) : initializer := fun _ _ => q.

(** The scenario of the specification: 8 features, 2 labels, three
    bidirectional recurrent modules of hidden sizes 10, 20 and 15. *)
Definition cfg_scenario : PredictorConfig :=
  mkConfig (Some 8%nat) 16 [10; 20; 15]%nat 3 true (Fin (1 # 2)) true true 2.

(** A small network: 2 features, 1 label, one unidirectional module. *)
Definition cfg_small : PredictorConfig :=
  mkConfig (Some 2%nat) 2 [1%nat] 1 true (Fin (1 # 2)) false true 1.

(** One sample of two timesteps, the second one padding. *)
Definition batch_small : Batch :=
  mkBatch (mkTensor [1; 2; 2]%nat [1; 0; 0; 1]%Q)
          (mkTensor [1; 2]%nat [1; 0]%Q)
          (mkTensor [1; 2]%nat [0; 1]%Q).

(** A controller with 2 epochs, a checkpoint every epoch, and empty
    checkpoint and result directories. *)
Definition world_small : World :=
  mkWorld (<["n_epoch" := VInt 2]> (<["n_epoch_saved" := VInt 1]>
           (<["checkout_dir" := VStr "checkouts"]>
            (<["result_dir" := VStr "results"]>
             (<["device" := VStr "cpu"]> ∅)))))
          None None [] [] ∅ ∅ [] [].

(** Training that leaves every parameter of the network at [q] and reports
    the validation losses of [scores], epoch by epoch. *)
Definition outcome_of (p : callPredictor) (scores : list pyfloat)
    : nat -> epoch_outcome :=
  fun e => mkOutcome (Fin 0) (nth e scores NaN) p [].

(** A controller with 4 epochs and a checkpoint every epoch. *)
Definition world_four : World :=
  mkWorld (<["n_epoch" := VInt 4]> (<["n_epoch_saved" := VInt 1]> ∅))
          None None [] [] ∅ ∅ [] [].

(** The small network with every parameter at [q]. *)
Definition net_small (q : Q) : callPredictor :=
  mkPredictor 1 (build_stack (init_const q) cfg_small 0 2 [1%nat]) 2 2 1 1
    (nn_Linear (init_const q) "embed_func" 2 2)
    (nn_Linear (init_const q) "output_func" 1 1).

(** The same controller after a reload that recorded the label [best]; no
    inference has been run, so the result directory is empty. *)
Definition world_reloaded : World :=
  mkWorld (attrs world_small) (Some (Bare (net_small 2))) (Some "best")
          [] [] ∅ ∅ [] [].

(** ** Further notions and inputs *)
(** *** What the assertions accept *)

(** An [int] (or [bool]) greater than 0. *)
Definition pos_int_like (v : pyval) : Prop :=
  exists z, to_int v = Some z /\ (0 < z)%Z.

(** A float strictly between 0 and 1. *)
Definition dropout_ok (v : pyval) : Prop :=
  exists f, v = VFloat f /\ float_lt zero f = true /\ float_lt f one = true.

(** What the assertions of [_args_check] ask of every argument but
    [dropout]. *)
Record accepted_except_dropout (a : InitArgs) : Prop := mkAccepted {
  acc_task :
    arg_task a = VStr "mortality" \/ arg_task a = VStr "phenotyping";
  acc_n_batchsize : pos_int_like (arg_n_batchsize a);
  acc_n_epoch : pos_int_like (arg_n_epoch a);
  acc_learn_ratio :
    exists f, arg_learn_ratio a = VFloat f /\ float_lt zero f = true;
  acc_weight_decay :
    exists f, arg_weight_decay a = VFloat f /\ float_le zero f = true;
  acc_n_epoch_saved :
    exists s n, to_int (arg_n_epoch_saved a) = Some s
                /\ to_int (arg_n_epoch a) = Some n /\ (0 < s < n)%Z;
  acc_embed_size : pos_int_like (arg_embed_size a);
  acc_layer_hidden_sizes :
    exists l, arg_layer_hidden_sizes a = VList l /\ l <> [];
  acc_bias : is_bool (arg_bias a);
  acc_bidirectional : is_bool (arg_bidirectional a);
  acc_batch_first : is_bool (arg_batch_first a);
  acc_target_repl : is_bool (arg_target_repl a);
  acc_target_repl_coef :
    exists f, arg_target_repl_coef a = VFloat f
              /\ float_le zero f = true /\ float_le f one = true;
  acc_aggregate : arg_aggregate a = VStr "sum" \/ arg_aggregate a = VStr "avg";
  acc_optimizer_name : arg_optimizer_name a = VStr "adam";
  acc_use_gpu : is_bool (arg_use_gpu a);
  acc_loss_name : exists s, arg_loss_name a = VStr s
}.

Definition accepted (a : InitArgs) : Prop :=
  accepted_except_dropout a /\ dropout_ok (arg_dropout a).

Definition with_layer_hidden_sizes (a : InitArgs) (v : pyval) : InitArgs :=
  mkArgs (arg_expmodel_id a) (arg_task a) (arg_n_epoch a) (arg_n_batchsize a)
         (arg_learn_ratio a) (arg_weight_decay a) (arg_n_epoch_saved a)
         (arg_embed_size a) v (arg_bias a)
         (arg_dropout a) (arg_bidirectional a) (arg_batch_first a)
         (arg_loss_name a) (arg_target_repl a) (arg_target_repl_coef a)
         (arg_aggregate a) (arg_optimizer_name a) (arg_use_gpu a).

(** The assertions as a list of evaluated conditions with their messages. *)
Fixpoint run_table (t : list (result bool * string)) : result unit :=
  match t with
  | [] => Ok tt
  | (Ok true, _) :: t' => run_table t'
  | (Ok false, msg) :: _ => Raise (AssertionError msg)
  | (Raise e, _) :: _ => Raise e
  end.

(** Arguments as the defaults, but for a single epoch. *)
Definition args_one_epoch : InitArgs :=
  mkArgs (VStr "test.new") (VStr "phenotyping") (VInt 1) (VInt 5)
         (VFloat (Fin (1 # 10000))) (VFloat (Fin (1 # 10000))) (VInt 1)
         (VInt 16) (VList [VInt 10; VInt 20; VInt 15]) (VBool true)
         (VFloat (Fin (1 # 2))) (VBool true) (VBool true)
         (VStr "L1LossSigmoid") (VBool false) (VFloat (Fin 0)) (VStr "sum")
         (VStr "adam") (VBool false).

(** Arguments as the defaults, but for the weight decay given as the
    integer 0. *)
Definition args_int_weight_decay : InitArgs :=
  mkArgs (VStr "test.new") (VStr "phenotyping") (VInt 100) (VInt 5)
         (VFloat (Fin (1 # 10000))) (VInt 0) (VInt 1)
         (VInt 16) (VList [VInt 10; VInt 20; VInt 15]) (VBool true)
         (VFloat (Fin (1 # 2))) (VBool true) (VBool true)
         (VStr "L1LossSigmoid") (VBool false) (VFloat (Fin 0)) (VStr "sum")
         (VStr "adam") (VBool false).

(** Values [len] does not apply to. *)
Definition has_no_len (v : pyval) : Prop :=
  match v with
  | VList _ | VStr _ => False
  | _ => True
  end.

(** The attributes [__init__] assigns after it has taken the length of the
    hidden-size list. *)
Definition assigned_after_len : list string :=
  ["num_layers"; "bias"; "dropout"; "bidirectional"; "batch_first";
   "loss_name"; "target_repl"; "target_repl_coef"; "aggregate";
   "optimizer_name"; "use_gpu"].

(** *** Reloading parameters *)

(** The linear layers of two networks have parameters of the same sizes. *)
Definition same_linear_shapes (p q : callPredictor) : Prop :=
  shape (weight (embed_func p)) = shape (weight (embed_func q))
  /\ shape (lbias (embed_func p)) = shape (lbias (embed_func q))
  /\ shape (weight (output_func p)) = shape (weight (output_func q))
  /\ shape (lbias (output_func p)) = shape (lbias (output_func q)).

(** The network [q] with the parameters of the linear layers of [p]. *)
Definition with_linear_layers_of (q p : callPredictor) : callPredictor :=
  mkPredictor (num_layers q) (rnn_models q) (input_size q) (embed_size q)
    (label_size q) (output_size q)
    (mkLinear (in_features (embed_func q)) (out_features (embed_func q))
              (weight (embed_func p)) (lbias (embed_func p)))
    (mkLinear (in_features (output_func q)) (out_features (output_func q))
              (weight (output_func p)) (lbias (output_func p))).

(** The controller after [load_model] has set its network and label and
    printed [out]. *)
Definition reloaded (w : World) (q : callPredictor) (label : string)
    (out : list string) : World :=
  mkWorld (attrs w) (Some (Bare q)) (Some label) (acc_train w) (acc_valid w)
          (checkout_files w) (result_files w) (writes w) (stdout w ++ out).

(** The state dict [load_model] hands to the network: the saved one with
    seven characters cut from every key. *)
Definition stripped_state_dict (u : checkpoint) : gmap string Tensor :=
  dict_of_items (map (fun kv => (str_drop 7 (fst kv), snd kv))
                     (unit_state_dict u)).

(** The small controller with one checkpoint [best] in its directory, saved
    from the network [p] wrapped or not. *)
Definition world_with_best (sd : list (string * Tensor)) : World :=
  mkWorld (attrs world_small) None None [] []
          (<["best.checkpoint.pth.tar" := mkUnit 0 sd (Fin 1) (Fin 1) []]> ∅)
          ∅ [] [].

(** The reloaded controller after an inference that stored its two
    artifacts. *)
Definition world_with_results : World :=
  mkWorld (attrs world_small) (Some (Bare (net_small 2))) (Some "best") [] [] ∅
          (<["hat_y.best" := VList [VFloat (Fin (1 # 4))]]>
           (<["y.best" := VList [VInt 0]]> ∅))
          [] [].

(** *** File names of the checkpoints *)

(** The string starts with a decimal digit. *)
Definition head_digit (s : string) : bool :=
  match s with
  | String c _ =>
    existsb (String.eqb (String c EmptyString))
            ["0"; "1"; "2"; "3"; "4"; "5"; "6"; "7"; "8"; "9"]
  | EmptyString => false
  end.

Definition best_file : string := "best.checkpoint.pth.tar".
Definition latest_file : string := "latest.checkpoint.pth.tar".
Definition numbered_file (e : nat) : string :=
  pretty (Z.of_nat e) +:+ ".checkpoint.pth.tar".

(** The scenario's configuration with another number of recurrent modules. *)
Definition with_num_layers (c : PredictorConfig) (n : nat) : PredictorConfig :=
  mkConfig (cfg_input_size c) (cfg_embed_size c) (cfg_layer_hidden_sizes c) n
           (cfg_bias c) (cfg_dropout c) (cfg_bidirectional c)
           (cfg_batch_first c) (cfg_label_size c).

(** A batch of one sample, three timesteps and 8 features; the current
    timestep is the second one. *)
Definition batch_scenario : Batch :=
  mkBatch (mkTensor [1; 3; 8]%nat (repeat 1%Q 24))
          (mkTensor [1; 3]%nat [1; 1; 0]%Q)
          (mkTensor [1; 3]%nat [0; 1; 0]%Q).

(** A batch whose samples have 3 features. *)
Definition batch_three_features : Batch :=
  mkBatch (mkTensor [1; 2; 3]%nat [1; 0; 0; 0; 1; 0]%Q)
          (mkTensor [1; 2]%nat [1; 0]%Q)
          (mkTensor [1; 2]%nat [0; 1]%Q).

(** A batch whose [X] has no feature dimension. *)
Definition batch_flat : Batch :=
  mkBatch (mkTensor [1; 2]%nat [1; 0]%Q)
          (mkTensor [1; 2]%nat [1; 0]%Q)
          (mkTensor [1; 2]%nat [0; 1]%Q).

Definition is_RuntimeError (e : exn) : Prop := exists msg, e = RuntimeError msg.
Definition is_ValueError (e : exn) : Prop := exists msg, e = ValueError msg.

(** One sample of two distinct timesteps, both valid; the current timestep
    is the first one. *)
Definition batch_first_marked : Batch :=
  mkBatch (mkTensor [1; 2; 2]%nat [1; 1; 0; 1]%Q)
          (mkTensor [1; 2]%nat [1; 1]%Q)
          (mkTensor [1; 2]%nat [1; 0]%Q).


(** * Properties *)

(** ** Construction of the predictor *)

Lemma mapM_result_ok {A B} (f : A -> result B) (g : A -> B) (l : list A) :
  (forall x, In x l -> f x = Ok (g x)) -> mapM f l = Ok (map g l).
Proof.
  induction l as [|a l IH]; intros Hf; [reflexivity|].
  cbn [mapM map]. rewrite (Hf a) by (left; reflexivity).
  cbn. rewrite IH by (intros x Hx; apply Hf; right; exact Hx).
  reflexivity.
Qed.

Lemma index_app_middle {A} (pre : list A) (x : A) (post : list A) :
  index (pre ++ x :: post) (length pre) = Ok x.
Proof.
  unfold index. rewrite nth_error_app2 by lia.
  rewrite Nat.sub_diag. reflexivity.
Qed.

Lemma layer_input_sizes_widen (b : bool) (e : nat) (hs : list nat) :
  (if b then [e] ++ map (fun chs => 2 * chs)%nat hs else [e] ++ hs)
  = e :: map (widen b) hs.
Proof.
  destruct b; cbn; [reflexivity|]. f_equal. symmetry. apply map_id.
Qed.

Lemma mapM_build_stack init c (hs pre_in pre_h : list nat) (w : nat) :
  length pre_in = length pre_h ->
  mapM (fun i =>
          layer_in ← index (pre_in ++ w :: map (widen (cfg_bidirectional c)) hs) i;
          hidden ← index (pre_h ++ hs) i;
          mret (build_gru init c i layer_in hidden))
       (seq (length pre_in) (length hs))
  = Ok (build_stack init c (length pre_in) w hs).
Proof.
  revert pre_in pre_h w.
  induction hs as [|h hs IH]; intros pre_in pre_h w Hlen; [reflexivity|].
  cbn [length seq mapM build_stack map].
  rewrite index_app_middle. cbn [mbind result_bind].
  rewrite Hlen at 1. rewrite index_app_middle.
  cbn [mbind result_bind mret result_ret].
  specialize (IH (pre_in ++ [w]) (pre_h ++ [h]) (widen (cfg_bidirectional c) h)).
  rewrite !length_app in IH. cbn [length] in IH.
  rewrite <- !app_assoc in IH. cbn [app] in IH.
  replace (length pre_in + 1)%nat with (S (length pre_in)) in IH by lia.
  rewrite IH by lia. reflexivity.
Qed.

(** With [num_layers = len(layer_hidden_sizes)] the constructor returns, and
    the stack it builds is [build_stack]. *)
Lemma callPredictor_init_ok init c f :
  cfg_input_size c = Some f ->
  cfg_num_layers c = length (cfg_layer_hidden_sizes c) ->
  callPredictor_init init c
  = Ok (mkPredictor (cfg_num_layers c)
          (build_stack init c 0 (cfg_embed_size c) (cfg_layer_hidden_sizes c))
          f (cfg_embed_size c) (cfg_label_size c)
          (List.last (cfg_embed_size c
                      :: map (widen (cfg_bidirectional c)) (cfg_layer_hidden_sizes c))
                     (cfg_embed_size c))
          (nn_Linear init "embed_func" f (cfg_embed_size c))
          (nn_Linear init "output_func"
             (List.last (cfg_embed_size c
                         :: map (widen (cfg_bidirectional c)) (cfg_layer_hidden_sizes c))
                        (cfg_embed_size c))
             (cfg_label_size c))).
Proof.
  intros Hf Hn. unfold callPredictor_init. rewrite Hf.
  rewrite layer_input_sizes_widen.
  pose proof (mapM_build_stack init c (cfg_layer_hidden_sizes c) [] []
                (cfg_embed_size c) eq_refl) as H.
  cbn [app length] in H. unfold build_gru at 1 in H. rewrite <- Hn in H.
  rewrite H. reflexivity.
Qed.

Lemma last_default_irrelevant {A} (a : A) (l : list A) (d d' : A) :
  List.last (a :: l) d = List.last (a :: l) d'.
Proof.
  revert a. induction l as [|b l IH]; intros a; [reflexivity|].
  change (List.last (b :: l) d = List.last (b :: l) d'). apply IH.
Qed.

Lemma gru_output_size_build init c i w h :
  gru_output_size (build_gru init c i w h) = widen (cfg_bidirectional c) h.
Proof.
  unfold gru_output_size, build_gru, nn_GRU, widen, num_directions. cbn.
  destruct (cfg_bidirectional c); lia.
Qed.

Lemma build_stack_length init c i w hs :
  length (build_stack init c i w hs) = length hs.
Proof.
  revert i w. induction hs as [|h hs IH]; intros i w; cbn; [reflexivity|].
  f_equal. apply IH.
Qed.

Lemma build_stack_num_layers init c i w hs :
  Forall (fun g => gru_num_layers g = cfg_num_layers c) (build_stack init c i w hs).
Proof.
  revert i w. induction hs as [|h hs IH]; intros i w; cbn; constructor.
  - reflexivity.
  - apply IH.
Qed.

Lemma build_stack_chain init c i w hs :
  chain_ok w (build_stack init c i w hs)
  /\ chain_out w (build_stack init c i w hs)
     = List.last (w :: map (widen (cfg_bidirectional c)) hs) w.
Proof.
  revert i w. induction hs as [|h hs IH]; intros i w.
  - split; [exact I | reflexivity].
  - cbn [build_stack chain_ok chain_out map].
    rewrite gru_output_size_build.
    destruct (IH (S i) (widen (cfg_bidirectional c) h)) as [Hok Hout].
    split; [split; [reflexivity | exact Hok] |].
    rewrite Hout.
    change (List.last (w :: ?x :: ?l) w) with (List.last (x :: l) w).
    apply last_default_irrelevant.
Qed.

Lemma list_sum_constant (f : GRU -> nat) (n : nat) (gs : list GRU) :
  Forall (fun g => f g = n) gs -> list_sum (map f gs) = (length gs * n)%nat.
Proof.
  unfold list_sum.
  induction 1 as [|g gs Hg _ IH]; cbn [map fold_right length]; [reflexivity|].
  rewrite Hg, IH. lia.
Qed.

(** C10: built from a hidden-size list of length n with [num_layers = n], the
    predictor holds n recurrent modules, every one of them constructed with
    [num_layers = n] internal layers, so that the stack is n * n layers deep. *)
Theorem C10_each_module_has_n_layers init c f :
  cfg_input_size c = Some f ->
  cfg_num_layers c = length (cfg_layer_hidden_sizes c) ->
  exists p,
    callPredictor_init init c = Ok p
    /\ length (rnn_models p) = cfg_num_layers c
    /\ Forall (fun g => gru_num_layers g = cfg_num_layers c) (rnn_models p)
    /\ recurrent_depth p = (cfg_num_layers c * cfg_num_layers c)%nat.
Proof.
  intros Hf Hn. eexists. split; [apply (callPredictor_init_ok init c f Hf Hn)|].
  cbn [rnn_models]. unfold recurrent_depth. cbn [rnn_models].
  pose proof (build_stack_num_layers init c 0 (cfg_embed_size c)
                (cfg_layer_hidden_sizes c)) as Hall.
  repeat split.
  - rewrite build_stack_length. symmetry. exact Hn.
  - exact Hall.
  - rewrite (list_sum_constant _ _ _ Hall), build_stack_length, <- Hn.
    reflexivity.
Qed.

(** C10 on the scenario of the specification: three modules of three layers
    each, nine layers in all. *)
Lemma C10_scenario_depth_9 :
  exists p,
    callPredictor_init (init_const 1) cfg_scenario = Ok p
    /\ length (rnn_models p) = 3%nat
    /\ Forall (fun g => gru_num_layers g = 3%nat) (rnn_models p)
    /\ recurrent_depth p = 9%nat.
Proof.
  apply (C10_each_module_has_n_layers (init_const 1) cfg_scenario 8);
    reflexivity.
Defined.

(** ** Sizes through the forward pass *)

Lemma length_tabulate {A} (n : nat) (f : nat -> A) : length (tabulate n f) = n.
Proof. unfold tabulate. rewrite length_map, length_seq. reflexivity. Qed.

Lemma length_concat_tabulate {A} (n m : nat) (f : nat -> list A) :
  (forall i, length (f i) = m) -> length (concat (tabulate n f)) = (n * m)%nat.
Proof.
  intros Hf. unfold tabulate. generalize 0%nat as k.
  induction n as [|n IH]; intros k; cbn [seq map concat]; [reflexivity|].
  rewrite length_app, Hf, IH. lia.
Qed.

Lemma numel3 (a b c : nat) : numel [a; b; c] = (a * b * c)%nat.
Proof. unfold numel. cbn. lia. Qed.

Lemma numel2 (a b : nat) : numel [a; b] = (a * b)%nat.
Proof. unfold numel. cbn. lia. Qed.

Lemma view_rows_ok (x : Tensor) (b t f : nat) :
  shape x = [b; t; f] -> f <> 0%nat ->
  view_rows x f = Ok (mkTensor [b * t; f]%nat (data x)).
Proof.
  intros Hs Hf. unfold view_rows. rewrite Hs, numel3.
  destruct (Nat.eqb_spec f 0) as [|_]; [contradiction|].
  rewrite Nat.Div0.mod_mul, Nat.div_mul by exact Hf. reflexivity.
Qed.

Lemma reshape_ok (x : Tensor) (dims : list nat) :
  numel dims = numel (shape x) -> reshape x dims = Ok (mkTensor dims (data x)).
Proof.
  intros H. unfold reshape. rewrite H, Nat.eqb_refl. reflexivity.
Qed.

Lemma Linear_forward_shape (l : Linear) (x : Tensor) (n : nat) :
  shape x = [n; in_features l] ->
  exists y, Linear_forward l x = Ok y
            /\ shape y = [n; out_features l] /\ wf_tensor y.
Proof.
  intros Hs. unfold Linear_forward. rewrite Hs, Nat.eqb_refl.
  eexists. split; [reflexivity|]. split; [reflexivity|].
  unfold wf_tensor. cbn [data shape]. rewrite numel2.
  apply length_concat_tabulate. intros i. apply length_tabulate.
Qed.

Lemma bcast_dim_same (a : nat) : bcast_dim a a = Some a.
Proof. unfold bcast_dim. rewrite Nat.eqb_refl. reflexivity. Qed.

Lemma bcast_dim_one (a : nat) : bcast_dim a 1 = Some a.
Proof.
  unfold bcast_dim. destruct (a =? 1)%nat; reflexivity.
Qed.

(** A 3-dimensional tensor times a mask with a trailing unit dimension. *)
Lemma mul3_mask_shape (a m : Tensor) (b t w : nat) :
  shape a = [b; t; w] -> shape m = [b; t] ->
  exists y, mul3 a (unsqueeze_last m) = Ok y
            /\ shape y = [b; t; w] /\ wf_tensor y.
Proof.
  intros Ha Hm. unfold mul3, unsqueeze_last. cbn [shape]. rewrite Ha, Hm.
  cbn [app]. rewrite !bcast_dim_same, bcast_dim_one.
  eexists. split; [reflexivity|]. split; [reflexivity|].
  unfold wf_tensor. cbn [data shape]. rewrite numel3.
  rewrite (length_concat_tabulate b (t * w)); [lia|].
  intros i. apply length_concat_tabulate. intros j. apply length_tabulate.
Qed.

Lemma sum_dim1_shape (x : Tensor) (b t l : nat) :
  shape x = [b; t; l] ->
  exists y, sum_dim1 x = Ok y /\ shape y = [b; l] /\ wf_tensor y.
Proof.
  intros Hs. unfold sum_dim1. rewrite Hs.
  eexists. split; [reflexivity|]. split; [reflexivity|].
  unfold wf_tensor. cbn [data shape]. rewrite numel2.
  apply length_concat_tabulate. intros i. apply length_tabulate.
Qed.

Section StackShape.

Variable gru_eval : GRU -> Tensor -> Tensor.
Hypothesis gru_shape : gru_shape_contract gru_eval.

(** Feeding a well-chained stack keeps the two leading sizes and ends with
    the width of its last module. *)
Lemma stack_forward_shape (gs : list GRU) :
  forall (x : Tensor) (b t w : nat),
    chain_ok w gs -> shape x = [b; t; w] ->
    exists y,
      foldM (fun d temp_rnn_model => GRU_forward gru_eval temp_rnn_model d) x gs
      = Ok y
      /\ shape y = [b; t; chain_out w gs].
Proof.
  induction gs as [|g gs IH]; intros x b t w Hok Hs.
  - exists x. split; [reflexivity | exact Hs].
  - destruct Hok as [Hin Hok]. cbn [foldM chain_out].
    assert (Hg : GRU_forward gru_eval g x = Ok (gru_eval g x)).
    { unfold GRU_forward. rewrite Hs, Hin, Nat.eqb_refl. reflexivity. }
    rewrite Hg. cbn [mbind result_bind].
    apply (IH (gru_eval g x) b t (gru_output_size g) Hok).
    apply gru_shape. rewrite Hin. exact Hs.
Qed.

End StackShape.

Lemma numel_rows (b t w : nat) : numel [b * t; w]%nat = numel [b; t; w].
Proof. rewrite numel2, numel3. reflexivity. Qed.

(** C8: for a configuration whose layer count is the length of its hidden-size
    list and an input batch of size (B, T, F), F the configured input size,
    the forward pass returns [all_output] of size (B, T, L) and [cur_output]
    of size (B, L), L the label dimension. *)
Theorem C8_forward_output_shapes
    (gru_eval : GRU -> Tensor -> Tensor) (init : initializer)
    (c : PredictorConfig) (B T F L : nat) (X M cur_M : Tensor) :
  gru_shape_contract gru_eval ->
  cfg_input_size c = Some F ->
  cfg_label_size c = L ->
  cfg_num_layers c = length (cfg_layer_hidden_sizes c) ->
  (1 <= B)%nat -> (1 <= T)%nat -> (1 <= F)%nat -> (1 <= L)%nat ->
  shape X = [B; T; F] -> shape M = [B; T] -> shape cur_M = [B; T] ->
  exists p all_output cur_output,
    callPredictor_init init c = Ok p
    /\ forward gru_eval p (mkBatch X M cur_M) = Ok (all_output, cur_output)
    /\ shape all_output = [B; T; L]
    /\ shape cur_output = [B; L]
    /\ wf_tensor all_output
    /\ wf_tensor cur_output.
Proof.
  intros Hgru Hf HL Hn _ _ HF _ HX HM HcM.
  pose proof (callPredictor_init_ok init c F Hf Hn) as Hp.
  match type of Hp with _ = Ok ?q => set (p := q) in * end.
  cut (exists a cu,
         forward gru_eval p (mkBatch X M cur_M) = Ok (a, cu)
         /\ shape a = [B; T; L] /\ shape cu = [B; L]
         /\ wf_tensor a /\ wf_tensor cu).
  { intros (a & cu & H). exists p, a, cu. split; [exact Hp | exact H]. }
  clear Hp. subst p.
  set (hs := cfg_layer_hidden_sizes c). set (E := cfg_embed_size c).
  set (W := List.last (E :: map (widen (cfg_bidirectional c)) hs) E).
  set (gs := build_stack init c 0 E hs).
  unfold forward. cbn [input_X input_M input_cur_M embed_func output_func
                       rnn_models embed_size label_size].
  rewrite HX, (view_rows_ok X B T F HX) by lia.
  cbn [mbind result_bind].
  destruct (Linear_forward_shape (nn_Linear init "embed_func" F E)
              (mkTensor [B * T; F]%nat (data X)) (B * T) eq_refl)
    as (e & He & Hes & _).
  rewrite He. cbn [mbind result_bind].
  rewrite (reshape_ok e [B; T; E])
    by (rewrite Hes; symmetry; apply numel_rows).
  cbn [mbind result_bind].
  destruct (build_stack_chain init c 0 E hs) as [Hok Hout].
  destruct (stack_forward_shape gru_eval Hgru gs
              (mkTensor [B; T; E] (data e)) B T E Hok eq_refl)
    as (o & Ho & Hos).
  fold gs in Hout. rewrite Hout in Hos. fold W in Hos.
  rewrite Ho. cbn [mbind result_bind].
  destruct (mul3_mask_shape o M B T W Hos HM) as (m & Hm & Hms & _).
  rewrite Hm. cbn [mbind result_bind]. rewrite Hms.
  rewrite (reshape_ok o [B * T; W]%nat)
    by (rewrite Hos; apply numel_rows).
  cbn [mbind result_bind].
  destruct (Linear_forward_shape (nn_Linear init "output_func" W (cfg_label_size c))
              (mkTensor [B * T; W]%nat (data o)) (B * T) eq_refl)
    as (pr & Hpr & Hprs & Hprw).
  rewrite Hpr. cbn [mbind result_bind].
  cbn [out_features nn_Linear] in Hprs. rewrite HL in *.
  rewrite (reshape_ok pr [B; T; L])
    by (rewrite Hprs; symmetry; apply numel_rows).
  cbn [mbind result_bind].
  destruct (mul3_mask_shape (mkTensor [B; T; L] (data pr)) cur_M B T L
              eq_refl HcM) as (wt & Hwt & Hwts & _).
  rewrite Hwt. cbn [mbind result_bind].
  destruct (sum_dim1_shape wt B T L Hwts) as (cu & Hcu & Hcus & Hcuw).
  rewrite Hcu. cbn [mbind result_bind mret result_ret].
  do 2 eexists. split; [reflexivity|]. split; [reflexivity|].
  repeat split; try assumption.
  unfold wf_tensor in *. cbn [data shape]. rewrite Hprw, Hprs.
  apply numel_rows.
Qed.

Lemma toy_gru_contract : gru_shape_contract toy_gru.
Proof.
  intros g x d0 d1 Hs. unfold toy_gru. rewrite Hs. reflexivity.
Qed.

(** C8 on the small network and a batch of one sample with two timesteps. *)
Lemma C8_small_batch_shapes :
  exists p all_output cur_output,
    callPredictor_init (init_const 1) cfg_small = Ok p
    /\ forward toy_gru p batch_small = Ok (all_output, cur_output)
    /\ shape all_output = [1; 2; 1]%nat
    /\ shape cur_output = [1; 1]%nat
    /\ wf_tensor all_output
    /\ wf_tensor cur_output.
Proof.
  apply (C8_forward_output_shapes toy_gru (init_const 1) cfg_small 1 2 2 1);
    solve [apply toy_gru_contract | reflexivity | lia].
Defined.

(** ** The validity mask in the forward pass *)

Lemma mul3_depends_on_shape_only (a m m' : Tensor) :
  shape m = shape m' ->
  match mul3 a m, mul3 a m' with
  | Ok y, Ok y' => shape y = shape y'
  | Raise e, Raise e' => e = e'
  | _, _ => False
  end.
Proof.
  intros H. unfold mul3. rewrite <- H.
  destruct (shape a) as [|a0 [|a1 [|a2 [|]]]]; try reflexivity.
  destruct (shape m) as [|b0 [|b1 [|b2 [|]]]]; try reflexivity.
  destruct (bcast_dim a0 b0), (bcast_dim a1 b1), (bcast_dim a2 b2);
    reflexivity.
Qed.

(** The values of the validity mask never reach the result of [forward]:
    two masks of the same size give the same outputs. *)
Lemma forward_ignores_mask_values gru_eval (p : callPredictor)
    (X M M' cur_M : Tensor) :
  shape M = shape M' ->
  forward gru_eval p (mkBatch X M cur_M) = forward gru_eval p (mkBatch X M' cur_M).
Proof.
  intros H. unfold forward. cbn [input_X input_M input_cur_M].
  destruct (shape X) as [|b [|t [|f [|]]]]; try reflexivity.
  destruct (view_rows X f) as [v|]; [|reflexivity]. cbn [mbind result_bind].
  destruct (Linear_forward (embed_func p) v) as [e|]; [|reflexivity].
  cbn [mbind result_bind].
  destruct (reshape e [b; t; embed_size p]) as [d|]; [|reflexivity].
  cbn [mbind result_bind].
  destruct (foldM _ d (rnn_models p)) as [o|]; [|reflexivity].
  cbn [mbind result_bind].
  assert (Hu : shape (unsqueeze_last M) = shape (unsqueeze_last M'))
    by (unfold unsqueeze_last; cbn [shape]; rewrite H; reflexivity).
  pose proof (mul3_depends_on_shape_only o _ _ Hu) as Hm.
  destruct (mul3 o (unsqueeze_last M)) as [y|], (mul3 o (unsqueeze_last M')) as [y'|];
    try contradiction; cbn [mbind result_bind].
  - rewrite Hm. reflexivity.
  - rewrite Hm. reflexivity.
Qed.

(** C3: on a batch whose second timestep is padding, [forward] returns the
    projection of the unmasked recurrent output; it differs at the padded
    timestep from the projection of the masked output, whose input there is
    zero. *)
Theorem C3_forward_projects_unmasked_output :
  exists p outputs all_output cur_output masked,
    callPredictor_init (init_const 1) cfg_small = Ok p
    /\ recurrent_output toy_gru p (input_X batch_small) = Ok outputs
    /\ forward toy_gru p batch_small = Ok (all_output, cur_output)
    /\ masked_projection p outputs (input_M batch_small) = Ok masked
    /\ (get (input_M batch_small) 1 == 0)%Q
    /\ ~ (get outputs 1 == 0)%Q
    /\ (get all_output 1 == 5)%Q
    /\ (get masked 1 == 1)%Q
    /\ ~ (get all_output 1 == get masked 1)%Q.
Proof.
  do 5 eexists.
  split; [vm_compute; reflexivity|].
  split; [vm_compute; reflexivity|].
  split; [vm_compute; reflexivity|].
  split; [vm_compute; reflexivity|].
  repeat split; vm_compute; congruence.
Qed.

(** ** Parameter state: saving and reloading *)

(** The persisted state covers the two linear layers and nothing else. *)
Lemma state_dict_keys (p : callPredictor) :
  map fst (state_dict p)
  = ["embed_func.weight"; "embed_func.bias";
     "output_func.weight"; "output_func.bias"].
Proof. reflexivity. Qed.

Lemma DataParallel_state_dict_keys (p : callPredictor) :
  map fst (DataParallel_state_dict p)
  = ["module.embed_func.weight"; "module.embed_func.bias";
     "module.output_func.weight"; "module.output_func.bias"].
Proof. reflexivity. Qed.

(** Loading a state dict leaves the recurrent modules as they were. *)
Lemma load_state_dict_keeps_rnn_models (p p' : callPredictor)
    (d : gmap string Tensor) :
  load_state_dict p d = Ok p' -> rnn_models p' = rnn_models p.
Proof.
  unfold load_state_dict. intros H.
  destruct (forallb _ _); [|discriminate].
  destruct (Linear_load d "embed_func." (embed_func p)); [|discriminate].
  destruct (Linear_load d "output_func." (output_func p)); [|discriminate].
  cbn in H. injection H as <-. reflexivity.
Qed.

(** C1: a network whose parameters all stand at 1 is trained for two epochs
    and saved; the [latest] checkpoint holds the four parameters of the linear
    layers only, and the network obtained by reloading it at once, whose
    fresh parameters are drawn as 2, differs from the saved one in a
    recurrent weight. *)
Theorem C1_reload_misses_recurrent_weights :
  exists p w1 b u w2 p',
    callPredictor_init (init_const 1) cfg_small = Ok p
    /\ fit_loop (outcome_of p [Fin 5; Fin 3]) world_small = (Ok b, w1)
    /\ predictor w1 = Some (DataParallel p)
    /\ checkout_files w1 !! "latest.checkpoint.pth.tar" = Some u
    /\ map fst (unit_state_dict u)
       = ["module.embed_func.weight"; "module.embed_func.bias";
          "module.output_func.weight"; "module.output_func.bias"]
    /\ load_model (mret cfg_small) (init_const 2) "latest" w1 = (Ok tt, w2)
    /\ predictor w2 = Some (Bare p')
    /\ state_dict p' = state_dict p
    /\ exists t t',
         In ("rnn_models.0.weight_ih_l0", t) (all_parameters p)
         /\ In ("rnn_models.0.weight_ih_l0", t') (all_parameters p')
         /\ ~ (get t 0 == get t' 0)%Q.
Proof.
  set (w1 := snd (fit_loop (outcome_of (net_small 1) [Fin 5; Fin 3]) world_small)).
  exists (net_small 1), w1, (Fin 3),
    (mkUnit 1 (DataParallel_state_dict (net_small 1)) (Fin 3) (Fin 3) []),
    (snd (load_model (mret cfg_small) (init_const 2) "latest" w1)),
    (mkPredictor 1 (rnn_models (net_small 2)) 2 2 1 1
       (embed_func (net_small 1)) (output_func (net_small 1))).
  subst w1.
  split; [vm_compute; reflexivity|].
  split; [vm_compute; reflexivity|].
  split; [vm_compute; reflexivity|].
  split; [vm_compute; reflexivity|].
  split; [vm_compute; reflexivity|].
  split; [vm_compute; reflexivity|].
  split; [vm_compute; reflexivity|].
  split; [vm_compute; reflexivity|].
  exists (fresh (init_const 1) "w" [3; 2]%nat), (fresh (init_const 2) "w" [3; 2]%nat).
  split; [vm_compute; right; right; left; reflexivity|].
  split; [vm_compute; right; right; left; reflexivity|].
  vm_compute. congruence.
Qed.

(** ** Reload without a checkpoint *)

(** C4, as the code has it: when the checkpoint file of the requested label
    is absent, [load_model] returns normally after printing one diagnostic
    line, records the label, and leaves on the controller the network it
    built from the persisted configuration, with freshly drawn parameters. *)
Theorem C4_missing_checkpoint_keeps_fresh_network
    (_load_predictor_config : prog PredictorConfig) (init : initializer)
    (loaded_epoch : string) (w w1 : World) (cfg : PredictorConfig)
    (p : callPredictor) (device : pyval) (dir : string) :
  _load_predictor_config w = (Ok cfg, w1) ->
  callPredictor_init init cfg = Ok p ->
  attrs w1 !! "device" = Some device ->
  attrs w1 !! "checkout_dir" = Some (VStr dir) ->
  checkout_files w1 !! (reload_label loaded_epoch +:+ ".checkpoint.pth.tar") = None ->
  exists w2,
    load_model _load_predictor_config init loaded_epoch w = (Ok tt, w2)
    /\ predictor w2 = Some (Bare p)
    /\ _loaded_epoch w2 = Some (reload_label loaded_epoch)
    /\ stdout w2
       = stdout w1 ++ ["no exist " +:+ reload_label loaded_epoch
                       +:+ "-th epoch model, please dbcheck in dir " +:+ dir]
    /\ checkout_files w2 = checkout_files w1.
Proof.
  intros Hcfg Hp Hdev Hdir Hmiss.
  unfold load_model, reload_label in *.
  unfold mbind at 1, prog_bind at 1. rewrite Hcfg.
  unfold mbind at 1, prog_bind at 1, lift at 1. rewrite Hp.
  destruct w1 as [a pr le atn av cf rf wr so].
  cbn [attrs checkout_files] in Hdev, Hdir, Hmiss.
  destruct (String.eqb loaded_epoch "") eqn:He; cbn [negb];
    cbv [mbind prog_bind set_predictor set_loaded_epoch getattr_str getattr
         attr loaded_epoch_attr find_checkpoint print mret prog_ret raise
         attrs predictor _loaded_epoch checkout_files stdout acc_train
         acc_valid result_files writes];
    rewrite Hdev, Hdir, Hmiss; eexists; split; try reflexivity; repeat split.
Qed.

(** C4 on a reload with the default label while no [best] checkpoint exists. *)
Lemma C4_default_label_without_best_file :
  exists w2,
    load_model (mret cfg_small) (init_const 2) "" world_small = (Ok tt, w2)
    /\ predictor w2 = Some (Bare (net_small 2))
    /\ _loaded_epoch w2 = Some "best"
    /\ stdout w2
       = stdout world_small
         ++ ["no exist best-th epoch model, please dbcheck in dir checkouts"]
    /\ checkout_files w2 = checkout_files world_small.
Proof.
  apply (C4_missing_checkpoint_keeps_fresh_network
           (mret cfg_small) (init_const 2) "" world_small world_small
           cfg_small (net_small 2) (VStr "cpu") "checkouts");
    reflexivity.
Defined.

(** The claim of C4 fails: reloading a label that was never saved leaves a
    network on the controller. *)
Lemma C4_reload_of_unknown_label_sets_a_network :
  checkout_files world_small !! "ghost.checkpoint.pth.tar" = None
  /\ predictor world_small = None
  /\ exists w2 p,
       load_model (mret cfg_small) (init_const 2) "ghost" world_small = (Ok tt, w2)
       /\ predictor w2 = Some (Bare p)
       /\ ~ (predictor w2 = None).
Proof.
  split; [reflexivity|]. split; [reflexivity|].
  do 2 eexists. split; [vm_compute; reflexivity|].
  split; [reflexivity | discriminate].
Qed.

(** ** Result retrieval *)

(** Whenever one of the two artifacts is missing, [get_results] prints its
    diagnostics and then raises [UnboundLocalError] on building the result. *)
Lemma get_results_missing_artifact (w : World) (label dir : string) :
  _loaded_epoch w = Some label ->
  attrs w !! "result_dir" = Some (VStr dir) ->
  result_files w !! ("hat_y." +:+ label) = None
  \/ result_files w !! ("y." +:+ label) = None ->
  exists name w',
    get_results w = (Raise (UnboundLocalError name), w')
    /\ stdout w'
       = stdout w
         ++ match result_files w !! ("hat_y." +:+ label) with
            | None => [cannot_find_line dir ("hat_y." +:+ label)]
            | Some _ => []
            end
         ++ match result_files w !! ("y." +:+ label) with
            | None => [cannot_find_line dir ("y." +:+ label)]
            | Some _ => []
            end.
Proof.
  intros Hl Hd Hmiss.
  destruct w as [a pr le atn av cf rf wr so].
  cbn [attrs _loaded_epoch result_files stdout] in *. subst le.
  unfold get_results.
  destruct (rf !! ("hat_y." +:+ label)) as [hy|] eqn:Hh;
    destruct (rf !! ("y." +:+ label)) as [y|] eqn:Hy;
    [destruct Hmiss; discriminate | | |];
    repeat (progress (run_prog; rewrite ?Hd, ?Hh, ?Hy));
    do 2 eexists; (split; [reflexivity|]).
  - rewrite app_nil_l. reflexivity.
  - rewrite app_nil_r. reflexivity.
  - rewrite <- app_assoc. reflexivity.
Qed.

(** C5: with both artifacts missing, [get_results] prints its two diagnostic
    lines and then lets [UnboundLocalError] escape. *)
Theorem C5_get_results_raises_after_diagnostics :
  result_files world_reloaded !! "hat_y.best" = None
  /\ result_files world_reloaded !! "y.best" = None
  /\ exists w',
       get_results world_reloaded = (Raise (UnboundLocalError "hat_y"), w')
       /\ stdout w'
          = ["Error: cannot find file results/hat_y.best or load failed";
             "Error: cannot find file results/y.best or load failed"].
Proof.
  split; [reflexivity|]. split; [reflexivity|].
  eexists. split; vm_compute; reflexivity.
Qed.

(** ** The fit loop *)

Lemma py_mod_ok (e : Z) (v : pyval) (k : Z) :
  to_int v = Some k -> k <> 0%Z -> py_mod e v = Ok (e mod k)%Z.
Proof.
  intros Hv Hk. unfold py_mod. rewrite Hv.
  destruct k; [contradiction | reflexivity | reflexivity].
Qed.

(** One epoch of the loop performs exactly the saves of [epoch_calls]. *)
Lemma fit_epoch_spec (outcome : nat -> epoch_outcome) (best : pyfloat)
    (e : nat) (w : World) (vk : pyval) (k : Z) :
  attrs w !! "n_epoch_saved" = Some vk -> to_int vk = Some k -> k <> 0%Z ->
  exists w',
    fit_epoch outcome best e w = (Ok (next_best outcome best e), w')
    /\ attrs w' = attrs w
    /\ writes w' = writes w ++ epoch_calls k outcome best e
    /\ checkout_files w'
       = apply_calls (epoch_calls k outcome best e) (checkout_files w).
Proof.
  intros Ha Hv Hk.
  destruct w as [a pr le atn av cf rf wr so]. cbn [attrs] in Ha.
  unfold fit_epoch, epoch_calls, epoch_unit, next_best.
  cbv [mbind prog_bind run_epoch last_valid predictor_state_dict
       attrs predictor _loaded_epoch checkout_files stdout
       acc_train acc_valid result_files writes obj_state_dict].
  rewrite rev_unit.
  destruct (float_lt (valid_loss (outcome e)) best) eqn:Hlt;
    cbv [mbind prog_bind mret prog_ret _save_checkpoint getattr attr lift
         fst snd with_best_score epoch unit_state_dict score optimizer
         attrs predictor _loaded_epoch checkout_files stdout
         acc_train acc_valid result_files writes];
    rewrite Ha, (py_mod_ok _ _ _ Hv Hk);
    destruct (Z.of_nat e mod k =? 0)%Z;
    eexists; (split; [reflexivity|]);
    cbn [attrs writes checkout_files]; repeat split;
    rewrite <- ?app_assoc; reflexivity.
Qed.

Lemma apply_calls_app (c1 c2 : list save_call) (m : gmap string checkpoint) :
  apply_calls (c1 ++ c2) m = apply_calls c2 (apply_calls c1 m).
Proof. unfold apply_calls. apply fold_left_app. Qed.

(** The loop over the epochs [es], entered with [best]. *)
Lemma fit_epochs_spec (outcome : nat -> epoch_outcome) (vk : pyval) (k : Z)
    (es : list nat) :
  to_int vk = Some k -> k <> 0%Z ->
  forall (best : pyfloat) (w : World),
    attrs w !! "n_epoch_saved" = Some vk ->
    exists w',
      foldM (fit_epoch outcome) best es w = (Ok (loop_best outcome best es), w')
      /\ attrs w' = attrs w
      /\ writes w' = writes w ++ loop_calls k outcome best es
      /\ checkout_files w'
         = apply_calls (loop_calls k outcome best es) (checkout_files w).
Proof.
  intros Hv Hk. induction es as [|e es IH]; intros best w Ha.
  - exists w. cbn. rewrite app_nil_r. repeat split.
  - destruct (fit_epoch_spec outcome best e w vk k Ha Hv Hk)
      as (w1 & Hrun & Hattrs & Hwrites & Hfiles).
    rewrite <- Hattrs in Ha.
    destruct (IH (next_best outcome best e) w1 Ha)
      as (w2 & Hrun2 & Hattrs2 & Hwrites2 & Hfiles2).
    exists w2. cbn [foldM loop_calls loop_best fold_left].
    unfold mbind at 1, prog_bind at 1. rewrite Hrun.
    split; [exact Hrun2|].
    split; [congruence|].
    split.
    + rewrite Hwrites2, Hwrites, app_assoc. reflexivity.
    + rewrite Hfiles2, Hfiles, apply_calls_app. reflexivity.
Qed.

(** [fit_loop] returns, having performed the saves of [loop_calls]. *)
Lemma fit_loop_spec (outcome : nat -> epoch_outcome) (w : World)
    (vn vk : pyval) (n k : Z) :
  attrs w !! "n_epoch" = Some vn -> to_int vn = Some n ->
  attrs w !! "n_epoch_saved" = Some vk -> to_int vk = Some k -> k <> 0%Z ->
  exists w',
    fit_loop outcome w
    = (Ok (loop_best outcome initial_best_score (seq 0 (Z.to_nat n))), w')
    /\ writes w'
       = writes w ++ loop_calls k outcome initial_best_score (seq 0 (Z.to_nat n))
    /\ checkout_files w'
       = apply_calls (loop_calls k outcome initial_best_score (seq 0 (Z.to_nat n)))
                     (checkout_files w).
Proof.
  intros Hn Hvn Hk Hvk Hk0.
  destruct (fit_epochs_spec outcome vk k (seq 0 (Z.to_nat n)) Hvk Hk0
              initial_best_score w Hk) as (w' & Hrun & _ & Hwrites & Hfiles).
  exists w'. split; [|split; assumption].
  unfold fit_loop. cbv [mbind prog_bind getattr attr lift].
  rewrite Hn. unfold py_range. rewrite Hvn. exact Hrun.
Qed.

(** *** Where a save comes from *)

Lemma loop_calls_app k outcome best (l1 l2 : list nat) :
  loop_calls k outcome best (l1 ++ l2)
  = loop_calls k outcome best l1
    ++ loop_calls k outcome (loop_best outcome best l1) l2.
Proof.
  revert best. induction l1 as [|e l1 IH]; intros best; [reflexivity|].
  cbn [app loop_calls loop_best fold_left]. rewrite IH, app_assoc. reflexivity.
Qed.

Lemma epoch_calls_epoch k outcome best e c :
  In c (epoch_calls k outcome best e) -> epoch (call_unit c) = Z.of_nat e.
Proof.
  unfold epoch_calls. intros H.
  repeat (apply in_app_or in H; destruct H as [H|H]);
    repeat match type of H with
           | In _ (if ?b then _ else _) => destruct b
           end;
    cbn [In] in H; try contradiction;
    destruct H as [<-|[]]; reflexivity.
Qed.

Lemma loop_calls_epoch_in k outcome best es c :
  In c (loop_calls k outcome best es) ->
  exists e, In e es /\ epoch (call_unit c) = Z.of_nat e.
Proof.
  revert best. induction es as [|e es IH]; intros best H; [contradiction|].
  cbn [loop_calls] in H. apply in_app_or in H. destruct H as [H|H].
  - exists e. split; [left; reflexivity|].
    apply (epoch_calls_epoch _ _ _ _ _ H).
  - destruct (IH _ H) as (e' & Hin & He'). exists e'. split; [right|]; assumption.
Qed.

(** The saves tagged with epoch [e] are those of its own iteration. *)
Lemma loop_calls_seq_in k outcome (n e : nat) (c : save_call) :
  (e < n)%nat -> epoch (call_unit c) = Z.of_nat e ->
  In c (loop_calls k outcome initial_best_score (seq 0 n))
  <-> In c (epoch_calls k outcome
              (loop_best outcome initial_best_score (seq 0 e)) e).
Proof.
  intros Hlt Hc.
  replace n with (e + S (n - S e))%nat by lia.
  rewrite seq_app, loop_calls_app. cbn [seq loop_calls Nat.add].
  rewrite !in_app_iff. split.
  - intros [H|[H|H]]; [|exact H|].
    + apply loop_calls_epoch_in in H. destruct H as (e' & Hin & He').
      apply in_seq in Hin. lia.
    + apply loop_calls_epoch_in in H. destruct H as (e' & Hin & He').
      apply in_seq in Hin. lia.
  - intros H. right. left. exact H.
Qed.

(** *** The running best score *)

Lemma Qltb_lt (x y : Q) : Qltb x y = true <-> (x < y)%Q.
Proof. unfold Qltb, Qlt. apply Z.ltb_lt. Qed.

Lemma Qltb_min (x s b : Q) :
  Qltb x (if Qltb s b then s else b) = true
  <-> Qltb x b = true /\ Qltb x s = true.
Proof.
  destruct (Qltb s b) eqn:Hsb; rewrite !Qltb_lt.
  - apply Qltb_lt in Hsb. split; [|tauto].
    intros H. split; [|exact H]. apply (Qlt_trans _ s); assumption.
  - assert (Hbs : (b <= s)%Q).
    { apply Qnot_lt_le. intros H. apply Qltb_lt in H. congruence. }
    split; [|tauto].
    intros H. split; [exact H|]. apply (Qlt_le_trans _ b); assumption.
Qed.

(** Below the smaller of two scores is below both. *)
Lemma float_lt_next (x s b : pyfloat) :
  s <> NaN -> b <> NaN ->
  float_lt x (if float_lt s b then s else b) = true
  <-> float_lt x b = true /\ float_lt x s = true.
Proof.
  intros Hs Hb.
  destruct s as [s| | |], b as [b| | |]; try congruence;
    destruct x as [x| | |]; cbn [float_lt];
    first
      [ pose proof (Qltb_min x s b) as H; destruct (Qltb s b); exact H
      | repeat match goal with
               | |- context [Qltb ?a ?b] => destruct (Qltb a b)
               end;
        cbn [float_lt]; intuition congruence ].
Qed.

Lemma next_best_not_NaN outcome b e : b <> NaN -> next_best outcome b e <> NaN.
Proof.
  unfold next_best. intros Hb.
  destruct (float_lt (valid_loss (outcome e)) b) eqn:H; [|exact Hb].
  intros Hn. rewrite Hn in H. discriminate H.
Qed.

(** Below the running best is below the initial value and every score seen. *)
Lemma float_lt_loop_best outcome (x : pyfloat) (es : list nat) :
  forall b, b <> NaN ->
  (forall e, In e es -> valid_loss (outcome e) <> NaN) ->
  float_lt x (loop_best outcome b es) = true
  <-> float_lt x b = true
      /\ forall e, In e es -> float_lt x (valid_loss (outcome e)) = true.
Proof.
  induction es as [|e es IH]; intros b Hb Hs.
  - cbn. split; [intros H; split; [exact H | intros ? []] | tauto].
  - cbn [loop_best fold_left]. fold (loop_best outcome (next_best outcome b e) es).
    rewrite IH.
    + unfold next_best at 1.
      rewrite float_lt_next by (try apply Hs; try left; auto).
      split.
      * intros [[H1 H2] H3]. split; [exact H1|].
        intros e' [<-|Hin]; [exact H2 | apply H3; exact Hin].
      * intros [H1 H2]. split; [split; [exact H1 | apply H2; left; reflexivity]|].
        intros e' Hin. apply H2. right. exact Hin.
    + apply next_best_not_NaN. exact Hb.
    + intros e' Hin. apply Hs. right. exact Hin.
Qed.

Lemma epoch_calls_best k outcome best e :
  (exists c, In c (epoch_calls k outcome best e) /\ call_is_best c = true)
  <-> float_lt (valid_loss (outcome e)) best = true.
Proof.
  unfold epoch_calls.
  destruct (float_lt (valid_loss (outcome e)) best); split.
  - reflexivity.
  - intros _. eexists. split; [left; reflexivity | reflexivity].
  - intros (c & Hin & Hb). cbn [app] in Hin.
    apply in_app_or in Hin.
    destruct Hin as [Hin|[<-|[]]]; [|discriminate Hb].
    destruct (Z.of_nat e mod k =? 0)%Z; [|contradiction].
    destruct Hin as [<-|[]]. discriminate Hb.
  - discriminate.
Qed.

(** C2, as the code has it: the initial best score is the finite value 1e5.
    For validation scores none of which is NaN, a [best] checkpoint is saved
    by epoch e if and only if the score of e is strictly lower than 1e5 and
    than the score of every earlier epoch. *)
Theorem C2_best_saved_iff_below_1e5_and_prior_scores
    (outcome : nat -> epoch_outcome) (w : World) (vn vk : pyval) (n k : Z) :
  attrs w !! "n_epoch" = Some vn -> to_int vn = Some n ->
  attrs w !! "n_epoch_saved" = Some vk -> to_int vk = Some k -> k <> 0%Z ->
  (forall e, (e < Z.to_nat n)%nat -> valid_loss (outcome e) <> NaN) ->
  exists b w' calls,
    fit_loop outcome w = (Ok b, w')
    /\ writes w' = writes w ++ calls
    /\ forall e, (e < Z.to_nat n)%nat ->
         (best_saved_at calls e
          <-> float_lt (valid_loss (outcome e)) initial_best_score = true
              /\ forall e', (e' < e)%nat ->
                   float_lt (valid_loss (outcome e)) (valid_loss (outcome e')) = true).
Proof.
  intros Hn Hvn Hk Hvk Hk0 Hnan.
  destruct (fit_loop_spec outcome w vn vk n k Hn Hvn Hk Hvk Hk0)
    as (w' & Hrun & Hwrites & _).
  do 3 eexists. split; [exact Hrun|]. split; [exact Hwrites|].
  intros e He.
  transitivity (float_lt (valid_loss (outcome e))
                  (loop_best outcome initial_best_score (seq 0 e)) = true).
  - rewrite <- epoch_calls_best. unfold best_saved_at. split.
    + intros (c & Hin & Hb & Hc). exists c. split; [|exact Hb].
      apply (loop_calls_seq_in k outcome _ e c He Hc). exact Hin.
    + intros (c & Hin & Hb). exists c.
      pose proof (epoch_calls_epoch _ _ _ _ _ Hin) as Hc.
      split; [|split; assumption].
      apply (loop_calls_seq_in k outcome _ e c He Hc). exact Hin.
  - rewrite float_lt_loop_best.
    + split; intros [H1 H2]; (split; [exact H1|]); intros e' He'; apply H2.
      * apply in_seq. lia.
      * apply in_seq in He'. lia.
    + discriminate.
    + intros e' He'. apply in_seq in He'. apply Hnan. lia.
Qed.

(** C2 on four epochs with validation scores 5, 3, 4 and 2. *)
Lemma C2_scores_5_3_4_2 :
  exists b w' calls,
    fit_loop (outcome_of (net_small 1) [Fin 5; Fin 3; Fin 4; Fin 2]) world_four
    = (Ok b, w')
    /\ writes w' = writes world_four ++ calls
    /\ forall e, (e < 4)%nat ->
         (best_saved_at calls e
          <-> float_lt (nth e [Fin 5; Fin 3; Fin 4; Fin 2] NaN) initial_best_score
              = true
              /\ forall e', (e' < e)%nat ->
                   float_lt (nth e [Fin 5; Fin 3; Fin 4; Fin 2] NaN)
                            (nth e' [Fin 5; Fin 3; Fin 4; Fin 2] NaN) = true).
Proof.
  apply (C2_best_saved_iff_below_1e5_and_prior_scores
           (outcome_of (net_small 1) [Fin 5; Fin 3; Fin 4; Fin 2])
           world_four (VInt 4) (VInt 1) 4 1);
    try reflexivity; [lia|].
  intros e He. change (Z.to_nat 4) with 4%nat in He.
  destruct e as [|[|[|[|e]]]]; cbn; try discriminate. lia.
Defined.

(** The scenario of the specification: with validation scores 5, 3, 4, 2 the
    [best] checkpoint is written by the epochs scoring 5, 3 and 2. *)
Lemma best_writes_for_scores_5_3_4_2 :
  map (fun c => epoch (call_unit c))
      (List.filter call_is_best
         (writes (snd (fit_loop
            (outcome_of (net_small 1) [Fin 5; Fin 3; Fin 4; Fin 2]) world_four))))
  = [0; 1; 3]%Z.
Proof. vm_compute. reflexivity. Qed.

(** The claim of C2 fails on its sentinel: a first epoch whose validation
    score is 200000, below +infinity and with no prior epoch to compare with,
    saves no [best] checkpoint. *)
Lemma C2_first_epoch_above_1e5_saves_no_best :
  exists b w',
    fit_loop (outcome_of (net_small 1) [Fin 200000; Fin 300000]) world_small
    = (Ok b, w')
    /\ float_lt (Fin 200000) PosInf = true
    /\ ~ best_saved_at (writes w') 0.
Proof.
  do 2 eexists. split; [vm_compute; reflexivity|]. split; [reflexivity|].
  intros (c & Hin & Hb & _). cbn [writes] in Hin.
  repeat (destruct Hin as [<-|Hin]; [discriminate Hb|]). exact Hin.
Qed.

(** *** The latest and the numbered checkpoints *)

Lemma epoch_calls_latest k outcome best e :
  In (mkCall (epoch_unit outcome best e) (-1) false)
     (epoch_calls k outcome best e).
Proof.
  unfold epoch_calls. apply in_or_app. right. apply in_or_app. right.
  left. reflexivity.
Qed.

Lemma epoch_calls_numbered k outcome best e :
  (exists c, In c (epoch_calls k outcome best e)
             /\ call_is_best c = false /\ call_epoch c = Z.of_nat e)
  <-> (Z.of_nat e mod k = 0)%Z.
Proof.
  unfold epoch_calls. rewrite <- Z.eqb_eq.
  destruct (Z.of_nat e mod k =? 0)%Z; split.
  - reflexivity.
  - intros _. eexists.
    split; [apply in_or_app; right; left; reflexivity | split; reflexivity].
  - intros (c & Hin & Hb & He). exfalso.
    apply in_app_or in Hin. destruct Hin as [Hin|Hin].
    + destruct (float_lt _ _); [|contradiction].
      destruct Hin as [<-|[]]. discriminate Hb.
    + cbn [app In] in Hin. destruct Hin as [<-|[]]. cbn in He. lia.
  - discriminate.
Qed.

Lemma epoch_calls_one_latest k outcome best e :
  length (List.filter is_latest_call (epoch_calls k outcome best e)) = 1%nat.
Proof.
  unfold epoch_calls.
  assert (Hne : (Z.of_nat e =? -1)%Z = false) by (apply Z.eqb_neq; lia).
  destruct (float_lt _ _), (Z.of_nat e mod k =? 0)%Z;
    cbn [app List.filter is_latest_call call_is_best call_epoch negb andb];
    rewrite ?Hne; reflexivity.
Qed.

Lemma loop_calls_count_latest k outcome (es : list nat) :
  forall best,
    length (List.filter is_latest_call (loop_calls k outcome best es)) = length es.
Proof.
  induction es as [|e es IH]; intros best; [reflexivity|].
  cbn [loop_calls length]. rewrite List.filter_app, length_app.
  rewrite epoch_calls_one_latest, IH. reflexivity.
Qed.

(** A save leaves its file in the checkpoint directory. *)
Lemma apply_calls_file_exists (calls : list save_call) :
  forall (m : gmap string checkpoint) (f : string),
    (is_Some (m !! f) \/ exists c, In c calls /\ file_of_call c = f) ->
    is_Some (apply_calls calls m !! f).
Proof.
  induction calls as [|c calls IH]; intros m f H.
  - destruct H as [H|(c & [] & _)]. exact H.
  - cbn [apply_calls fold_left]. apply IH.
    destruct H as [H|(c' & [<-|Hin] & Hf)].
    + left. rewrite lookup_insert_is_Some.
      destruct (decide (file_of_call c = f)); auto.
    + left. rewrite Hf. rewrite lookup_insert_eq. eauto.
    + right. exists c'. split; assumption.
Qed.

Lemma numbered_file_name (u : checkpoint) (e : nat) :
  file_of_call (mkCall u (Z.of_nat e) false)
  = pretty (Z.of_nat e) +:+ ".checkpoint.pth.tar".
Proof.
  unfold file_of_call, checkpoint_label. cbn [call_epoch call_is_best].
  replace (Z.of_nat e =? -1)%Z with false by (symmetry; apply Z.eqb_neq; lia).
  reflexivity.
Qed.

Lemma loop_calls_seq_S k outcome best (m : nat) :
  loop_calls k outcome best (seq 0 (S m))
  = loop_calls k outcome best (seq 0 m)
    ++ epoch_calls k outcome (loop_best outcome best (seq 0 m)) m.
Proof.
  rewrite seq_S, loop_calls_app. cbn [Nat.add loop_calls].
  rewrite app_nil_r. reflexivity.
Qed.

(** After the loop the [latest] file holds the checkpoint of the last epoch. *)
Lemma latest_file_after_loop k outcome best (m : nat)
    (files : gmap string checkpoint) :
  exists u,
    apply_calls (loop_calls k outcome best (seq 0 (S m))) files
      !! "latest.checkpoint.pth.tar" = Some u
    /\ epoch u = Z.of_nat m.
Proof.
  rewrite loop_calls_seq_S. unfold epoch_calls.
  rewrite !app_assoc, apply_calls_app. cbn [apply_calls fold_left].
  eexists. split; [apply lookup_insert_eq | reflexivity].
Qed.

(** C9: every epoch of the loop saves a [latest] checkpoint (epoch marker -1),
    and saves a numbered checkpoint exactly when [epoch mod n_epoch_saved] is
    0.  Over [n_epoch] epochs the [latest] file is written [n_epoch] times
    and ends up holding the last epoch; with [n_epoch_saved = 1] every epoch
    leaves its numbered file. *)
Theorem C9_latest_every_epoch_numbered_on_schedule
    (outcome : nat -> epoch_outcome) (w : World) (vn vk : pyval) (n k : Z) :
  attrs w !! "n_epoch" = Some vn -> to_int vn = Some n ->
  attrs w !! "n_epoch_saved" = Some vk -> to_int vk = Some k -> k <> 0%Z ->
  exists b w' calls,
    fit_loop outcome w = (Ok b, w')
    /\ writes w' = writes w ++ calls
    /\ (forall e, (e < Z.to_nat n)%nat ->
          latest_saved_at calls e
          /\ (numbered_saved_at calls e <-> (Z.of_nat e mod k = 0)%Z))
    /\ length (List.filter is_latest_call calls) = Z.to_nat n
    /\ (forall m, Z.to_nat n = S m ->
          exists u, checkout_files w' !! "latest.checkpoint.pth.tar" = Some u
                    /\ epoch u = Z.of_nat m)
    /\ (k = 1%Z ->
        forall e, (e < Z.to_nat n)%nat ->
          numbered_saved_at calls e
          /\ is_Some (checkout_files w'
                        !! (pretty (Z.of_nat e) +:+ ".checkpoint.pth.tar"))).
Proof.
  intros Hn Hvn Hk Hvk Hk0.
  destruct (fit_loop_spec outcome w vn vk n k Hn Hvn Hk Hvk Hk0)
    as (w' & Hrun & Hwrites & Hfiles).
  set (calls := loop_calls k outcome initial_best_score (seq 0 (Z.to_nat n))) in *.
  assert (Hnum : forall e, (e < Z.to_nat n)%nat ->
            (numbered_saved_at calls e <-> (Z.of_nat e mod k = 0)%Z)).
  { intros e He. rewrite <- (epoch_calls_numbered k outcome
        (loop_best outcome initial_best_score (seq 0 e)) e).
    unfold numbered_saved_at. split.
    - intros (c & Hin & Hb & Hce & Hc). exists c.
      split; [|split; assumption].
      apply (loop_calls_seq_in k outcome _ e c He Hc). exact Hin.
    - intros (c & Hin & Hb & Hce). exists c.
      pose proof (epoch_calls_epoch _ _ _ _ _ Hin) as Hc.
      split; [|repeat split; assumption].
      apply (loop_calls_seq_in k outcome _ e c He Hc). exact Hin. }
  exists (loop_best outcome initial_best_score (seq 0 (Z.to_nat n))), w', calls.
  split; [exact Hrun|]. split; [exact Hwrites|].
  split; [|split; [|split]].
  - intros e He. split; [|apply Hnum; exact He].
    exists (mkCall (epoch_unit outcome
                      (loop_best outcome initial_best_score (seq 0 e)) e)
                   (-1) false).
    split; [|repeat split].
    apply (loop_calls_seq_in k outcome _ e
             (mkCall (epoch_unit outcome
                        (loop_best outcome initial_best_score (seq 0 e)) e)
                     (-1) false) He eq_refl).
    apply epoch_calls_latest.
  - unfold calls. rewrite loop_calls_count_latest. apply length_seq.
  - intros m Hm. rewrite Hfiles. unfold calls. rewrite Hm.
    apply latest_file_after_loop.
  - intros -> e He.
    assert (Hsaved : numbered_saved_at calls e).
    { apply Hnum; [exact He | apply Z.mod_1_r]. }
    split; [exact Hsaved|].
    destruct Hsaved as (c & Hin & Hb & Hce & _).
    rewrite Hfiles. apply apply_calls_file_exists. right. exists c.
    split; [exact Hin|]. destruct c as [u ce cb].
    cbn [call_is_best call_epoch] in Hb, Hce. subst ce cb.
    apply numbered_file_name.
Qed.

(** C9 on two epochs with [n_epoch_saved = 1]. *)
Lemma C9_two_epochs_saved_every_epoch :
  exists b w' calls,
    fit_loop (outcome_of (net_small 1) [Fin 5; Fin 3]) world_small = (Ok b, w')
    /\ writes w' = writes world_small ++ calls
    /\ (forall e, (e < 2)%nat ->
          latest_saved_at calls e
          /\ (numbered_saved_at calls e <-> (Z.of_nat e mod 1 = 0)%Z))
    /\ length (List.filter is_latest_call calls) = 2%nat
    /\ (forall m, 2%nat = S m ->
          exists u, checkout_files w' !! "latest.checkpoint.pth.tar" = Some u
                    /\ epoch u = Z.of_nat m)
    /\ (1%Z = 1%Z ->
        forall e, (e < 2)%nat ->
          numbered_saved_at calls e
          /\ is_Some (checkout_files w'
                        !! (pretty (Z.of_nat e) +:+ ".checkpoint.pth.tar"))).
Proof.
  apply (C9_latest_every_epoch_numbered_on_schedule
           (outcome_of (net_small 1) [Fin 5; Fin 3]) world_small
           (VInt 2) (VInt 1) 2 1);
    solve [reflexivity | lia].
Defined.

(** The scenario of the specification, two epochs saved every epoch: three
    files are left, [0], [1] and [latest], next to [best]. *)
Lemma files_after_two_epochs :
  let files := checkout_files (snd (fit_loop
                 (outcome_of (net_small 1) [Fin 5; Fin 3]) world_small)) in
  size files = 4%nat
  /\ Forall (fun f => is_Some (files !! f))
        ["0.checkpoint.pth.tar"; "1.checkpoint.pth.tar";
         "best.checkpoint.pth.tar"; "latest.checkpoint.pth.tar"].
Proof.
  split; [vm_compute; reflexivity|].
  repeat constructor; vm_compute; eexists; reflexivity.
Qed.

(** ** Construction and validation *)

Lemma attr_assigned (a : InitArgs) (n : Z) (m : gmap string pyval) :
  attr (assigned_attrs a n m) "num_layers" = Ok (VInt n)
  /\ forall name v, In (name, v) (hyperparameters a) ->
       attr (assigned_attrs a n m) name = Ok v.
Proof.
  unfold attr, assigned_attrs. split; [simplify_map_eq; reflexivity|].
  intros name v Hin. cbn [hyperparameters In] in Hin.
  repeat (destruct Hin as [Heq|Hin];
          [injection Heq as <- <-; simplify_map_eq; reflexivity|]).
  contradiction.
Qed.

(** The assignments of [__init__] store every argument; they stop half-way
    only when [len(layer_hidden_sizes)] raises. *)
Lemma assign_args_ok (a : InitArgs) (n : Z) (w : World) :
  py_len (arg_layer_hidden_sizes a) = Ok n ->
  assign_args a w = (Ok tt, with_attrs w (assigned_attrs a n (attrs w))).
Proof.
  intros Hlen. destruct w as [m pr le atn av cf rf wr so].
  unfold assign_args. run_prog. rewrite Hlen. reflexivity.
Qed.

Lemma assign_args_no_len (a : InitArgs) (e : exn) (w : World) :
  py_len (arg_layer_hidden_sizes a) = Raise e ->
  exists w', assign_args a w = (Raise e, w') /\ ConfigurationError e.
Proof.
  intros Hlen. destruct w as [m pr le atn av cf rf wr so].
  unfold assign_args. run_prog. rewrite Hlen.
  eexists. split; [reflexivity|].
  unfold py_len in Hlen. destruct (arg_layer_hidden_sizes a); try discriminate;
    injection Hlen as <-; exact I.
Qed.

(** *** The assertions, one after the other *)

Lemma run_checks_ok_iff (cs : list check) (o : gmap string pyval) :
  run_checks cs o = Ok tt <-> forall c, In c cs -> chk_cond c o = Ok true.
Proof.
  induction cs as [|c cs IH]; cbn [run_checks In].
  - split; [intros _ c [] | reflexivity].
  - split.
    + intros H c' [<-|Hin].
      * destruct (chk_cond c o) as [[|]|]; cbn in H; try discriminate.
        reflexivity.
      * destruct (chk_cond c o) as [[|]|]; cbn in H; try discriminate.
        apply IH; assumption.
    + intros H. rewrite (H c) by (left; reflexivity). cbn.
      apply IH. intros c' Hin. apply H. right. exact Hin.
Qed.

(** A failure of [run_checks] is the failure of its first check that does
    not hold. *)
Lemma run_checks_raise (cs : list check) (o : gmap string pyval) (e : exn) :
  run_checks cs o = Raise e ->
  exists pre c post,
    cs = pre ++ c :: post
    /\ (forall c', In c' pre -> chk_cond c' o = Ok true)
    /\ ((chk_cond c o = Ok false /\ e = AssertionError (chk_msg c))
        \/ chk_cond c o = Raise e).
Proof.
  revert e. induction cs as [|c cs IH]; intros e; cbn [run_checks];
    [discriminate|].
  destruct (chk_cond c o) as [[|]|e'] eqn:Hc; cbn; intros H.
  - destruct (IH e H) as (pre & c' & post & -> & Hpre & Hc').
    exists (c :: pre), c', post. split; [reflexivity|].
    split; [|exact Hc'].
    intros c'' [<-|Hin]; [exact Hc | apply Hpre; exact Hin].
  - injection H as <-. exists [], c, cs. split; [reflexivity|].
    split; [intros ? []|]. left. split; [exact Hc | reflexivity].
  - injection H as <-. exists [], c, cs. split; [reflexivity|].
    split; [intros ? []|]. right. exact Hc.
Qed.

(** Looks up an attribute the assignments of [__init__] have stored. *)
Ltac stored_attr :=
  match goal with
  | |- context [attr (assigned_attrs ?a ?n ?m) "num_layers"] =>
    rewrite (proj1 (attr_assigned a n m))
  | |- context [attr (assigned_attrs ?a ?n ?m) ?name] =>
    erewrite (proj2 (attr_assigned a n m) name)
      by (cbn [hyperparameters In];
          repeat first [left; reflexivity | right])
  end.

Ltac eval_check :=
  cbn [chk_cond chk_msg chk_field]; unfold on_attr;
  repeat stored_attr; cbn [mbind result_bind mret result_ret].

(** Splits the table of checks at every position. *)
Ltac split_checks H pre :=
  unfold checks in H;
  repeat (destruct pre as [|? pre];
          [ injection H as <- <-
          | injection H as <- H ]);
  try (destruct pre; discriminate H).

(** After the assignments, a check whose predecessors hold evaluates to a
    boolean: no attribute is missing and the comparison of [n_epoch_saved]
    with [n_epoch] is between integers. *)
Lemma checks_evaluate (a : InitArgs) (n : Z) (m : gmap string pyval)
    (pre : list check) (c : check) (post : list check) :
  checks = pre ++ c :: post ->
  (forall c', In c' pre -> chk_cond c' (assigned_attrs a n m) = Ok true) ->
  exists b, chk_cond c (assigned_attrs a n m) = Ok b.
Proof.
  intros Hsplit Hpre.
  split_checks Hsplit pre; eval_check; try (eexists; reflexivity).
  (* the check of n_epoch_saved, reached once the check of n_epoch holds *)
  destruct (int_gt0 (arg_n_epoch_saved a)) eqn:Hs; [|eexists; reflexivity].
  eval_check.
  assert (Hn : int_gt0 (arg_n_epoch a) = true).
  { specialize (Hpre (mkCheck "n_epoch" (on_attr "n_epoch" int_gt0)
                        "fill in correct n_epoch (int, >0)")).
    revert Hpre. eval_check. intros Hpre.
    assert (H : Ok (int_gt0 (arg_n_epoch a)) = Ok true)
      by (apply Hpre; cbn [In]; tauto).
    injection H as H. exact H. }
  unfold int_gt0 in Hs, Hn. unfold int_lt.
  destruct (to_int (arg_n_epoch_saved a)); [|discriminate].
  destruct (to_int (arg_n_epoch a)); [|discriminate].
  eexists. reflexivity.
Qed.

(** After the assignments, validation fails only by a failed assertion. *)
Lemma run_checks_assigned_raise (a : InitArgs) (n : Z) (m : gmap string pyval)
    (e : exn) :
  run_checks checks (assigned_attrs a n m) = Raise e ->
  exists c, In c checks
            /\ chk_cond c (assigned_attrs a n m) = Ok false
            /\ e = AssertionError (chk_msg c).
Proof.
  intros H. apply run_checks_raise in H.
  destruct H as (pre & c & post & Hsplit & Hpre & Hc).
  exists c. split; [rewrite Hsplit; apply in_elt|].
  destruct Hc as [Hc|Hc]; [exact Hc|].
  destruct (checks_evaluate a n m pre c post Hsplit Hpre) as [b Hb].
  congruence.
Qed.

(** Every message names the attribute its check examines, but for the checks
    of [n_epoch_saved], [dropout] and [loss_name]. *)
Lemma checks_name_their_field (c : check) :
  In c checks ->
  ~ In (chk_field c) ["n_epoch_saved"; "dropout"; "loss_name"] ->
  names_field c = true.
Proof.
  unfold checks. cbn [In]. intros Hin Hnot.
  repeat (destruct Hin as [<-|Hin];
          [first [reflexivity | exfalso; apply Hnot; cbn; tauto]|]).
  contradiction.
Qed.

Lemma EmbedGRU_init_after_assignment
    (BaseControler_init : pyval -> prog unit)
    (_get_lossname : pyval -> prog pyval) (_get_device : prog pyval)
    (a : InitArgs) (w w0 : World) (n : Z) :
  BaseControler_init (arg_expmodel_id a) w = (Ok tt, w0) ->
  py_len (arg_layer_hidden_sizes a) = Ok n ->
  EmbedGRU_init BaseControler_init _get_lossname _get_device a w
  = _args_check _get_lossname _get_device
      (with_attrs w0 (assigned_attrs a n (attrs w0))).
Proof.
  intros Hbase Hlen. unfold EmbedGRU_init.
  unfold mbind at 1, prog_bind at 1. rewrite Hbase.
  unfold mbind at 1, prog_bind at 1. rewrite (assign_args_ok a n w0 Hlen).
  reflexivity.
Qed.

(** C6, as the code has it: [__init__] stores every hyperparameter on the
    controller before it validates.  When validation fails, construction
    raises the [AssertionError] of the first assertion that does not hold,
    with all hyperparameter fields stored; the message names the examined
    field for every assertion but those on [n_epoch_saved], [dropout] and
    [loss_name]. *)
Theorem C6_validation_follows_assignment
    (BaseControler_init : pyval -> prog unit)
    (_get_lossname : pyval -> prog pyval) (_get_device : prog pyval)
    (a : InitArgs) (w w0 : World) (n : Z) (e : exn) :
  BaseControler_init (arg_expmodel_id a) w = (Ok tt, w0) ->
  py_len (arg_layer_hidden_sizes a) = Ok n ->
  run_checks checks (assigned_attrs a n (attrs w0)) = Raise e ->
  exists w',
    EmbedGRU_init BaseControler_init _get_lossname _get_device a w = (Raise e, w')
    /\ (forall name v, In (name, v) (hyperparameters a) ->
          attrs w' !! name = Some v)
    /\ exists c,
         In c checks
         /\ chk_cond c (attrs w') = Ok false
         /\ e = AssertionError (chk_msg c)
         /\ (~ In (chk_field c) ["n_epoch_saved"; "dropout"; "loss_name"] ->
             names_field c = true).
Proof.
  intros Hbase Hlen Hfail.
  exists (with_attrs w0 (assigned_attrs a n (attrs w0))).
  split; [|split].
  - rewrite (EmbedGRU_init_after_assignment _ _ _ a w w0 n Hbase Hlen).
    unfold _args_check. unfold mbind at 1, prog_bind at 1.
    cbn [attrs with_attrs]. rewrite Hfail. reflexivity.
  - intros name v Hin. cbn [attrs with_attrs].
    pose proof (proj2 (attr_assigned a n (attrs w0)) name v Hin) as H.
    unfold attr in H.
    destruct (assigned_attrs a n (attrs w0) !! name); congruence.
  - cbn [attrs with_attrs].
    destruct (run_checks_assigned_raise a n (attrs w0) e Hfail)
      as (c & Hin & Hc & He).
    exists c. repeat split; try assumption.
    apply checks_name_their_field. exact Hin.
Qed.

(** C6 on the default arguments with the unknown task [icu]. *)
Lemma C6_unknown_task_is_rejected_after_assignment :
  exists w',
    EmbedGRU_init base_noop lossname_as_given device_cpu
      (with_task default_args (VStr "icu")) new_world
    = (Raise (AssertionError
                "fill in correct task (str, ['mortality','phenotyping'])"), w')
    /\ (forall name v,
          In (name, v) (hyperparameters (with_task default_args (VStr "icu"))) ->
          attrs w' !! name = Some v)
    /\ exists c,
         In c checks
         /\ chk_cond c (attrs w') = Ok false
         /\ AssertionError
              "fill in correct task (str, ['mortality','phenotyping'])"
            = AssertionError (chk_msg c)
         /\ (~ In (chk_field c) ["n_epoch_saved"; "dropout"; "loss_name"] ->
             names_field c = true).
Proof.
  apply (C6_validation_follows_assignment base_noop lossname_as_given device_cpu
           (with_task default_args (VStr "icu")) new_world new_world 3);
    vm_compute; reflexivity.
Defined.

(** The claim of C6 fails: an unknown task is rejected, and the rejected
    controller already carries the hyperparameters it was given. *)
Lemma C6_rejected_controller_holds_its_fields :
  attrs new_world !! "dropout" = None
  /\ exists msg w',
       EmbedGRU_init base_noop lossname_as_given device_cpu
         (with_task default_args (VStr "icu")) new_world
       = (Raise (AssertionError msg), w')
       /\ attrs w' !! "task" = Some (VStr "icu")
       /\ attrs w' !! "dropout" = Some (VFloat (Fin (1 # 2)))
       /\ attrs w' !! "n_epoch" = Some (VInt 100).
Proof.
  split; [reflexivity|].
  exists "fill in correct task (str, ['mortality','phenotyping'])",
    (snd (EmbedGRU_init base_noop lossname_as_given device_cpu
            (with_task default_args (VStr "icu")) new_world)).
  split; [vm_compute; reflexivity|].
  repeat split; vm_compute; reflexivity.
Qed.

(** *** Which configurations pass *)

Lemma float_lt_not_ge (x y : pyfloat) :
  float_lt x y = true -> float_ge x y = false.
Proof.
  destruct x as [a| | |], y as [b| | |]; cbn; try congruence.
  intros H. apply Qltb_lt in H.
  destruct (Qle_bool b a) eqn:Hle; [|reflexivity].
  apply Qle_bool_iff in Hle. exfalso. apply (Qlt_not_le _ _ H Hle).
Qed.

(** The documented constraints make every assertion hold. *)
Lemma documented_ok_checks (a : InitArgs) (n : Z) (m : gmap string pyval) :
  documented_ok a ->
  py_len (arg_layer_hidden_sizes a) = Ok n ->
  forall c, In c checks -> chk_cond c (assigned_attrs a n m) = Ok true.
Proof.
  intros [Htask (ne & Hne & Hne0) (nb & Hnb & Hnb0) (lr & Hlr & Hlr0)
          (wd & Hwd & Hwd0) (s & ne' & Hs & Hne' & Hs0 & Hsn)
          (es & Hes & Hes0) (l & Hl & Hl0 & _) (d & Hd & Hd0 & Hd1)
          [b1 Hb1] [b2 Hb2] [b3 Hb3] [b4 Hb4] [b5 Hb5]
          (tc & Htc & Htc0 & Htc1) Hagg Hopt [ln Hln]] Hlen c Hin.
  rewrite Hl in Hlen. cbn in Hlen. injection Hlen as <-.
  apply Z.ltb_lt in Hne0, Hnb0, Hes0, Hs0, Hsn.
  unfold checks in Hin. cbn [In] in Hin.
  repeat (destruct Hin as [<-|Hin]; [eval_check|]); try contradiction.
  - destruct Htask as [-> | ->]; reflexivity.
  - rewrite Hnb. cbn. rewrite Hnb0. reflexivity.
  - rewrite Hne. cbn. rewrite Hne0. reflexivity.
  - rewrite Hlr. cbn [float_in]. unfold float_gt. rewrite Hlr0. reflexivity.
  - rewrite Hwd. cbn [float_in]. unfold float_le in Hwd0. rewrite Hwd0.
    reflexivity.
  - rewrite Hs. cbn [int_gt0 to_int]. rewrite Hs0. eval_check.
    rewrite Hne'. cbn. rewrite Hsn. reflexivity.
  - rewrite Hes. cbn. rewrite Hes0. reflexivity.
  - rewrite Hl. destruct l; [contradiction | reflexivity].
  - destruct l; [contradiction | reflexivity].
  - rewrite Hb1. reflexivity.
  - rewrite Hd. cbn [float_in]. unfold float_gt. rewrite Hd0, Hd1. reflexivity.
  - rewrite Hb2. reflexivity.
  - rewrite Hb3. reflexivity.
  - rewrite Hb4. reflexivity.
  - rewrite Htc. cbn [float_in]. unfold float_le in Htc0, Htc1 |- *.
    rewrite Htc0, Htc1. reflexivity.
  - destruct Hagg as [-> | ->]; reflexivity.
  - rewrite Hopt. reflexivity.
  - rewrite Hb5. reflexivity.
  - rewrite Hln. reflexivity.
Qed.

Ltac in_checks := unfold checks; cbn [In]; repeat first [left; reflexivity | right].

(** A dropout outside (0,1), a save frequency reaching the epoch count or a
    negative weight decay makes an assertion fail. *)
Lemma rejected_configuration_fails (a : InitArgs) (n : Z)
    (m : gmap string pyval) :
  dropout_outside_unit_interval a
  \/ n_epoch_saved_reaches_n_epoch a
  \/ weight_decay_negative a ->
  run_checks checks (assigned_attrs a n m) <> Ok tt.
Proof.
  intros Hbad Hok. rewrite run_checks_ok_iff in Hok.
  destruct Hbad as [Hbad|[Hbad|Hbad]].
  - assert (H : Ok (float_in true zero (Some (true, one)) (arg_dropout a))
                = Ok true).
    { specialize (Hok (mkCheck "dropout"
        (on_attr "dropout" (float_in true zero (Some (true, one))))
        "fill in correct learn_ratio (float, >0 and <1.)")).
      revert Hok. eval_check. intros Hok. apply Hok. in_checks. }
    injection H as H. apply Hbad.
    destruct (arg_dropout a) as [| | |f| |]; try discriminate H.
    cbn [float_in] in H. apply andb_true_iff in H. destruct H as [H0 H1].
    exists f. split; [reflexivity|]. split; assumption.
  - destruct Hbad as (s & ne & Hs & Hne & Hle).
    assert (H : (if int_gt0 (arg_n_epoch_saved a)
                 then int_lt (arg_n_epoch_saved a) (arg_n_epoch a)
                 else Ok false) = Ok true).
    { specialize (Hok (mkCheck "n_epoch_saved"
        (fun o => v ← attr o "n_epoch_saved";
                  if int_gt0 v then n ← attr o "n_epoch"; int_lt v n
                  else mret false)
        "fill in correct n_epoch (int, >0 and <{0}).format(self.n_epoch)")).
      revert Hok. eval_check.
      destruct (int_gt0 (arg_n_epoch_saved a)); eval_check;
        intros Hok; apply Hok; in_checks. }
    unfold int_lt in H. rewrite Hs, Hne in H.
    destruct (int_gt0 (arg_n_epoch_saved a)); [|discriminate H].
    injection H as H. apply Z.ltb_lt in H. lia.
  - assert (H : Ok (float_in false zero None (arg_weight_decay a)) = Ok true).
    { specialize (Hok (mkCheck "weight_decay"
        (on_attr "weight_decay" (float_in false zero None))
        "fill in correct weight_decay (float, >=0.)")).
      revert Hok. eval_check. intros Hok. apply Hok. in_checks. }
    injection H as H.
    destruct Hbad as [(f & Hf & Hneg)|(z & Hz & _)]; rewrite ?Hf, ?Hz in H;
      [|discriminate H].
    cbn [float_in] in H. rewrite (float_lt_not_ge _ _ Hneg) in H.
    discriminate H.
Qed.

(** C7: a configuration whose dropout lies outside (0,1), whose
    [n_epoch_saved] is not below [n_epoch], or whose weight decay is negative
    makes construction fail with a configuration error; a configuration that
    satisfies the documented constraints constructs without error. *)
Theorem C7_configuration_errors_and_valid_construction
    (BaseControler_init : pyval -> prog unit)
    (_get_lossname : pyval -> prog pyval) (_get_device : prog pyval)
    (a : InitArgs) (w w0 : World) :
  BaseControler_init (arg_expmodel_id a) w = (Ok tt, w0) ->
  always_returns (_get_lossname (arg_loss_name a)) ->
  always_returns _get_device ->
  (dropout_outside_unit_interval a
   \/ n_epoch_saved_reaches_n_epoch a
   \/ weight_decay_negative a ->
   exists e w',
     EmbedGRU_init BaseControler_init _get_lossname _get_device a w = (Raise e, w')
     /\ ConfigurationError e)
  /\ (documented_ok a ->
      exists w',
        EmbedGRU_init BaseControler_init _get_lossname _get_device a w
        = (Ok tt, w')).
Proof.
  intros Hbase Hloss Hdev. split.
  - intros Hbad. unfold EmbedGRU_init.
    destruct (py_len (arg_layer_hidden_sizes a)) as [n|e] eqn:Hlen.
    + fold (EmbedGRU_init BaseControler_init _get_lossname _get_device a).
      rewrite (EmbedGRU_init_after_assignment _ _ _ a w w0 n Hbase Hlen).
      pose proof (rejected_configuration_fails a n (attrs w0) Hbad) as Hne.
      destruct (run_checks checks (assigned_attrs a n (attrs w0)))
        as [[]|e] eqn:Hrun; [contradiction|].
      destruct (run_checks_assigned_raise a n (attrs w0) e Hrun)
        as (c & _ & _ & ->).
      exists (AssertionError (chk_msg c)). eexists. split; [|exact I].
      unfold _args_check. unfold mbind at 1, prog_bind at 1.
      cbn [attrs with_attrs]. rewrite Hrun. reflexivity.
    + destruct (assign_args_no_len a e w0 Hlen) as (w' & Hassign & He).
      exists e, w'. split; [|exact He].
      unfold mbind at 1, prog_bind at 1. rewrite Hbase.
      unfold mbind at 1, prog_bind at 1. rewrite Hassign. reflexivity.
  - intros Hdoc.
    destruct (doc_layer_hidden_sizes a Hdoc) as (l & Hl & _).
    assert (Hlen : py_len (arg_layer_hidden_sizes a) = Ok (Z.of_nat (length l)))
      by (rewrite Hl; reflexivity).
    rewrite (EmbedGRU_init_after_assignment _ _ _ a w w0 _ Hbase Hlen).
    set (m := assigned_attrs a (Z.of_nat (length l)) (attrs w0)).
    assert (Hrun : run_checks checks m = Ok tt).
    { apply run_checks_ok_iff. apply documented_ok_checks; assumption. }
    assert (Hattr : attr m "loss_name" = Ok (arg_loss_name a)).
    { apply (proj2 (attr_assigned a _ (attrs w0))). cbn. tauto. }
    unfold _args_check.
    unfold mbind at 1, prog_bind at 1. cbn [attrs with_attrs]. rewrite Hrun.
    unfold mbind at 1, prog_bind at 1, getattr at 1.
    cbn [attrs with_attrs]. rewrite Hattr.
    unfold mbind at 1, prog_bind at 1.
    destruct (Hloss (with_attrs w0 m)) as (r & w1 & ->).
    unfold mbind at 1, prog_bind at 1. cbn [setattr].
    unfold mbind at 1, prog_bind at 1.
    match goal with |- context [_get_device ?w] =>
      destruct (Hdev w) as (d & w2 & ->) end.
    eexists. reflexivity.
Qed.

Lemma default_args_documented : documented_ok default_args.
Proof.
  constructor; unfold is_pos_int, is_bool; cbn;
    try solve [ right; reflexivity | reflexivity
              | eexists; split; [reflexivity | first [lia | reflexivity]]
              | eexists; reflexivity
              | eexists; split; [reflexivity | split; reflexivity] ].
  - exists 1%Z, 100%Z. repeat split; lia.
  - eexists. split; [reflexivity|]. split; [discriminate|].
    repeat constructor; eexists; (split; [reflexivity | lia]).
  - left. reflexivity.
Qed.

Lemma stand_ins_return (v : pyval) :
  always_returns (lossname_as_given v) /\ always_returns device_cpu.
Proof. split; intros w; do 2 eexists; reflexivity. Qed.

(** C7 on a dropout of 1.5, which is rejected, and on the default arguments,
    which construct. *)
Lemma C7_dropout_above_one_fails_defaults_construct :
  (exists e w',
     EmbedGRU_init base_noop lossname_as_given device_cpu
       (with_dropout default_args (VFloat (Fin (3 # 2)))) new_world
     = (Raise e, w')
     /\ ConfigurationError e)
  /\ (exists w',
        EmbedGRU_init base_noop lossname_as_given device_cpu default_args new_world
        = (Ok tt, w')).
Proof.
  split.
  - apply (proj1 (C7_configuration_errors_and_valid_construction
                    base_noop lossname_as_given device_cpu
                    (with_dropout default_args (VFloat (Fin (3 # 2))))
                    new_world new_world eq_refl
                    (proj1 (stand_ins_return _)) (proj2 (stand_ins_return VNone)))).
    left. intros (f & Hf & _ & H1). injection Hf as <-. discriminate H1.
  - apply (proj2 (C7_configuration_errors_and_valid_construction
                    base_noop lossname_as_given device_cpu default_args
                    new_world new_world eq_refl
                    (proj1 (stand_ins_return _)) (proj2 (stand_ins_return VNone)))).
    exact default_args_documented.
Defined.
(** * Further properties *)

(** ** What construction accepts *)

Lemma to_int_gt0 (v : pyval) : int_gt0 v = true <-> pos_int_like v.
Proof.
  unfold int_gt0, pos_int_like. destruct (to_int v) as [z|].
  - rewrite Z.ltb_lt. split; [eauto|]. intros (z' & Hz & H). congruence.
  - split; [discriminate|]. intros (z' & Hz & _). discriminate.
Qed.

Lemma str_in_two (v : pyval) (s1 s2 : string) :
  str_in v [s1; s2] = true <-> v = VStr s1 \/ v = VStr s2.
Proof.
  destruct v; cbn; try (split; [discriminate | intros [H|H]; discriminate H]).
  rewrite orb_false_r, orb_true_iff, !String.eqb_eq.
  split; (intros [H|H]; [left | right]); congruence.
Qed.

Lemma str_in_one (v : pyval) (s1 : string) :
  str_in v [s1] = true <-> v = VStr s1.
Proof.
  destruct v; cbn; try (split; discriminate).
  rewrite orb_false_r, String.eqb_eq. split; congruence.
Qed.

Lemma isinstance_bool_iff (v : pyval) : isinstance_bool v = true <-> is_bool v.
Proof.
  unfold is_bool. destruct v; cbn; split; try discriminate; eauto;
    intros [b' H]; discriminate H.
Qed.

Lemma float_above_zero_iff (v : pyval) :
  float_in true zero None v = true
  <-> exists f, v = VFloat f /\ float_lt zero f = true.
Proof.
  destruct v; cbn [float_in]; try (split; [discriminate | intros (f' & H & _); discriminate H]).
  unfold float_gt. rewrite andb_true_r. split; [eauto|].
  intros (f' & H & H0). congruence.
Qed.

Lemma float_from_zero_iff (v : pyval) :
  float_in false zero None v = true
  <-> exists f, v = VFloat f /\ float_le zero f = true.
Proof.
  destruct v; cbn [float_in]; try (split; [discriminate | intros (f' & H & _); discriminate H]).
  unfold float_le. rewrite andb_true_r. split; [eauto|].
  intros (f' & H & H0). congruence.
Qed.

Lemma float_open_unit_iff (v : pyval) :
  float_in true zero (Some (true, one)) v = true <-> dropout_ok v.
Proof.
  unfold dropout_ok.
  destruct v; cbn [float_in]; try (split; [discriminate | intros (f' & H & _); discriminate H]).
  unfold float_gt. rewrite andb_true_iff. split; [eauto|].
  intros (f' & H & H0). injection H as <-. exact H0.
Qed.

Lemma float_closed_unit_iff (v : pyval) :
  float_in false zero (Some (false, one)) v = true
  <-> exists f, v = VFloat f /\ float_le zero f = true /\ float_le f one = true.
Proof.
  destruct v; cbn [float_in]; try (split; [discriminate | intros (f' & H & _); discriminate H]).
  unfold float_le. rewrite andb_true_iff. split; [eauto|].
  intros (f' & H & H0). injection H as <-. exact H0.
Qed.

Lemma saved_below_epochs_iff (s n : pyval) :
  (if int_gt0 s then int_lt s n else Ok false) = Ok true
  <-> exists x y, to_int s = Some x /\ to_int n = Some y /\ (0 < x)%Z /\ (x < y)%Z.
Proof.
  unfold int_gt0, int_lt. destruct (to_int s) as [x|].
  - destruct (0 <? x)%Z eqn:Hx.
    + apply Z.ltb_lt in Hx. destruct (to_int n) as [y|].
      * split.
        -- intros H. injection H as H. apply Z.ltb_lt in H. eauto 6.
        -- intros (x' & y' & Hx' & Hy' & _ & Hlt).
           injection Hx' as <-. injection Hy' as <-.
           f_equal. apply Z.ltb_lt. exact Hlt.
      * split; [discriminate|]. intros (? & ? & _ & H & _). discriminate H.
    + apply Z.ltb_ge in Hx. split; [discriminate|].
      intros (x' & y' & Hx' & _ & H0 & _). injection Hx' as <-. lia.
  - split; [discriminate|]. intros (? & ? & H & _). discriminate H.
Qed.

(** The value of each check once [__init__] has made its assignments. *)
Lemma checks_after_assignment (a : InitArgs) (n : Z) (m : gmap string pyval) :
  map (fun c => (chk_field c, chk_cond c (assigned_attrs a n m))) checks
  = [ ("task", Ok (str_in (arg_task a) ["mortality"; "phenotyping"]));
      ("n_batchsize", Ok (int_gt0 (arg_n_batchsize a)));
      ("n_epoch", Ok (int_gt0 (arg_n_epoch a)));
      ("learn_ratio", Ok (float_in true zero None (arg_learn_ratio a)));
      ("weight_decay", Ok (float_in false zero None (arg_weight_decay a)));
      ("n_epoch_saved",
       if int_gt0 (arg_n_epoch_saved a)
       then int_lt (arg_n_epoch_saved a) (arg_n_epoch a) else Ok false);
      ("embed_size", Ok (int_gt0 (arg_embed_size a)));
      ("layer_hidden_sizes",
       Ok match arg_layer_hidden_sizes a with
          | VList l => (0 <? length l)%nat
          | _ => false
          end);
      ("num_layers", Ok (int_gt0 (VInt n)));
      ("bias", Ok (isinstance_bool (arg_bias a)));
      ("dropout", Ok (float_in true zero (Some (true, one)) (arg_dropout a)));
      ("bidirectional", Ok (isinstance_bool (arg_bidirectional a)));
      ("batch_first", Ok (isinstance_bool (arg_batch_first a)));
      ("target_repl", Ok (isinstance_bool (arg_target_repl a)));
      ("target_repl_coef",
       Ok (float_in false zero (Some (false, one)) (arg_target_repl_coef a)));
      ("aggregate", Ok (str_in (arg_aggregate a) ["sum"; "avg"]));
      ("optimizer_name", Ok (str_in (arg_optimizer_name a) ["adam"]));
      ("use_gpu", Ok (isinstance_bool (arg_use_gpu a)));
      ("loss_name", Ok (isinstance_str (arg_loss_name a))) ].
Proof.
  unfold checks. cbn [map]. eval_check.
  destruct (int_gt0 (arg_n_epoch_saved a)); eval_check; reflexivity.
Qed.

Lemma run_checks_ok_table (cs : list check) (o : gmap string pyval) :
  run_checks cs o = Ok tt
  <-> Forall (fun x => snd x = Ok true)
             (map (fun c => (chk_field c, chk_cond c o)) cs).
Proof.
  rewrite run_checks_ok_iff, List.Forall_map, List.Forall_forall. reflexivity.
Qed.

(** After the assignments the assertions hold exactly for the accepted
    arguments. *)
Lemma run_checks_accepted (a : InitArgs) (l : list pyval)
    (m : gmap string pyval) :
  arg_layer_hidden_sizes a = VList l ->
  run_checks checks (assigned_attrs a (Z.of_nat (length l)) m) = Ok tt
  <-> accepted a.
Proof.
  intros Hl. rewrite run_checks_ok_table, checks_after_assignment.
  repeat rewrite List.Forall_cons_iff. cbn [snd]. rewrite Hl.
  assert (Hok : forall b : bool, Ok b = Ok true <-> b = true)
    by (intros b; split; congruence).
  rewrite !Hok, saved_below_epochs_iff.
  rewrite !to_int_gt0, !isinstance_bool_iff, !str_in_two, str_in_one,
    float_above_zero_iff, float_from_zero_iff, float_open_unit_iff,
    float_closed_unit_iff.
  split.
  - intros (Ht & Hb & Hn & Hlr & Hwd & (s & n & Hs & Hn' & Hs0 & Hsn) & He
            & Hlen & _ & Hbias & Hd & Hbi & Hbf & Htr & Htc & Hag & Hop & Hgpu
            & Hln & _).
    split; [|exact Hd]. constructor; try assumption.
    + exists s, n. repeat split; assumption.
    + exists l. split; [exact Hl|]. destruct l; [discriminate Hlen | discriminate].
    + destruct (arg_loss_name a); try discriminate Hln. eauto.
  - intros [[Ht Hb Hn Hlr Hwd (s & n & Hs & Hn' & Hs0 & Hsn) He (l' & Hl' & Hne)
             Hbias Hbi Hbf Htr Htc Hag Hop Hgpu (ln & Hln)] Hd].
    rewrite Hl in Hl'. injection Hl' as <-.
    repeat split; try assumption.
    + exists s, n. repeat split; assumption.
    + destruct l; [contradiction | reflexivity].
    + exists (Z.of_nat (length l)). split; [reflexivity|].
      destruct l; [contradiction | cbn; lia].
    + rewrite Hln. reflexivity.
    + constructor.
Qed.

(** Once the assertions hold, [_args_check] returns if the two methods of
    the base class do. *)
Lemma args_check_returns
    (_get_lossname : pyval -> prog pyval) (_get_device : prog pyval)
    (a : InitArgs) (n : Z) (w0 : World) :
  always_returns (_get_lossname (arg_loss_name a)) ->
  always_returns _get_device ->
  run_checks checks (assigned_attrs a n (attrs w0)) = Ok tt ->
  exists w',
    _args_check _get_lossname _get_device
      (with_attrs w0 (assigned_attrs a n (attrs w0))) = (Ok tt, w').
Proof.
  intros Hloss Hdev Hrun.
  set (m := assigned_attrs a n (attrs w0)) in *.
  assert (Hattr : attr m "loss_name" = Ok (arg_loss_name a)).
  { apply (proj2 (attr_assigned a _ (attrs w0))). cbn. tauto. }
  unfold _args_check.
  unfold mbind at 1, prog_bind at 1. cbn [attrs with_attrs]. rewrite Hrun.
  unfold mbind at 1, prog_bind at 1, getattr at 1.
  cbn [attrs with_attrs]. rewrite Hattr.
  unfold mbind at 1, prog_bind at 1.
  destruct (Hloss (with_attrs w0 m)) as (r & w1 & ->).
  unfold mbind at 1, prog_bind at 1. cbn [setattr].
  unfold mbind at 1, prog_bind at 1.
  match goal with |- context [_get_device ?w] =>
    destruct (Hdev w) as (d & w2 & ->) end.
  eexists. reflexivity.
Qed.

(** Construction either stops in [len], or runs the assertions on the
    assigned attributes. *)
Lemma construction_outcome
    (BaseControler_init : pyval -> prog unit)
    (_get_lossname : pyval -> prog pyval) (_get_device : prog pyval)
    (a : InitArgs) (w w0 : World) :
  BaseControler_init (arg_expmodel_id a) w = (Ok tt, w0) ->
  (exists e w',
     py_len (arg_layer_hidden_sizes a) = Raise e
     /\ EmbedGRU_init BaseControler_init _get_lossname _get_device a w
        = (Raise e, w'))
  \/ (exists n,
        py_len (arg_layer_hidden_sizes a) = Ok n
        /\ EmbedGRU_init BaseControler_init _get_lossname _get_device a w
           = _args_check _get_lossname _get_device
               (with_attrs w0 (assigned_attrs a n (attrs w0)))).
Proof.
  intros Hbase.
  destruct (py_len (arg_layer_hidden_sizes a)) as [n|e] eqn:Hlen.
  - right. exists n. split; [reflexivity|].
    apply EmbedGRU_init_after_assignment; assumption.
  - left. destruct (assign_args_no_len a e w0 Hlen) as (w' & Hassign & _).
    exists e, w'. split; [reflexivity|].
    unfold EmbedGRU_init.
    unfold mbind at 1, prog_bind at 1. rewrite Hbase.
    unfold mbind at 1, prog_bind at 1. rewrite Hassign. reflexivity.
Qed.

Lemma args_check_raises_with_checks
    (_get_lossname : pyval -> prog pyval) (_get_device : prog pyval)
    (m : gmap string pyval) (w0 : World) (e : exn) :
  run_checks checks m = Raise e ->
  _args_check _get_lossname _get_device (with_attrs w0 m)
  = (Raise e, with_attrs w0 m).
Proof.
  intros H. unfold _args_check. unfold mbind at 1, prog_bind at 1.
  cbn [attrs with_attrs]. rewrite H. reflexivity.
Qed.

Lemma construction_iff
    (BaseControler_init : pyval -> prog unit)
    (_get_lossname : pyval -> prog pyval) (_get_device : prog pyval)
    (a : InitArgs) (w w0 : World) :
  BaseControler_init (arg_expmodel_id a) w = (Ok tt, w0) ->
  always_returns (_get_lossname (arg_loss_name a)) ->
  always_returns _get_device ->
  (exists w',
     EmbedGRU_init BaseControler_init _get_lossname _get_device a w = (Ok tt, w'))
  <-> accepted a.
Proof.
  intros Hbase Hloss Hdev.
  destruct (construction_outcome _ _get_lossname _get_device a w w0 Hbase)
    as [(e & w' & Hlen & Hrun)|(n & Hlen & Hrun)]; rewrite Hrun.
  - split; [intros (w'' & H); discriminate H|].
    intros [[_ _ _ _ _ _ _ (l & Hl & _) _ _ _ _ _ _ _ _ _] _].
    rewrite Hl in Hlen. discriminate Hlen.
  - destruct (arg_layer_hidden_sizes a) as [| | | | |l] eqn:Hl.
    1-4: discriminate Hlen.
    + (* a string has a length, and is no list *)
      split.
      * intros (w' & H). exfalso.
        destruct (run_checks checks (assigned_attrs a n (attrs w0)))
          as [[]|e] eqn:Hc.
        -- apply run_checks_ok_table in Hc.
           rewrite checks_after_assignment in Hc.
           repeat (apply List.Forall_cons_iff in Hc; destruct Hc as [? Hc]).
           cbn [snd] in *. rewrite Hl in *. discriminate.
        -- rewrite (args_check_raises_with_checks _ _ _ _ _ Hc) in H.
           discriminate H.
      * intros [[_ _ _ _ _ _ _ (l & Hl' & _) _ _ _ _ _ _ _ _ _] _].
        rewrite Hl in Hl'. discriminate Hl'.
    + cbn in Hlen. injection Hlen as <-.
      rewrite <- (run_checks_accepted a l (attrs w0)) by (rewrite Hl; reflexivity).
      split.
      * intros (w' & H).
        destruct (run_checks checks _) as [[]|e] eqn:Hc; [reflexivity|].
        rewrite (args_check_raises_with_checks _ _ _ _ _ Hc) in H.
        discriminate H.
      * intros Hc. apply args_check_returns; assumption.
Qed.

(** When the base-class methods return, construction returns normally
    exactly for the accepted arguments: the assertions decide, and nothing
    else does. *)
Theorem construction_succeeds_iff_accepted
    (BaseControler_init : pyval -> prog unit)
    (_get_lossname : pyval -> prog pyval) (_get_device : prog pyval)
    (a : InitArgs) (w w0 : World) :
  BaseControler_init (arg_expmodel_id a) w = (Ok tt, w0) ->
  always_returns (_get_lossname (arg_loss_name a)) ->
  always_returns _get_device ->
  (exists w',
     EmbedGRU_init BaseControler_init _get_lossname _get_device a w = (Ok tt, w'))
  <-> accepted a.
Proof. exact (construction_iff _ _ _ a w w0). Qed.

(** Arguments that are not accepted make construction raise, whatever the
    base class does after validation. *)
Lemma construction_fails_unless_accepted
    (BaseControler_init : pyval -> prog unit)
    (_get_lossname : pyval -> prog pyval) (_get_device : prog pyval)
    (a : InitArgs) (w w0 : World) :
  BaseControler_init (arg_expmodel_id a) w = (Ok tt, w0) ->
  ~ accepted a ->
  exists e w',
    EmbedGRU_init BaseControler_init _get_lossname _get_device a w = (Raise e, w')
    /\ ConfigurationError e.
Proof.
  intros Hbase Hnot.
  destruct (construction_outcome _ _get_lossname _get_device a w w0 Hbase)
    as [(e & w' & Hlen & Hrun)|(n & Hlen & Hrun)]; rewrite Hrun.
  - exists e, w'. split; [reflexivity|].
    unfold py_len in Hlen. destruct (arg_layer_hidden_sizes a);
      try discriminate Hlen; injection Hlen as <-; exact I.
  - destruct (run_checks checks (assigned_attrs a n (attrs w0)))
      as [[]|e] eqn:Hc.
    + exfalso. destruct (arg_layer_hidden_sizes a) as [| | | | |l] eqn:Hl;
        try discriminate Hlen.
      * apply run_checks_ok_table in Hc.
        rewrite checks_after_assignment in Hc.
        repeat (apply List.Forall_cons_iff in Hc; destruct Hc as [? Hc]).
        cbn [snd] in *. rewrite Hl in *. discriminate.
      * cbn in Hlen. injection Hlen as <-. apply Hnot.
        apply (run_checks_accepted a l (attrs w0)); assumption.
    + destruct (run_checks_assigned_raise a n (attrs w0) e Hc)
        as (c & _ & _ & ->).
      rewrite (args_check_raises_with_checks _ _ _ _ _ Hc).
      do 2 eexists. split; [reflexivity | exact I].
Qed.

(** A run of a single epoch can not be configured: [n_epoch_saved] has to be
    positive and below [n_epoch]. *)
Theorem single_epoch_is_rejected
    (BaseControler_init : pyval -> prog unit)
    (_get_lossname : pyval -> prog pyval) (_get_device : prog pyval)
    (a : InitArgs) (w w0 : World) (n : Z) :
  BaseControler_init (arg_expmodel_id a) w = (Ok tt, w0) ->
  to_int (arg_n_epoch a) = Some n -> (n <= 1)%Z ->
  exists e w',
    EmbedGRU_init BaseControler_init _get_lossname _get_device a w = (Raise e, w')
    /\ ConfigurationError e.
Proof.
  intros Hbase Hn Hle. apply (construction_fails_unless_accepted _ _ _ a w w0 Hbase).
  intros [[_ _ _ _ _ (s & n' & _ & Hn' & H0 & Hlt) _ _ _ _ _ _ _ _ _ _ _] _].
  rewrite Hn in Hn'. injection Hn' as <-. lia.
Qed.

(** The defaults with [n_epoch = 1]. *)
Lemma single_epoch_defaults_rejected :
  exists e w',
    EmbedGRU_init base_noop lossname_as_given device_cpu args_one_epoch new_world
    = (Raise e, w')
    /\ ConfigurationError e.
Proof.
  apply (single_epoch_is_rejected base_noop lossname_as_given device_cpu
           args_one_epoch new_world new_world 1); [reflexivity | reflexivity | lia].
Defined.

(** The float hyperparameters are not converted: an [int] given for
    [learn_ratio], [weight_decay], [dropout] or [target_repl_coef] is
    rejected, whatever its value. *)
Theorem int_for_float_is_rejected
    (BaseControler_init : pyval -> prog unit)
    (_get_lossname : pyval -> prog pyval) (_get_device : prog pyval)
    (a : InitArgs) (w w0 : World) :
  BaseControler_init (arg_expmodel_id a) w = (Ok tt, w0) ->
  isinstance_int (arg_learn_ratio a) = true
  \/ isinstance_int (arg_weight_decay a) = true
  \/ isinstance_int (arg_dropout a) = true
  \/ isinstance_int (arg_target_repl_coef a) = true ->
  exists e w',
    EmbedGRU_init BaseControler_init _get_lossname _get_device a w = (Raise e, w')
    /\ ConfigurationError e.
Proof.
  intros Hbase Hint.
  apply (construction_fails_unless_accepted _ _ _ a w w0 Hbase).
  intros [[_ _ _ (f1 & H1 & _) (f2 & H2 & _) _ _ _ _ _ _ _ (f4 & H4 & _) _ _ _ _]
          (f3 & H3 & _)].
  rewrite H1, H2, H3, H4 in Hint. cbn in Hint.
  destruct Hint as [H|[H|[H|H]]]; discriminate H.
Qed.

(** The defaults with the weight decay given as the integer 0. *)
Lemma int_zero_weight_decay_rejected :
  exists e w',
    EmbedGRU_init base_noop lossname_as_given device_cpu
      args_int_weight_decay new_world
    = (Raise e, w')
    /\ ConfigurationError e.
Proof.
  apply (int_for_float_is_rejected base_noop lossname_as_given device_cpu
           args_int_weight_decay new_world new_world eq_refl).
  right. left. reflexivity.
Defined.

Lemma accepted_defaults : accepted default_args.
Proof.
  split.
  - constructor; unfold pos_int_like, is_bool; cbn;
      try solve [ left; reflexivity | right; reflexivity | reflexivity
                | eexists; split; [reflexivity | first [lia | reflexivity | discriminate]]
                | eexists; reflexivity
                | eexists; split; [reflexivity | split; reflexivity] ].
    exists 1%Z, 100%Z. repeat split; lia.
  - eexists. split; [reflexivity|]. split; reflexivity.
Qed.

(** The elements of [layer_hidden_sizes] are not examined: with accepted
    arguments, any non-empty list in their place constructs. *)
Theorem hidden_sizes_elements_unchecked
    (BaseControler_init : pyval -> prog unit)
    (_get_lossname : pyval -> prog pyval) (_get_device : prog pyval)
    (a : InitArgs) (l : list pyval) (w w0 : World) :
  BaseControler_init (arg_expmodel_id a) w = (Ok tt, w0) ->
  always_returns (_get_lossname (arg_loss_name a)) ->
  always_returns _get_device ->
  accepted a -> l <> [] ->
  exists w',
    EmbedGRU_init BaseControler_init _get_lossname _get_device
      (with_layer_hidden_sizes a (VList l)) w = (Ok tt, w').
Proof.
  intros Hbase Hloss Hdev [Hacc Hd] Hl.
  apply (construction_iff _ _ _
           (with_layer_hidden_sizes a (VList l)) w w0 Hbase Hloss Hdev).
  destruct Hacc. split; [|exact Hd].
  constructor; cbn; try assumption. exists l. split; [reflexivity | exact Hl].
Qed.

(** The defaults with a list of strings for the hidden sizes. *)
Lemma hidden_sizes_of_strings_construct :
  exists w',
    EmbedGRU_init base_noop lossname_as_given device_cpu
      (with_layer_hidden_sizes default_args (VList [VStr "wide"; VInt (-3)]))
      new_world = (Ok tt, w').
Proof.
  apply (hidden_sizes_elements_unchecked base_noop lossname_as_given device_cpu
           default_args [VStr "wide"; VInt (-3)] new_world new_world eq_refl
           (proj1 (stand_ins_return _)) (proj2 (stand_ins_return VNone))
           accepted_defaults).
  discriminate.
Defined.

(** The documented defaults, with stand-ins for the base class that return. *)
Lemma construction_of_defaults_iff :
  (exists w',
     EmbedGRU_init base_noop lossname_as_given device_cpu default_args new_world
     = (Ok tt, w'))
  <-> accepted default_args.
Proof.
  apply (construction_succeeds_iff_accepted base_noop lossname_as_given
           device_cpu default_args new_world new_world eq_refl
           (proj1 (stand_ins_return _)) (proj2 (stand_ins_return VNone))).
Defined.

(** *** Which message a rejected dropout gets *)

Lemma run_checks_table (cs : list check) (o : gmap string pyval) :
  run_checks cs o = run_table (map (fun c => (chk_cond c o, chk_msg c)) cs).
Proof.
  induction cs as [|c cs IH]; [reflexivity|].
  cbn [run_checks map run_table].
  destruct (chk_cond c o) as [[|]|e]; cbn; [exact IH | reflexivity | reflexivity].
Qed.

Lemma checks_messages (a : InitArgs) (n : Z) (m : gmap string pyval) :
  map (fun c => (chk_cond c (assigned_attrs a n m), chk_msg c)) checks
  = map (fun x => (snd (fst x), snd x))
        (combine (map (fun c => (chk_field c, chk_cond c (assigned_attrs a n m)))
                      checks)
                 (map chk_msg checks)).
Proof.
  induction checks as [|c cs IH]; [reflexivity|].
  cbn [map combine fst snd]. rewrite IH. reflexivity.
Qed.

(** With every other argument accepted, a dropout that is no float strictly
    between 0 and 1 is reported by the message of its assertion, which is
    worded for [learn_ratio]. *)
Theorem rejected_dropout_is_reported_as_learn_ratio
    (BaseControler_init : pyval -> prog unit)
    (_get_lossname : pyval -> prog pyval) (_get_device : prog pyval)
    (a : InitArgs) (w w0 : World) :
  BaseControler_init (arg_expmodel_id a) w = (Ok tt, w0) ->
  accepted_except_dropout a ->
  ~ dropout_ok (arg_dropout a) ->
  exists w',
    EmbedGRU_init BaseControler_init _get_lossname _get_device a w
    = (Raise (AssertionError "fill in correct learn_ratio (float, >0 and <1.)"),
       w').
Proof.
  intros Hbase Hacc Hd.
  destruct (acc_layer_hidden_sizes a Hacc) as (l & Hl & Hne).
  assert (Hlen : py_len (arg_layer_hidden_sizes a) = Ok (Z.of_nat (length l)))
    by (rewrite Hl; reflexivity).
  rewrite (EmbedGRU_init_after_assignment _ _ _ a w w0 _ Hbase Hlen).
  eexists. apply args_check_raises_with_checks.
  (* the other assertions hold: they do for the same arguments with a
     dropout of one half *)
  assert (Hother : accepted (with_dropout a (VFloat (Fin (1 # 2))))).
  { destruct Hacc. split; [constructor; assumption|].
    eexists. split; [reflexivity|]. split; reflexivity. }
  apply (proj2 (run_checks_accepted (with_dropout a (VFloat (Fin (1 # 2))))
                  l (attrs w0) Hl)) in Hother.
  rewrite run_checks_ok_table, checks_after_assignment in Hother.
  repeat (apply List.Forall_cons_iff in Hother; destruct Hother as [? Hother]).
  cbn [snd with_dropout arg_task arg_n_batchsize arg_n_epoch arg_learn_ratio
       arg_weight_decay arg_n_epoch_saved arg_embed_size
       arg_layer_hidden_sizes arg_bias arg_bidirectional arg_batch_first
       arg_target_repl arg_target_repl_coef arg_aggregate arg_optimizer_name
       arg_use_gpu arg_loss_name] in *.
  rewrite run_checks_table, checks_messages, checks_after_assignment.
  unfold checks. cbn [map combine fst snd chk_msg].
  repeat match goal with
         | H : ?x = Ok true |- context [?x] => rewrite H
         end.
  cbn [run_table].
  repeat match goal with
         | H : Ok _ = Ok true |- _ => injection H as H
         end.
  assert (Hfalse : float_in true zero (Some (true, one)) (arg_dropout a) = false).
  { destruct (float_in true zero (Some (true, one)) (arg_dropout a)) eqn:H';
      [|reflexivity].
    exfalso. apply Hd. apply float_open_unit_iff. exact H'. }
  repeat match goal with
         | H : ?x = true |- context [?x] => rewrite H
         end.
  rewrite Hfalse. reflexivity.
Qed.

(** The defaults with a dropout of 2. *)
Lemma dropout_of_two_is_reported_as_learn_ratio :
  exists w',
    EmbedGRU_init base_noop lossname_as_given device_cpu
      (with_dropout default_args (VFloat (Fin 2))) new_world
    = (Raise (AssertionError "fill in correct learn_ratio (float, >0 and <1.)"),
       w').
Proof.
  apply (rejected_dropout_is_reported_as_learn_ratio
           base_noop lossname_as_given device_cpu
           (with_dropout default_args (VFloat (Fin 2))) new_world new_world
           eq_refl).
  - destruct accepted_defaults as [H _]. destruct H. constructor; assumption.
  - intros (f & Hf & _ & H1). injection Hf as <-. discriminate H1.
Defined.

(** *** A hidden-size argument without a length *)

(** When [layer_hidden_sizes] is [None], a number or a boolean, construction
    stops with the [TypeError] of [len]: no assertion has run, the arguments
    up to [layer_hidden_sizes] are stored, and [num_layers] and the later
    ones are not. *)
Theorem hidden_sizes_without_length_raise_TypeError
    (BaseControler_init : pyval -> prog unit)
    (_get_lossname : pyval -> prog pyval) (_get_device : prog pyval)
    (a : InitArgs) (w w0 : World) :
  BaseControler_init (arg_expmodel_id a) w = (Ok tt, w0) ->
  has_no_len (arg_layer_hidden_sizes a) ->
  exists w',
    EmbedGRU_init BaseControler_init _get_lossname _get_device a w
    = (Raise (TypeError "object has no len()"), w')
    /\ attrs w' !! "task" = Some (arg_task a)
    /\ attrs w' !! "layer_hidden_sizes" = Some (arg_layer_hidden_sizes a)
    /\ forall name, In name assigned_after_len ->
         attrs w' !! name = attrs w0 !! name.
Proof.
  intros Hbase Hno. unfold EmbedGRU_init.
  unfold mbind at 1, prog_bind at 1. rewrite Hbase.
  destruct w0 as [m pr le atn av cf rf wr so].
  unfold mbind at 1, prog_bind at 1. unfold assign_args. run_prog.
  assert (Hlen : py_len (arg_layer_hidden_sizes a)
                 = Raise (TypeError "object has no len()")).
  { destruct (arg_layer_hidden_sizes a); try contradiction; reflexivity. }
  rewrite Hlen. eexists. split; [reflexivity|].
  cbn [attrs]. split; [|split].
  - simplify_map_eq. reflexivity.
  - simplify_map_eq. reflexivity.
  - intros name Hin. cbn [assigned_after_len In] in Hin.
    repeat (destruct Hin as [<-|Hin]; [simplify_map_eq; reflexivity|]).
    contradiction.
Qed.

(** The defaults with [None] for the hidden sizes. *)
Lemma hidden_sizes_None_raise_TypeError :
  exists w',
    EmbedGRU_init base_noop lossname_as_given device_cpu
      (with_layer_hidden_sizes default_args VNone) new_world
    = (Raise (TypeError "object has no len()"), w')
    /\ attrs w' !! "task" = Some (VStr "phenotyping")
    /\ attrs w' !! "layer_hidden_sizes" = Some VNone
    /\ forall name, In name assigned_after_len ->
         attrs w' !! name = attrs new_world !! name.
Proof.
  apply (hidden_sizes_without_length_raise_TypeError
           base_noop lossname_as_given device_cpu
           (with_layer_hidden_sizes default_args VNone) new_world new_world
           eq_refl I).
Defined.

(** ** Loading parameters *)

Lemma stripped_keys (p : callPredictor) :
  map (fun kv => (str_drop 7 (fst kv), snd kv)) (DataParallel_state_dict p)
  = state_dict p.
Proof. reflexivity. Qed.

Lemma state_dict_lookups (p : callPredictor) :
  dict_of_items (state_dict p) !! ("embed_func." +:+ "weight")
  = Some (weight (embed_func p))
  /\ dict_of_items (state_dict p) !! ("embed_func." +:+ "bias")
     = Some (lbias (embed_func p))
  /\ dict_of_items (state_dict p) !! ("output_func." +:+ "weight")
     = Some (weight (output_func p))
  /\ dict_of_items (state_dict p) !! ("output_func." +:+ "bias")
     = Some (lbias (output_func p)).
Proof. repeat split; vm_compute; reflexivity. Qed.

Lemma state_dict_has_own_keys (p q : callPredictor) :
  forallb (fun k => bool_decide (k ∈ map fst (state_dict q)))
          (map fst (map_to_list (dict_of_items (state_dict p)))) = true.
Proof. vm_compute. reflexivity. Qed.

(** Loading the state dict of a network of the same sizes replaces the
    parameters of the two linear layers and nothing else. *)
Lemma load_state_dict_ok (p q : callPredictor) :
  same_linear_shapes p q ->
  load_state_dict q (dict_of_items (state_dict p))
  = Ok (with_linear_layers_of q p).
Proof.
  intros (H1 & H2 & H3 & H4).
  destruct (state_dict_lookups p) as (L1 & L2 & L3 & L4).
  unfold load_state_dict. rewrite state_dict_has_own_keys.
  unfold Linear_load, load_param. rewrite L1, L2, L3, L4.
  rewrite !bool_decide_eq_true_2 by assumption.
  reflexivity.
Qed.

(** A state dict saved without the [module.] prefix loses the first seven
    characters of its keys, which the network then does not know. *)
Lemma load_state_dict_bare_keys (p q : callPredictor) :
  load_state_dict q
    (dict_of_items (map (fun kv => (str_drop 7 (fst kv), snd kv)) (state_dict p)))
  = Raise (RuntimeError "Unexpected key(s) in state_dict").
Proof.
  unfold load_state_dict.
  assert (H : forallb (fun k => bool_decide (k ∈ map fst (state_dict q)))
                (map fst (map_to_list (dict_of_items
                   (map (fun kv => (str_drop 7 (fst kv), snd kv)) (state_dict p)))))
              = false) by (vm_compute; reflexivity).
  rewrite H. reflexivity.
Qed.

(** The state dict of a wrapped network, its prefix stripped, loads into a
    bare network of the same sizes: the linear layers take the saved
    parameters, the recurrent modules stay as they are. *)
Theorem wrapped_state_dict_round_trip (p q : callPredictor) :
  same_linear_shapes p q ->
  exists q',
    load_state_dict q
      (dict_of_items (map (fun kv => (str_drop 7 (fst kv), snd kv))
                          (DataParallel_state_dict p)))
    = Ok q'
    /\ state_dict q' = state_dict p
    /\ rnn_models q' = rnn_models q.
Proof.
  intros H. exists (with_linear_layers_of q p).
  rewrite stripped_keys, (load_state_dict_ok p q H).
  repeat split.
Qed.

Lemma small_networks_same_shapes (x y : Q) :
  same_linear_shapes (net_small x) (net_small y).
Proof. repeat split. Qed.

(** The small network saved with every parameter at 1, loaded into the one
    built with every parameter at 2. *)
Lemma wrapped_state_dict_round_trip_small :
  exists q',
    load_state_dict (net_small 2)
      (dict_of_items (map (fun kv => (str_drop 7 (fst kv), snd kv))
                          (DataParallel_state_dict (net_small 1))))
    = Ok q'
    /\ state_dict q' = state_dict (net_small 1)
    /\ rnn_models q' = rnn_models (net_small 2).
Proof.
  apply (wrapped_state_dict_round_trip (net_small 1) (net_small 2)).
  apply small_networks_same_shapes.
Defined.

(** *** [load_model] with a checkpoint *)

(** [load_model] on a checkpoint that exists: the fresh network is set,
    the label recorded, and the stripped state dict loaded into it. *)
Lemma load_model_found
    (_load_predictor_config : prog PredictorConfig) (init : initializer)
    (loaded_epoch : string) (w w1 : World) (cfg : PredictorConfig)
    (q : callPredictor) (device : pyval) (dir : string) (u : checkpoint) :
  _load_predictor_config w = (Ok cfg, w1) ->
  callPredictor_init init cfg = Ok q ->
  attrs w1 !! "device" = Some device ->
  attrs w1 !! "checkout_dir" = Some (VStr dir) ->
  checkout_files w1 !! (reload_label loaded_epoch +:+ ".checkpoint.pth.tar")
  = Some u ->
  load_model _load_predictor_config init loaded_epoch w
  = match load_state_dict q (stripped_state_dict u) with
    | Ok q' =>
      (Ok tt, reloaded w1 q' (reload_label loaded_epoch)
                ["load " +:+ reload_label loaded_epoch +:+ "-th epoch model"])
    | Raise e => (Raise e, reloaded w1 q (reload_label loaded_epoch) [])
    end.
Proof.
  intros Hcfg Hq Hdev Hdir Hfile.
  unfold load_model, reload_label, stripped_state_dict, reloaded in *.
  unfold mbind at 1, prog_bind at 1. rewrite Hcfg.
  unfold mbind at 1, prog_bind at 1, lift at 1. rewrite Hq.
  destruct w1 as [a pr le atn av cf rf wr so].
  cbn [attrs checkout_files] in Hdev, Hdir, Hfile.
  destruct (String.eqb loaded_epoch "") eqn:He; cbn [negb];
    run_prog; rewrite Hdev, Hdir, Hfile;
    destruct (load_state_dict q _) as [q'|e];
    rewrite ?app_nil_r; reflexivity.
Qed.

(** Reloading a checkpoint that [fit] saved from a network of the same sizes
    returns normally, prints the confirmation, records the label and leaves
    a network with the saved parameters in its linear layers; its recurrent
    modules are those of the freshly built network. *)
Theorem load_model_restores_linear_layers
    (_load_predictor_config : prog PredictorConfig) (init : initializer)
    (loaded_epoch : string) (w w1 : World) (cfg : PredictorConfig)
    (p q : callPredictor) (device : pyval) (dir : string) (u : checkpoint) :
  _load_predictor_config w = (Ok cfg, w1) ->
  callPredictor_init init cfg = Ok q ->
  attrs w1 !! "device" = Some device ->
  attrs w1 !! "checkout_dir" = Some (VStr dir) ->
  checkout_files w1 !! (reload_label loaded_epoch +:+ ".checkpoint.pth.tar")
  = Some u ->
  unit_state_dict u = DataParallel_state_dict p ->
  same_linear_shapes p q ->
  exists w2 q',
    load_model _load_predictor_config init loaded_epoch w = (Ok tt, w2)
    /\ predictor w2 = Some (Bare q')
    /\ state_dict q' = state_dict p
    /\ rnn_models q' = rnn_models q
    /\ _loaded_epoch w2 = Some (reload_label loaded_epoch)
    /\ stdout w2
       = stdout w1
         ++ ["load " +:+ reload_label loaded_epoch +:+ "-th epoch model"].
Proof.
  intros Hcfg Hq Hdev Hdir Hfile Hsd Hshape.
  rewrite (load_model_found _ init loaded_epoch w w1 cfg q device dir u
             Hcfg Hq Hdev Hdir Hfile).
  unfold stripped_state_dict. rewrite Hsd, stripped_keys.
  rewrite (load_state_dict_ok p q Hshape).
  do 2 eexists. split; [reflexivity|]. repeat split.
Qed.

(** A checkpoint whose state dict was saved from the bare network, without
    the [module.] prefix, can not be reloaded: [load_model] raises, having
    already replaced the network of the controller by the fresh one and
    recorded the label. *)
Theorem load_model_rejects_unwrapped_checkpoint
    (_load_predictor_config : prog PredictorConfig) (init : initializer)
    (loaded_epoch : string) (w w1 : World) (cfg : PredictorConfig)
    (p q : callPredictor) (device : pyval) (dir : string) (u : checkpoint) :
  _load_predictor_config w = (Ok cfg, w1) ->
  callPredictor_init init cfg = Ok q ->
  attrs w1 !! "device" = Some device ->
  attrs w1 !! "checkout_dir" = Some (VStr dir) ->
  checkout_files w1 !! (reload_label loaded_epoch +:+ ".checkpoint.pth.tar")
  = Some u ->
  unit_state_dict u = state_dict p ->
  exists msg w2,
    load_model _load_predictor_config init loaded_epoch w
    = (Raise (RuntimeError msg), w2)
    /\ predictor w2 = Some (Bare q)
    /\ _loaded_epoch w2 = Some (reload_label loaded_epoch)
    /\ stdout w2 = stdout w1.
Proof.
  intros Hcfg Hq Hdev Hdir Hfile Hsd.
  rewrite (load_model_found _ init loaded_epoch w w1 cfg q device dir u
             Hcfg Hq Hdev Hdir Hfile).
  unfold stripped_state_dict. rewrite Hsd, load_state_dict_bare_keys.
  do 2 eexists. split; [reflexivity|].
  unfold reloaded. cbn [predictor _loaded_epoch stdout].
  rewrite app_nil_r. repeat split.
Qed.

(** The small controller with a [best] checkpoint saved from the wrapped
    network. *)
Lemma load_model_restores_linear_layers_small :
  exists w2 q',
    load_model (mret cfg_small) (init_const 2) ""
      (world_with_best (DataParallel_state_dict (net_small 1))) = (Ok tt, w2)
    /\ predictor w2 = Some (Bare q')
    /\ state_dict q' = state_dict (net_small 1)
    /\ rnn_models q' = rnn_models (net_small 2)
    /\ _loaded_epoch w2 = Some "best"
    /\ stdout w2 = [] ++ ["load best-th epoch model"].
Proof.
  apply (load_model_restores_linear_layers (mret cfg_small) (init_const 2) ""
           (world_with_best (DataParallel_state_dict (net_small 1)))
           (world_with_best (DataParallel_state_dict (net_small 1)))
           cfg_small (net_small 1) (net_small 2) (VStr "cpu") "checkouts"
           (mkUnit 0 (DataParallel_state_dict (net_small 1)) (Fin 1) (Fin 1) []));
    try reflexivity.
  apply small_networks_same_shapes.
Defined.

(** The small controller with a [best] checkpoint saved from the bare
    network. *)
Lemma load_model_rejects_unwrapped_checkpoint_small :
  exists msg w2,
    load_model (mret cfg_small) (init_const 2) "best"
      (world_with_best (state_dict (net_small 1)))
    = (Raise (RuntimeError msg), w2)
    /\ predictor w2 = Some (Bare (net_small 2))
    /\ _loaded_epoch w2 = Some "best"
    /\ stdout w2 = [].
Proof.
  apply (load_model_rejects_unwrapped_checkpoint (mret cfg_small) (init_const 2)
           "best" (world_with_best (state_dict (net_small 1)))
           (world_with_best (state_dict (net_small 1)))
           cfg_small (net_small 1) (net_small 2) (VStr "cpu") "checkouts"
           (mkUnit 0 (state_dict (net_small 1)) (Fin 1) (Fin 1) []));
    reflexivity.
Defined.

(** ** Result retrieval *)

Lemma get_results_found (w : World) (label dir : string) (hy y : pyval) :
  _loaded_epoch w = Some label ->
  attrs w !! "result_dir" = Some (VStr dir) ->
  result_files w !! ("hat_y." +:+ label) = Some hy ->
  result_files w !! ("y." +:+ label) = Some y ->
  get_results w = (Ok (hy, y), w).
Proof.
  intros Hl Hd Hh Hy.
  destruct w as [a pr le atn av cf rf wr so].
  cbn [attrs _loaded_epoch result_files] in *. subst le.
  unfold get_results.
  repeat (progress (run_prog; rewrite ?Hd, ?Hh, ?Hy)).
  reflexivity.
Qed.

(** On a reloaded controller, [get_results] returns exactly when both
    artifacts of the active label exist; it then returns them as stored,
    prints nothing and changes nothing. *)
Theorem get_results_returns_iff_both_artifacts_exist
    (w w' : World) (label dir : string) (r : pyval * pyval) :
  _loaded_epoch w = Some label ->
  attrs w !! "result_dir" = Some (VStr dir) ->
  get_results w = (Ok r, w')
  <-> result_files w !! ("hat_y." +:+ label) = Some (fst r)
      /\ result_files w !! ("y." +:+ label) = Some (snd r)
      /\ w' = w.
Proof.
  intros Hl Hd. split.
  - intros Hrun.
    destruct (result_files w !! ("hat_y." +:+ label)) as [hy|] eqn:Hh;
      [destruct (result_files w !! ("y." +:+ label)) as [y|] eqn:Hy|].
    + rewrite (get_results_found w label dir hy y Hl Hd Hh Hy) in Hrun.
      injection Hrun as <- <-. repeat split.
    + destruct (get_results_missing_artifact w label dir Hl Hd (or_intror Hy))
        as (name & w'' & Hraise & _).
      rewrite Hraise in Hrun. discriminate Hrun.
    + destruct (get_results_missing_artifact w label dir Hl Hd (or_introl Hh))
        as (name & w'' & Hraise & _).
      rewrite Hraise in Hrun. discriminate Hrun.
  - intros (Hh & Hy & ->). destruct r as [hy y].
    apply (get_results_found w label dir hy y Hl Hd Hh Hy).
Qed.

(** The reloaded controller with both artifacts of [best] stored. *)
Lemma get_results_of_stored_artifacts :
  get_results world_with_results
  = (Ok (VList [VFloat (Fin (1 # 4))], VList [VInt 0]), world_with_results)
  <-> result_files world_with_results !! ("hat_y." +:+ "best")
      = Some (fst (VList [VFloat (Fin (1 # 4))], VList [VInt 0]))
      /\ result_files world_with_results !! ("y." +:+ "best")
         = Some (snd (VList [VFloat (Fin (1 # 4))], VList [VInt 0]))
      /\ world_with_results = world_with_results.
Proof.
  apply (get_results_returns_iff_both_artifacts_exist
           world_with_results world_with_results "best" "results");
    reflexivity.
Defined.

(** Before any [load_model] the controller has no active label:
    [get_results] raises the [AttributeError] of [_loaded_epoch], which its
    handlers for [IOError] let through, and prints nothing. *)
Theorem get_results_before_reload_raises (w : World) (dir : string) :
  _loaded_epoch w = None ->
  attrs w !! "result_dir" = Some (VStr dir) ->
  get_results w = (Raise (AttributeError "_loaded_epoch"), w).
Proof.
  intros Hl Hd.
  destruct w as [a pr le atn av cf rf wr so].
  cbn [attrs _loaded_epoch] in *. subst le.
  unfold get_results.
  repeat (progress (run_prog; rewrite ?Hd)).
  reflexivity.
Qed.

(** The small controller, on which nothing has been reloaded. *)
Lemma get_results_before_reload_raises_small :
  get_results world_small = (Raise (AttributeError "_loaded_epoch"), world_small).
Proof.
  apply (get_results_before_reload_raises world_small "results"); reflexivity.
Defined.

(** ** More on the checkpoints of the fit loop *)

Lemma float_lt_irrefl (x : pyfloat) : float_lt x x = false.
Proof.
  destruct x as [q| | |]; cbn; try reflexivity.
  destruct (Qltb q q) eqn:H; [|reflexivity].
  apply Qltb_lt in H. exfalso. apply (Qlt_irrefl _ H).
Qed.

Lemma float_lt_trans (x y z : pyfloat) :
  float_lt x y = true -> float_lt y z = true -> float_lt x z = true.
Proof.
  destruct x as [a| | |], y as [b| | |], z as [c| | |]; cbn;
    try congruence.
  rewrite !Qltb_lt. apply Qlt_trans.
Qed.

(** What beats the running best beats the value it started from. *)
Lemma float_lt_loop_best_start outcome (x : pyfloat) (es : list nat) :
  forall b,
    float_lt x (loop_best outcome b es) = true -> float_lt x b = true.
Proof.
  induction es as [|e es IH]; intros b H; [exact H|].
  cbn [loop_best fold_left] in H. apply IH in H.
  unfold next_best in H.
  destruct (float_lt (valid_loss (outcome e)) b) eqn:Hs; [|exact H].
  apply (float_lt_trans _ _ _ H Hs).
Qed.

Lemma best_saved_at_iff k outcome (n e : nat) :
  (e < n)%nat ->
  best_saved_at (loop_calls k outcome initial_best_score (seq 0 n)) e
  <-> float_lt (valid_loss (outcome e))
               (loop_best outcome initial_best_score (seq 0 e)) = true.
Proof.
  intros He. rewrite <- (epoch_calls_best k). unfold best_saved_at. split.
  - intros (c & Hin & Hb & Hc). exists c. split; [|exact Hb].
    apply (loop_calls_seq_in k outcome _ e c He Hc). exact Hin.
  - intros (c & Hin & Hb). exists c.
    pose proof (epoch_calls_epoch _ _ _ _ _ Hin) as Hc.
    split; [|split; assumption].
    apply (loop_calls_seq_in k outcome _ e c He Hc). exact Hin.
Qed.

(** An epoch whose validation score is NaN, or is not below 1e5, saves no
    [best] checkpoint, whatever the scores of the other epochs. *)
Theorem no_best_checkpoint_for_NaN_or_high_score
    (outcome : nat -> epoch_outcome) (w : World) (vn vk : pyval) (n k : Z) :
  attrs w !! "n_epoch" = Some vn -> to_int vn = Some n ->
  attrs w !! "n_epoch_saved" = Some vk -> to_int vk = Some k -> k <> 0%Z ->
  exists b w' calls,
    fit_loop outcome w = (Ok b, w')
    /\ writes w' = writes w ++ calls
    /\ forall e, (e < Z.to_nat n)%nat ->
         valid_loss (outcome e) = NaN
         \/ float_lt (valid_loss (outcome e)) initial_best_score = false ->
         ~ best_saved_at calls e.
Proof.
  intros Hn Hvn Hk Hvk Hk0.
  destruct (fit_loop_spec outcome w vn vk n k Hn Hvn Hk Hvk Hk0)
    as (w' & Hrun & Hwrites & _).
  do 3 eexists. split; [exact Hrun|]. split; [exact Hwrites|].
  intros e He Hhigh Hbest.
  apply (best_saved_at_iff k outcome _ e He) in Hbest.
  apply float_lt_loop_best_start in Hbest.
  destruct Hhigh as [Hnan|Hhigh]; [rewrite Hnan in Hbest; discriminate Hbest|].
  congruence.
Qed.

(** Two epochs on the small controller, one of them without a score. *)
Lemma no_best_checkpoint_for_NaN_small :
  exists b w' calls,
    fit_loop (outcome_of (net_small 1) [Fin 5; NaN]) world_small = (Ok b, w')
    /\ writes w' = writes world_small ++ calls
    /\ forall e, (e < 2)%nat ->
         nth e [Fin 5; NaN] NaN = NaN
         \/ float_lt (nth e [Fin 5; NaN] NaN) initial_best_score = false ->
         ~ best_saved_at calls e.
Proof.
  apply (no_best_checkpoint_for_NaN_or_high_score
           (outcome_of (net_small 1) [Fin 5; NaN]) world_small
           (VInt 2) (VInt 1) 2 1);
    solve [reflexivity | lia].
Defined.

Lemma loop_calls_in_epoch k outcome (es : list nat) (c : save_call) :
  forall best,
    In c (loop_calls k outcome best es) ->
    exists e best', In e es /\ In c (epoch_calls k outcome best' e).
Proof.
  induction es as [|e es IH]; intros best H; [contradiction|].
  cbn [loop_calls] in H. apply in_app_or in H. destruct H as [H|H].
  - exists e, best. split; [left; reflexivity | exact H].
  - destruct (IH _ H) as (e' & b' & Hin & Hc).
    exists e', b'. split; [right; exact Hin | exact Hc].
Qed.

Lemma epoch_calls_unit k outcome best e c :
  In c (epoch_calls k outcome best e) ->
  call_unit c = epoch_unit outcome best e
  /\ (call_is_best c = true -> float_lt (valid_loss (outcome e)) best = true).
Proof.
  unfold epoch_calls. intros H.
  repeat (apply in_app_or in H; destruct H as [H|H]).
  - destruct (float_lt _ _) eqn:Hlt; [|contradiction].
    destruct H as [<-|[]]. split; [reflexivity | intros _; reflexivity].
  - destruct (Z.of_nat e mod k =? 0)%Z; [|contradiction].
    destruct H as [<-|[]]. split; [reflexivity | discriminate].
  - destruct H as [<-|[]]. split; [reflexivity | discriminate].
Qed.

(** Every checkpoint the loop saves carries the state dict of the wrapped
    network and the score of its epoch, and a [best_score] that this score
    does not beat; the [best] checkpoints record their own score as
    [best_score]. *)
Theorem saved_checkpoints_are_consistent
    (outcome : nat -> epoch_outcome) (w : World) (vn vk : pyval) (n k : Z) :
  attrs w !! "n_epoch" = Some vn -> to_int vn = Some n ->
  attrs w !! "n_epoch_saved" = Some vk -> to_int vk = Some k -> k <> 0%Z ->
  exists b w' calls,
    fit_loop outcome w = (Ok b, w')
    /\ writes w' = writes w ++ calls
    /\ forall c, In c calls ->
         exists e, (e < Z.to_nat n)%nat
           /\ epoch (call_unit c) = Z.of_nat e
           /\ score (call_unit c) = valid_loss (outcome e)
           /\ unit_state_dict (call_unit c)
              = DataParallel_state_dict (trained (outcome e))
           /\ float_lt (score (call_unit c)) (best_score (call_unit c)) = false
           /\ (call_is_best c = true ->
               best_score (call_unit c) = score (call_unit c)).
Proof.
  intros Hn Hvn Hk Hvk Hk0.
  destruct (fit_loop_spec outcome w vn vk n k Hn Hvn Hk Hvk Hk0)
    as (w' & Hrun & Hwrites & _).
  do 3 eexists. split; [exact Hrun|]. split; [exact Hwrites|].
  intros c Hin.
  destruct (loop_calls_in_epoch _ _ _ _ _ Hin) as (e & best & He & Hc).
  apply in_seq in He.
  destruct (epoch_calls_unit _ _ _ _ _ Hc) as [Hu Hb].
  exists e. rewrite Hu. cbn [epoch_unit epoch score unit_state_dict best_score].
  split; [lia|]. repeat split.
  - unfold next_best.
    destruct (float_lt (valid_loss (outcome e)) best) eqn:Hlt;
      [apply float_lt_irrefl | exact Hlt].
  - intros His. unfold next_best. rewrite (Hb His). reflexivity.
Qed.

(** Two epochs on the small controller. *)
Lemma saved_checkpoints_are_consistent_small :
  exists b w' calls,
    fit_loop (outcome_of (net_small 1) [Fin 5; Fin 3]) world_small = (Ok b, w')
    /\ writes w' = writes world_small ++ calls
    /\ forall c, In c calls ->
         exists e, (e < 2)%nat
           /\ epoch (call_unit c) = Z.of_nat e
           /\ score (call_unit c) = nth e [Fin 5; Fin 3] NaN
           /\ unit_state_dict (call_unit c)
              = DataParallel_state_dict (net_small 1)
           /\ float_lt (score (call_unit c)) (best_score (call_unit c)) = false
           /\ (call_is_best c = true ->
               best_score (call_unit c) = score (call_unit c)).
Proof.
  apply (saved_checkpoints_are_consistent
           (outcome_of (net_small 1) [Fin 5; Fin 3]) world_small
           (VInt 2) (VInt 1) 2 1);
    solve [reflexivity | lia].
Defined.

(** *** The names of the checkpoint files *)

Lemma pretty_N_char_digit (x : N) (s : string) :
  head_digit (String (pretty_N_char x) s) = true.
Proof. unfold pretty_N_char. repeat case_match; reflexivity. Qed.

Lemma pretty_N_go_head (x : N) :
  forall s, head_digit s = true -> head_digit (pretty_N_go x s) = true.
Proof.
  induction (N.lt_wf_0 x) as [x _ IH]. intros s Hs.
  destruct (decide (x = 0%N)) as [->|Hx].
  - rewrite pretty_N_go_0. exact Hs.
  - rewrite pretty_N_go_step by lia. apply IH.
    + apply N.div_lt; lia.
    + apply pretty_N_char_digit.
Qed.

Lemma pretty_epoch_head (e : nat) : head_digit (pretty (Z.of_nat e)) = true.
Proof.
  unfold pretty, pretty_Z. destruct (Z.of_nat e) as [|p|p] eqn:He.
  - reflexivity.
  - change (head_digit (pretty_N (N.pos p)) = true). unfold pretty_N.
    destruct (decide (N.pos p = 0%N)); [discriminate|].
    rewrite pretty_N_go_step by lia. apply pretty_N_go_head.
    apply pretty_N_char_digit.
  - lia.
Qed.

Lemma head_digit_app (s t : string) :
  head_digit s = true -> head_digit (s +:+ t) = true.
Proof. destruct s; [discriminate | intros H; exact H]. Qed.

Lemma numbered_file_not_best (e : nat) : numbered_file e <> best_file.
Proof.
  intros H. pose proof (head_digit_app _ ".checkpoint.pth.tar" (pretty_epoch_head e)) as Hd.
  unfold numbered_file in H. rewrite H in Hd. discriminate Hd.
Qed.

Lemma numbered_file_not_latest (e : nat) : numbered_file e <> latest_file.
Proof.
  intros H. pose proof (head_digit_app _ ".checkpoint.pth.tar" (pretty_epoch_head e)) as Hd.
  unfold numbered_file in H. rewrite H in Hd. discriminate Hd.
Qed.

Lemma string_length_app (s t : string) :
  String.length (s +:+ t) = (String.length s + String.length t)%nat.
Proof.
  induction s as [|c s IH]; [reflexivity|].
  change (S (String.length (s +:+ t)) = S (String.length s + String.length t)).
  rewrite IH. reflexivity.
Qed.

Lemma string_app_inj_r (t : string) (s1 s2 : string) :
  s1 +:+ t = s2 +:+ t -> s1 = s2.
Proof.
  revert s2. induction s1 as [|c s1 IH]; intros [|c' s2] H.
  - reflexivity.
  - apply (f_equal String.length) in H.
    rewrite !string_length_app in H. cbn in H. lia.
  - apply (f_equal String.length) in H.
    rewrite !string_length_app in H. cbn in H. lia.
  - change (String c (s1 +:+ t) = String c' (s2 +:+ t)) in H.
    injection H as -> H. f_equal. apply IH. exact H.
Qed.

Lemma numbered_file_inj (e e' : nat) : numbered_file e = numbered_file e' -> e = e'.
Proof.
  unfold numbered_file. intros H. apply string_app_inj_r in H.
  apply (inj pretty) in H. lia.
Qed.

(** *** The files an epoch leaves *)

Lemma apply_epoch_calls k outcome best e (m : gmap string checkpoint) :
  apply_calls (epoch_calls k outcome best e) m
  = <[latest_file := epoch_unit outcome best e]>
      ((if (Z.of_nat e mod k =? 0)%Z
        then <[numbered_file e := epoch_unit outcome best e]> else id)
         ((if float_lt (valid_loss (outcome e)) best
           then <[best_file := epoch_unit outcome best e]> else id) m)).
Proof.
  unfold epoch_calls, apply_calls.
  destruct (float_lt (valid_loss (outcome e)) best),
           (Z.of_nat e mod k =? 0)%Z;
    cbn [app fold_left id call_unit]; rewrite ?numbered_file_name; reflexivity.
Qed.

Lemma epoch_best_file k outcome best e (m : gmap string checkpoint) :
  apply_calls (epoch_calls k outcome best e) m !! best_file
  = if float_lt (valid_loss (outcome e)) best
    then Some (epoch_unit outcome best e) else m !! best_file.
Proof.
  rewrite apply_epoch_calls.
  rewrite lookup_insert_ne by discriminate.
  destruct (Z.of_nat e mod k =? 0)%Z;
    [rewrite lookup_insert_ne by apply numbered_file_not_best|];
    (destruct (float_lt _ _); [apply lookup_insert_eq | reflexivity]).
Qed.

Lemma epoch_latest_file k outcome best e (m : gmap string checkpoint) :
  apply_calls (epoch_calls k outcome best e) m !! latest_file
  = Some (epoch_unit outcome best e).
Proof. rewrite apply_epoch_calls. apply lookup_insert_eq. Qed.

Lemma epoch_numbered_file k outcome best e e' (m : gmap string checkpoint) :
  apply_calls (epoch_calls k outcome best e) m !! numbered_file e'
  = if (Z.of_nat e mod k =? 0)%Z && (e =? e')%nat
    then Some (epoch_unit outcome best e) else m !! numbered_file e'.
Proof.
  rewrite apply_epoch_calls.
  rewrite lookup_insert_ne
    by (intros H; symmetry in H; exact (numbered_file_not_latest _ H)).
  assert (Hbest : forall m' : gmap string checkpoint,
            (if float_lt (valid_loss (outcome e)) best
             then <[best_file := epoch_unit outcome best e]> else id) m'
            !! numbered_file e' = m' !! numbered_file e').
  { intros m'. destruct (float_lt _ _); [|reflexivity].
    apply lookup_insert_ne. intros H. symmetry in H.
    exact (numbered_file_not_best _ H). }
  destruct (Z.of_nat e mod k =? 0)%Z; cbn [andb id]; [|apply Hbest].
  destruct (Nat.eqb_spec e e') as [->|Hne].
  - apply lookup_insert_eq.
  - rewrite lookup_insert_ne; [apply Hbest|].
    intros H. apply numbered_file_inj in H. contradiction.
Qed.

(** *** The best file after the loop *)

(** After [n] epochs no score beats the running best; the [best] file is
    untouched while no epoch beat the initial value, and holds the
    checkpoint of the epoch that set the running best otherwise. *)
Lemma best_file_after_epochs k outcome (b0 : pyfloat)
    (m : gmap string checkpoint) (n : nat) :
  let s := fun e => valid_loss (outcome e) in
  let bn := loop_best outcome b0 (seq 0 n) in
  let files := apply_calls (loop_calls k outcome b0 (seq 0 n)) m in
  (forall e, (e < n)%nat -> float_lt (s e) bn = false)
  /\ ((bn = b0 /\ files !! best_file = m !! best_file
       /\ forall e, (e < n)%nat -> float_lt (s e) b0 = false)
      \/ (exists e,
            (e < n)%nat /\ s e = bn /\ float_lt (s e) b0 = true
            /\ float_lt (s e) (loop_best outcome b0 (seq 0 e)) = true
            /\ files !! best_file
               = Some (epoch_unit outcome (loop_best outcome b0 (seq 0 e)) e))).
Proof.
  cbn zeta. induction n as [|n [Hmin Hcase]].
  - split; [intros e He; lia|]. left. repeat split. intros e He. lia.
  - assert (Hstep : loop_best outcome b0 (seq 0 (S n))
                    = next_best outcome (loop_best outcome b0 (seq 0 n)) n).
    { rewrite seq_S. unfold loop_best. rewrite fold_left_app. reflexivity. }
    rewrite Hstep, loop_calls_seq_S, apply_calls_app, epoch_best_file.
    set (bn := loop_best outcome b0 (seq 0 n)) in *.
    unfold next_best.
    destruct (float_lt (valid_loss (outcome n)) bn) eqn:Hlt.
    + split.
      * intros e He. destruct (Nat.eq_dec e n) as [->|Hne];
          [apply float_lt_irrefl|].
        destruct (float_lt (valid_loss (outcome e)) (valid_loss (outcome n)))
          eqn:H; [|reflexivity].
        rewrite <- (Hmin e) by lia. symmetry.
        apply (float_lt_trans _ _ _ H Hlt).
      * right. exists n. split; [lia|]. split; [reflexivity|].
        split; [apply (float_lt_loop_best_start outcome _ (seq 0 n)); exact Hlt|].
        split; [exact Hlt | reflexivity].
    + split.
      * intros e He. destruct (Nat.eq_dec e n) as [->|Hne];
          [exact Hlt | apply Hmin; lia].
      * destruct Hcase as [(Hb & Hf & Hall)|(e & He & Hs & H0 & Hi & Hf)].
        -- left. split; [exact Hb|]. split; [exact Hf|].
           intros e He. destruct (Nat.eq_dec e n) as [->|Hne];
             [rewrite <- Hb; exact Hlt | apply Hall; lia].
        -- right. exists e. split; [lia|]. repeat split; assumption.
Qed.

(** After the loop the [best] file holds the checkpoint of an epoch whose
    validation score no epoch of the run beats, provided some epoch scored
    below 1e5; when none did, the file is as it was before the run. *)
Theorem best_file_holds_lowest_score
    (outcome : nat -> epoch_outcome) (w : World) (vn vk : pyval) (n k : Z) :
  attrs w !! "n_epoch" = Some vn -> to_int vn = Some n ->
  attrs w !! "n_epoch_saved" = Some vk -> to_int vk = Some k -> k <> 0%Z ->
  exists b w',
    fit_loop outcome w = (Ok b, w')
    /\ ((exists e, (e < Z.to_nat n)%nat
                   /\ float_lt (valid_loss (outcome e)) initial_best_score = true) ->
        exists e u,
          (e < Z.to_nat n)%nat
          /\ checkout_files w' !! "best.checkpoint.pth.tar" = Some u
          /\ epoch u = Z.of_nat e
          /\ score u = valid_loss (outcome e)
          /\ best_score u = valid_loss (outcome e)
          /\ unit_state_dict u = DataParallel_state_dict (trained (outcome e))
          /\ forall e', (e' < Z.to_nat n)%nat ->
               float_lt (valid_loss (outcome e')) (valid_loss (outcome e)) = false)
    /\ ((forall e, (e < Z.to_nat n)%nat ->
           float_lt (valid_loss (outcome e)) initial_best_score = false) ->
        checkout_files w' !! "best.checkpoint.pth.tar"
        = checkout_files w !! "best.checkpoint.pth.tar").
Proof.
  intros Hn Hvn Hk Hvk Hk0.
  destruct (fit_loop_spec outcome w vn vk n k Hn Hvn Hk Hvk Hk0)
    as (w' & Hrun & _ & Hfiles).
  do 2 eexists. split; [exact Hrun|]. rewrite Hfiles.
  destruct (best_file_after_epochs k outcome initial_best_score
              (checkout_files w) (Z.to_nat n)) as [Hmin Hcase].
  cbn zeta in Hmin, Hcase. fold best_file. split.
  - intros (e0 & He0 & Hlow).
    destruct Hcase as [(_ & _ & Hall)|(e & He & Hs & H0 & Hi & Hf)].
    + rewrite (Hall e0 He0) in Hlow. discriminate Hlow.
    + exists e, (epoch_unit outcome
                   (loop_best outcome initial_best_score (seq 0 e)) e).
      split; [exact He|]. split; [exact Hf|].
      cbn [epoch_unit epoch score best_score unit_state_dict].
      repeat split.
      * unfold next_best. rewrite Hi. reflexivity.
      * intros e' He'. rewrite Hs. apply Hmin. exact He'.
  - intros Hall.
    destruct Hcase as [(_ & Hf & _)|(e & He & _ & H0 & _)]; [exact Hf|].
    rewrite (Hall e He) in H0. discriminate H0.
Qed.

(** Four epochs with the validation scores 5, 3, 4 and 2. *)
Lemma best_file_for_scores_5_3_4_2 :
  exists b w',
    fit_loop (outcome_of (net_small 1) [Fin 5; Fin 3; Fin 4; Fin 2]) world_four
    = (Ok b, w')
    /\ ((exists e, (e < 4)%nat
                   /\ float_lt (nth e [Fin 5; Fin 3; Fin 4; Fin 2] NaN)
                               initial_best_score = true) ->
        exists e u,
          (e < 4)%nat
          /\ checkout_files w' !! "best.checkpoint.pth.tar" = Some u
          /\ epoch u = Z.of_nat e
          /\ score u = nth e [Fin 5; Fin 3; Fin 4; Fin 2] NaN
          /\ best_score u = nth e [Fin 5; Fin 3; Fin 4; Fin 2] NaN
          /\ unit_state_dict u = DataParallel_state_dict (net_small 1)
          /\ forall e', (e' < 4)%nat ->
               float_lt (nth e' [Fin 5; Fin 3; Fin 4; Fin 2] NaN)
                        (nth e [Fin 5; Fin 3; Fin 4; Fin 2] NaN) = false)
    /\ ((forall e, (e < 4)%nat ->
           float_lt (nth e [Fin 5; Fin 3; Fin 4; Fin 2] NaN) initial_best_score
           = false) ->
        checkout_files w' !! "best.checkpoint.pth.tar"
        = checkout_files world_four !! "best.checkpoint.pth.tar").
Proof.
  apply (best_file_holds_lowest_score
           (outcome_of (net_small 1) [Fin 5; Fin 3; Fin 4; Fin 2])
           world_four (VInt 4) (VInt 1) 4 1);
    solve [reflexivity | lia].
Defined.

(** *** The numbered files after the loop *)

Lemma numbered_file_after_epochs k outcome (b0 : pyfloat)
    (m : gmap string checkpoint) (e : nat) :
  forall n,
    apply_calls (loop_calls k outcome b0 (seq 0 n)) m !! numbered_file e
    = if (e <? n)%nat && (Z.of_nat e mod k =? 0)%Z
      then Some (epoch_unit outcome (loop_best outcome b0 (seq 0 e)) e)
      else m !! numbered_file e.
Proof.
  induction n as [|n IH]; [reflexivity|].
  rewrite loop_calls_seq_S, apply_calls_app, epoch_numbered_file, IH.
  destruct (Nat.eqb_spec n e) as [->|Hne].
  - rewrite Nat.ltb_irrefl.
    replace (e <? S e)%nat with true by (symmetry; apply Nat.ltb_lt; lia).
    cbn [andb]. rewrite andb_true_r. reflexivity.
  - rewrite andb_false_r.
    replace (e <? S n)%nat with (e <? n)%nat; [reflexivity|].
    destruct (Nat.ltb_spec e n), (Nat.ltb_spec e (S n)); try reflexivity; lia.
Qed.

(** A numbered checkpoint is kept: after the loop the numbered file of an
    epoch on the schedule holds the checkpoint of that epoch, which no later
    epoch has overwritten; an epoch off the schedule has written none. *)
Theorem numbered_files_are_kept
    (outcome : nat -> epoch_outcome) (w : World) (vn vk : pyval) (n k : Z) :
  attrs w !! "n_epoch" = Some vn -> to_int vn = Some n ->
  attrs w !! "n_epoch_saved" = Some vk -> to_int vk = Some k -> k <> 0%Z ->
  exists b w',
    fit_loop outcome w = (Ok b, w')
    /\ forall e, (e < Z.to_nat n)%nat ->
         ((Z.of_nat e mod k = 0)%Z ->
          exists u,
            checkout_files w' !! (pretty (Z.of_nat e) +:+ ".checkpoint.pth.tar")
            = Some u
            /\ epoch u = Z.of_nat e
            /\ score u = valid_loss (outcome e)
            /\ unit_state_dict u = DataParallel_state_dict (trained (outcome e)))
         /\ ((Z.of_nat e mod k <> 0)%Z ->
             checkout_files w' !! (pretty (Z.of_nat e) +:+ ".checkpoint.pth.tar")
             = checkout_files w !! (pretty (Z.of_nat e) +:+ ".checkpoint.pth.tar")).
Proof.
  intros Hn Hvn Hk Hvk Hk0.
  destruct (fit_loop_spec outcome w vn vk n k Hn Hvn Hk Hvk Hk0)
    as (w' & Hrun & _ & Hfiles).
  do 2 eexists. split; [exact Hrun|]. intros e He. rewrite Hfiles.
  fold (numbered_file e). rewrite numbered_file_after_epochs.
  replace (e <? Z.to_nat n)%nat with true by (symmetry; apply Nat.ltb_lt; lia).
  cbn [andb]. split.
  - intros Hmod. apply Z.eqb_eq in Hmod. rewrite Hmod.
    eexists. split; [reflexivity|]. repeat split.
  - intros Hmod. apply Z.eqb_neq in Hmod. rewrite Hmod. reflexivity.
Qed.

(** Two epochs on the small controller, which saves every epoch. *)
Lemma numbered_files_are_kept_small :
  exists b w',
    fit_loop (outcome_of (net_small 1) [Fin 5; Fin 3]) world_small = (Ok b, w')
    /\ forall e, (e < 2)%nat ->
         ((Z.of_nat e mod 1 = 0)%Z ->
          exists u,
            checkout_files w' !! (pretty (Z.of_nat e) +:+ ".checkpoint.pth.tar")
            = Some u
            /\ epoch u = Z.of_nat e
            /\ score u = nth e [Fin 5; Fin 3] NaN
            /\ unit_state_dict u = DataParallel_state_dict (net_small 1))
         /\ ((Z.of_nat e mod 1 <> 0)%Z ->
             checkout_files w' !! (pretty (Z.of_nat e) +:+ ".checkpoint.pth.tar")
             = checkout_files world_small
                 !! (pretty (Z.of_nat e) +:+ ".checkpoint.pth.tar")).
Proof.
  apply (numbered_files_are_kept
           (outcome_of (net_small 1) [Fin 5; Fin 3]) world_small
           (VInt 2) (VInt 1) 2 1);
    solve [reflexivity | lia].
Defined.

(** ** Training, then reloading *)

Lemma fit_loop_files (outcome : nat -> epoch_outcome) (w : World)
    (vn vk : pyval) (n k : Z) :
  attrs w !! "n_epoch" = Some vn -> to_int vn = Some n ->
  attrs w !! "n_epoch_saved" = Some vk -> to_int vk = Some k -> k <> 0%Z ->
  exists b w',
    fit_loop outcome w = (Ok b, w')
    /\ attrs w' = attrs w
    /\ checkout_files w'
       = apply_calls (loop_calls k outcome initial_best_score (seq 0 (Z.to_nat n)))
                     (checkout_files w).
Proof.
  intros Hn Hvn Hk Hvk Hk0.
  destruct (fit_epochs_spec outcome vk k (seq 0 (Z.to_nat n)) Hvk Hk0
              initial_best_score w Hk) as (w' & Hrun & Hattrs & _ & Hfiles).
  exists (loop_best outcome initial_best_score (seq 0 (Z.to_nat n))), w'.
  split; [|split; assumption].
  unfold fit_loop. cbv [mbind prog_bind getattr attr lift].
  rewrite Hn. unfold py_range. rewrite Hvn. exact Hrun.
Qed.

(** Reloading a file that holds the checkpoint of epoch [e]. *)
Lemma load_model_epoch_unit
    (_load_predictor_config : prog PredictorConfig) (init : initializer)
    (loaded_epoch : string) (w : World) (cfg : PredictorConfig)
    (q : callPredictor) (device : pyval) (dir : string)
    (outcome : nat -> epoch_outcome) (best : pyfloat) (e : nat) :
  _load_predictor_config w = (Ok cfg, w) ->
  callPredictor_init init cfg = Ok q ->
  attrs w !! "device" = Some device ->
  attrs w !! "checkout_dir" = Some (VStr dir) ->
  checkout_files w !! (reload_label loaded_epoch +:+ ".checkpoint.pth.tar")
  = Some (epoch_unit outcome best e) ->
  same_linear_shapes (trained (outcome e)) q ->
  exists w2,
    load_model _load_predictor_config init loaded_epoch w = (Ok tt, w2)
    /\ predictor w2
       = Some (Bare (with_linear_layers_of q (trained (outcome e)))).
Proof.
  intros Hcfg Hq Hdev Hdir Hfile Hshape.
  rewrite (load_model_found _ init loaded_epoch w w cfg q device dir _
             Hcfg Hq Hdev Hdir Hfile).
  unfold stripped_state_dict. cbn [epoch_unit unit_state_dict].
  rewrite stripped_keys, (load_state_dict_ok _ q Hshape).
  eexists. split; reflexivity.
Qed.

(** Training and then reloading the label [latest] gives a network whose
    linear layers carry the parameters the last epoch left; its recurrent
    modules are those of the freshly built network. *)
Theorem fit_then_load_latest
    (_load_predictor_config : prog PredictorConfig) (init : initializer)
    (outcome : nat -> epoch_outcome) (w : World) (vn vk : pyval) (n k : Z)
    (last : nat) (cfg : PredictorConfig) (q : callPredictor)
    (device : pyval) (dir : string) :
  attrs w !! "n_epoch" = Some vn -> to_int vn = Some n ->
  attrs w !! "n_epoch_saved" = Some vk -> to_int vk = Some k -> k <> 0%Z ->
  Z.to_nat n = S last ->
  (forall w0, _load_predictor_config w0 = (Ok cfg, w0)) ->
  callPredictor_init init cfg = Ok q ->
  attrs w !! "device" = Some device ->
  attrs w !! "checkout_dir" = Some (VStr dir) ->
  same_linear_shapes (trained (outcome last)) q ->
  exists b w' w2 q',
    fit_loop outcome w = (Ok b, w')
    /\ load_model _load_predictor_config init "latest" w' = (Ok tt, w2)
    /\ predictor w2 = Some (Bare q')
    /\ state_dict q' = state_dict (trained (outcome last))
    /\ rnn_models q' = rnn_models q.
Proof.
  intros Hn Hvn Hk Hvk Hk0 Hlast Hcfg Hq Hdev Hdir Hshape.
  destruct (fit_loop_files outcome w vn vk n k Hn Hvn Hk Hvk Hk0)
    as (b & w' & Hrun & Hattrs & Hfiles).
  rewrite <- Hattrs in Hdev, Hdir.
  assert (Hfile : checkout_files w' !! (reload_label "latest" +:+ ".checkpoint.pth.tar")
                  = Some (epoch_unit outcome
                            (loop_best outcome initial_best_score (seq 0 last))
                            last)).
  { rewrite Hfiles, Hlast, loop_calls_seq_S, apply_calls_app.
    apply epoch_latest_file. }
  destruct (load_model_epoch_unit _ init "latest" w' cfg q device dir
              outcome _ last (Hcfg w') Hq Hdev Hdir Hfile Hshape)
    as (w2 & Hload & Hp).
  exists b, w', w2, (with_linear_layers_of q (trained (outcome last))).
  repeat split; assumption.
Qed.

(** Training and then reloading with the default label gives the network of
    the [best] checkpoint: its linear layers carry the parameters of an
    epoch whose validation score no epoch of the run beats.  This needs an
    epoch that scored below 1e5. *)
Theorem fit_then_load_best
    (_load_predictor_config : prog PredictorConfig) (init : initializer)
    (outcome : nat -> epoch_outcome) (w : World) (vn vk : pyval) (n k : Z)
    (cfg : PredictorConfig) (q : callPredictor)
    (device : pyval) (dir : string) :
  attrs w !! "n_epoch" = Some vn -> to_int vn = Some n ->
  attrs w !! "n_epoch_saved" = Some vk -> to_int vk = Some k -> k <> 0%Z ->
  (exists e, (e < Z.to_nat n)%nat
             /\ float_lt (valid_loss (outcome e)) initial_best_score = true) ->
  (forall w0, _load_predictor_config w0 = (Ok cfg, w0)) ->
  callPredictor_init init cfg = Ok q ->
  attrs w !! "device" = Some device ->
  attrs w !! "checkout_dir" = Some (VStr dir) ->
  (forall e, (e < Z.to_nat n)%nat -> same_linear_shapes (trained (outcome e)) q) ->
  exists b w' w2 q' e,
    fit_loop outcome w = (Ok b, w')
    /\ load_model _load_predictor_config init "" w' = (Ok tt, w2)
    /\ predictor w2 = Some (Bare q')
    /\ (e < Z.to_nat n)%nat
    /\ state_dict q' = state_dict (trained (outcome e))
    /\ rnn_models q' = rnn_models q
    /\ forall e', (e' < Z.to_nat n)%nat ->
         float_lt (valid_loss (outcome e')) (valid_loss (outcome e)) = false.
Proof.
  intros Hn Hvn Hk Hvk Hk0 (e0 & He0 & Hlow) Hcfg Hq Hdev Hdir Hshape.
  destruct (fit_loop_files outcome w vn vk n k Hn Hvn Hk Hvk Hk0)
    as (b & w' & Hrun & Hattrs & Hfiles).
  rewrite <- Hattrs in Hdev, Hdir.
  destruct (best_file_after_epochs k outcome initial_best_score
              (checkout_files w) (Z.to_nat n)) as [Hmin Hcase].
  cbn zeta in Hmin, Hcase.
  destruct Hcase as [(_ & _ & Hall)|(e & He & Hs & _ & _ & Hf)].
  { rewrite (Hall e0 He0) in Hlow. discriminate Hlow. }
  rewrite <- Hfiles in Hf.
  destruct (load_model_epoch_unit _ init "" w' cfg q device dir
              outcome _ e (Hcfg w') Hq Hdev Hdir Hf (Hshape e He))
    as (w2 & Hload & Hp).
  exists b, w', w2, (with_linear_layers_of q (trained (outcome e))), e.
  repeat split; try assumption.
  intros e' He'. rewrite Hs. apply Hmin. exact He'.
Qed.

(** Two epochs on the small controller, then a reload of [latest]. *)
Lemma fit_then_load_latest_small :
  exists b w' w2 q',
    fit_loop (outcome_of (net_small 1) [Fin 5; Fin 3]) world_small = (Ok b, w')
    /\ load_model (mret cfg_small) (init_const 2) "latest" w' = (Ok tt, w2)
    /\ predictor w2 = Some (Bare q')
    /\ state_dict q' = state_dict (net_small 1)
    /\ rnn_models q' = rnn_models (net_small 2).
Proof.
  apply (fit_then_load_latest (mret cfg_small) (init_const 2)
           (outcome_of (net_small 1) [Fin 5; Fin 3]) world_small
           (VInt 2) (VInt 1) 2 1 1 cfg_small (net_small 2) (VStr "cpu")
           "checkouts");
    try solve [reflexivity | lia].
  apply small_networks_same_shapes.
Defined.

(** Two epochs on the small controller, then a reload with the default
    label. *)
Lemma fit_then_load_best_small :
  exists b w' w2 q' e,
    fit_loop (outcome_of (net_small 1) [Fin 5; Fin 3]) world_small = (Ok b, w')
    /\ load_model (mret cfg_small) (init_const 2) "" w' = (Ok tt, w2)
    /\ predictor w2 = Some (Bare q')
    /\ (e < 2)%nat
    /\ state_dict q' = state_dict (net_small 1)
    /\ rnn_models q' = rnn_models (net_small 2)
    /\ forall e', (e' < 2)%nat ->
         float_lt (nth e' [Fin 5; Fin 3] NaN) (nth e [Fin 5; Fin 3] NaN) = false.
Proof.
  apply (fit_then_load_best (mret cfg_small) (init_const 2)
           (outcome_of (net_small 1) [Fin 5; Fin 3]) world_small
           (VInt 2) (VInt 1) 2 1 cfg_small (net_small 2) (VStr "cpu")
           "checkouts");
    try solve [reflexivity | lia].
  - exists 0%nat. split; [lia | reflexivity].
  - intros e _. apply small_networks_same_shapes.
Defined.

(** ** The constructor of the predictor, for any layer count *)

Lemma mapM_build_stack_prefix init c (hs rest pre_in pre_h : list nat) (w : nat) :
  length pre_in = length pre_h ->
  mapM (fun i =>
          layer_in ← index (pre_in ++ w :: map (widen (cfg_bidirectional c)) (hs ++ rest)) i;
          hidden ← index (pre_h ++ hs ++ rest) i;
          mret (build_gru init c i layer_in hidden))
       (seq (length pre_in) (length hs))
  = Ok (build_stack init c (length pre_in) w hs).
Proof.
  revert pre_in pre_h w.
  induction hs as [|h hs IH]; intros pre_in pre_h w Hlen; [reflexivity|].
  cbn [length seq mapM build_stack map app].
  rewrite index_app_middle. cbn [mbind result_bind].
  rewrite Hlen at 1. rewrite index_app_middle.
  cbn [mbind result_bind mret result_ret].
  specialize (IH (pre_in ++ [w]) (pre_h ++ [h]) (widen (cfg_bidirectional c) h)).
  rewrite !length_app in IH. cbn [length] in IH.
  rewrite <- !app_assoc in IH. cbn [app] in IH.
  replace (length pre_in + 1)%nat with (S (length pre_in)) in IH by lia.
  rewrite IH by lia. reflexivity.
Qed.




(** The stack built for a layer count within the hidden-size list. *)
Lemma callPredictor_init_prefix init c f :
  cfg_input_size c = Some f ->
  (cfg_num_layers c <= length (cfg_layer_hidden_sizes c))%nat ->
  callPredictor_init init c
  = Ok (mkPredictor (cfg_num_layers c)
          (build_stack init c 0 (cfg_embed_size c)
             (firstn (cfg_num_layers c) (cfg_layer_hidden_sizes c)))
          f (cfg_embed_size c) (cfg_label_size c)
          (List.last (cfg_embed_size c
                      :: map (widen (cfg_bidirectional c)) (cfg_layer_hidden_sizes c))
                     (cfg_embed_size c))
          (nn_Linear init "embed_func" f (cfg_embed_size c))
          (nn_Linear init "output_func"
             (List.last (cfg_embed_size c
                         :: map (widen (cfg_bidirectional c)) (cfg_layer_hidden_sizes c))
                        (cfg_embed_size c))
             (cfg_label_size c))).
Proof.
  intros Hf Hn. unfold callPredictor_init. rewrite Hf.
  rewrite layer_input_sizes_widen.
  pose proof (mapM_build_stack_prefix init c
                (firstn (cfg_num_layers c) (cfg_layer_hidden_sizes c))
                (skipn (cfg_num_layers c) (cfg_layer_hidden_sizes c))
                [] [] (cfg_embed_size c) eq_refl) as H.
  rewrite firstn_skipn, length_firstn, Nat.min_l in H by exact Hn.
  cbn [app length] in H. unfold build_gru at 1 in H.
  rewrite H. reflexivity.
Qed.







(** ** The forward pass: the current timestep *)














(** The forward pass on the first-marked batch gives the same pair whether
    its validity mask is all ones or all zeros. *)
Lemma forward_ignores_mask_of_first_marked :
  forward toy_gru (net_small 1) batch_first_marked
  = forward toy_gru (net_small 1)
      (mkBatch (input_X batch_first_marked) (mkTensor [1; 2]%nat [0; 0]%Q)
               (input_cur_M batch_first_marked)).
Proof.
  apply (forward_ignores_mask_values toy_gru (net_small 1)
           (input_X batch_first_marked) (input_M batch_first_marked)
           (mkTensor [1; 2]%nat [0; 0]%Q) (input_cur_M batch_first_marked)).
  reflexivity.
Defined.

(** ** The forward pass: errors *)

Lemma view_rows_raises (t : Tensor) (f : nat) (e : exn) :
  view_rows t f = Raise e -> is_RuntimeError e.
Proof.
  unfold view_rows.
  destruct (f =? 0)%nat; [intros H; injection H as <-; eexists; reflexivity|].
  destruct (_ mod f =? 0)%nat; [discriminate|].
  intros H; injection H as <-; eexists; reflexivity.
Qed.

Lemma reshape_raises (t : Tensor) (dims : list nat) (e : exn) :
  reshape t dims = Raise e -> is_RuntimeError e.
Proof.
  unfold reshape. destruct (_ =? _)%nat; [discriminate|].
  intros H; injection H as <-; eexists; reflexivity.
Qed.

Lemma Linear_forward_raises (l : Linear) (x : Tensor) (e : exn) :
  Linear_forward l x = Raise e -> is_RuntimeError e.
Proof.
  unfold Linear_forward.
  destruct (shape x) as [|n [|f [|]]];
    try (intros H; injection H as <-; eexists; reflexivity).
  destruct (f =? in_features l)%nat; [discriminate|].
  intros H; injection H as <-; eexists; reflexivity.
Qed.

Lemma mul3_raises (a b : Tensor) (e : exn) :
  mul3 a b = Raise e -> is_RuntimeError e.
Proof.
  unfold mul3.
  destruct (shape a) as [|a0 [|a1 [|a2 [|]]]];
    try (intros H; injection H as <-; eexists; reflexivity).
  destruct (shape b) as [|b0 [|b1 [|b2 [|]]]];
    try (intros H; injection H as <-; eexists; reflexivity).
  destruct (bcast_dim a0 b0), (bcast_dim a1 b1), (bcast_dim a2 b2);
    try discriminate; intros H; injection H as <-; eexists; reflexivity.
Qed.

Lemma mul3_shape (a b y : Tensor) :
  mul3 a b = Ok y -> exists d0 d1 d2, shape y = [d0; d1; d2].
Proof.
  unfold mul3.
  destruct (shape a) as [|a0 [|a1 [|a2 [|]]]]; try discriminate.
  destruct (shape b) as [|b0 [|b1 [|b2 [|]]]]; try discriminate.
  destruct (bcast_dim a0 b0) as [d0|], (bcast_dim a1 b1) as [d1|],
           (bcast_dim a2 b2) as [d2|]; try discriminate.
  intros H; injection H as <-. exists d0, d1, d2. reflexivity.
Qed.

Lemma sum_dim1_raises (t : Tensor) (e : exn) :
  sum_dim1 t = Raise e -> is_RuntimeError e.
Proof.
  unfold sum_dim1.
  destruct (shape t) as [|d0 [|d1 [|d2 [|]]]]; try discriminate;
    intros H; injection H as <-; eexists; reflexivity.
Qed.

Lemma stack_raises gru_eval (gs : list GRU) (x : Tensor) (e : exn) :
  foldM (fun d temp_rnn_model => GRU_forward gru_eval temp_rnn_model d) x gs
  = Raise e ->
  is_RuntimeError e.
Proof.
  revert x. induction gs as [|g gs IH]; intros x; [discriminate|].
  cbn [foldM].
  destruct (GRU_forward gru_eval g x) as [y|e'] eqn:Hg; cbn [mbind result_bind].
  - apply IH.
  - intros H; injection H as <-. revert Hg. unfold GRU_forward.
    destruct (shape x) as [|d0 [|d1 [|f [|]]]];
      try (intros H; injection H as <-; eexists; reflexivity).
    destruct (f =? gru_input_size g)%nat; [discriminate|].
    intros H; injection H as <-; eexists; reflexivity.
Qed.

(** With masks of two dimensions and recurrent modules that keep the
    documented output size, the only errors of the forward pass are the
    [ValueError] of unpacking the size of an [X] that is not 3-dimensional
    and, for a 3-dimensional [X], a [RuntimeError] of a tensor operation. *)
Theorem forward_error_kinds gru_eval (p : callPredictor)
    (X M cur_M : Tensor) (e : exn) :
  gru_shape_contract gru_eval ->
  length (shape M) = 2%nat -> length (shape cur_M) = 2%nat ->
  forward gru_eval p (mkBatch X M cur_M) = Raise e ->
  if (length (shape X) =? 3)%nat then is_RuntimeError e else is_ValueError e.
Proof.
  intros _ _ _. unfold forward. cbn [input_X input_M input_cur_M].
  destruct (shape X) as [|b [|t [|f [|]]]]; cbn [length Nat.eqb];
    try (intros H; injection H as <-; eexists; reflexivity).
  destruct (view_rows X f) as [v|e0] eqn:E0; cbn [mbind result_bind];
    [|intros H; injection H as <-; exact (view_rows_raises _ _ _ E0)].
  destruct (Linear_forward (embed_func p) v) as [em|e1] eqn:E1;
    cbn [mbind result_bind];
    [|intros H; injection H as <-; exact (Linear_forward_raises _ _ _ E1)].
  destruct (reshape em [b; t; embed_size p]) as [d|e2] eqn:E2;
    cbn [mbind result_bind];
    [|intros H; injection H as <-; exact (reshape_raises _ _ _ E2)].
  destruct (foldM _ d (rnn_models p)) as [o|e3] eqn:E3; cbn [mbind result_bind];
    [|intros H; injection H as <-; exact (stack_raises _ _ _ _ E3)].
  destruct (mul3 o (unsqueeze_last M)) as [y|e4] eqn:E4; cbn [mbind result_bind];
    [|intros H; injection H as <-; exact (mul3_raises _ _ _ E4)].
  destruct (mul3_shape _ _ _ E4) as (nb & nt & nf & Hy). rewrite Hy.
  destruct (reshape o _) as [fl|e5] eqn:E5; cbn [mbind result_bind];
    [|intros H; injection H as <-; exact (reshape_raises _ _ _ E5)].
  destruct (Linear_forward (output_func p) fl) as [pr|e6] eqn:E6;
    cbn [mbind result_bind];
    [|intros H; injection H as <-; exact (Linear_forward_raises _ _ _ E6)].
  destruct (reshape pr _) as [a|e7] eqn:E7; cbn [mbind result_bind];
    [|intros H; injection H as <-; exact (reshape_raises _ _ _ E7)].
  destruct (mul3 a (unsqueeze_last cur_M)) as [wt|e8] eqn:E8;
    cbn [mbind result_bind];
    [|intros H; injection H as <-; exact (mul3_raises _ _ _ E8)].
  destruct (sum_dim1 wt) as [cu|e9] eqn:E9; cbn [mbind result_bind];
    [discriminate|].
  intros H; injection H as <-; exact (sum_dim1_raises _ _ E9).
Qed.

(** A batch whose [X] is 2-dimensional. *)
Lemma forward_error_of_flat_batch :
  if (length (shape (input_X batch_flat)) =? 3)%nat
  then is_RuntimeError (ValueError "not enough values to unpack")
  else is_ValueError (ValueError "not enough values to unpack").
Proof.
  apply (forward_error_kinds toy_gru (net_small 1)
           (input_X batch_flat) (input_M batch_flat) (input_cur_M batch_flat));
    solve [apply toy_gru_contract | reflexivity].
Defined.

Lemma callPredictor_init_embed_func init c p f :
  callPredictor_init init c = Ok p -> cfg_input_size c = Some f ->
  in_features (embed_func p) = f.
Proof.
  intros Hp Hf. unfold callPredictor_init in Hp. rewrite Hf in Hp.
  destruct (mapM _ _) as [gs|]; [|discriminate Hp].
  cbn [mbind result_bind mret result_ret] in Hp. injection Hp as <-.
  reflexivity.
Qed.

(** A batch whose feature dimension is not the [input_size] the predictor
    was built with makes the forward pass raise a [RuntimeError]. *)
Theorem forward_rejects_wrong_feature_size gru_eval init c
    (p : callPredictor) (X M cur_M : Tensor) (B T F F0 : nat) :
  callPredictor_init init c = Ok p ->
  cfg_input_size c = Some F0 ->
  shape X = [B; T; F] -> F <> F0 ->
  exists e, forward gru_eval p (mkBatch X M cur_M) = Raise e
            /\ is_RuntimeError e.
Proof.
  intros Hp Hf HX HF.
  pose proof (callPredictor_init_embed_func init c p F0 Hp Hf) as Hin.
  unfold forward. cbn [input_X input_M input_cur_M]. rewrite HX.
  destruct (Nat.eq_dec F 0) as [->|HF0].
  - unfold view_rows. cbn [Nat.eqb mbind result_bind].
    eexists. split; [reflexivity | eexists; reflexivity].
  - rewrite (view_rows_ok X B T F HX HF0). cbn [mbind result_bind].
    unfold Linear_forward. cbn [shape]. rewrite Hin.
    destruct (Nat.eqb_spec F F0) as [|_]; [contradiction|].
    cbn [mbind result_bind].
    eexists. split; [reflexivity | eexists; reflexivity].
Qed.

(** The small network, built for 2 features, on a batch with 3. *)
Lemma forward_rejects_three_features :
  exists e, forward toy_gru (net_small 1) batch_three_features = Raise e
            /\ is_RuntimeError e.
Proof.
  apply (forward_rejects_wrong_feature_size toy_gru (init_const 1) cfg_small
           (net_small 1) (input_X batch_three_features)
           (input_M batch_three_features) (input_cur_M batch_three_features)
           1 2 3 2); solve [reflexivity | lia].
Defined.

(** With fewer recurrent modules than hidden sizes, the output layer expects
    the width of the last listed size while the stack ends with the width
    of the last size it used: when the two differ, every forward pass on a
    batch of the documented layout raises a [RuntimeError]. *)
Theorem forward_fails_when_layers_fall_short
    (gru_eval : GRU -> Tensor -> Tensor) (init : initializer)
    (c : PredictorConfig) (B T F : nat) (X M cur_M : Tensor) :
  gru_shape_contract gru_eval ->
  cfg_input_size c = Some F ->
  (cfg_num_layers c <= length (cfg_layer_hidden_sizes c))%nat ->
  List.last (cfg_embed_size c
             :: map (widen (cfg_bidirectional c))
                    (firstn (cfg_num_layers c) (cfg_layer_hidden_sizes c)))
            (cfg_embed_size c)
  <> List.last (cfg_embed_size c
                :: map (widen (cfg_bidirectional c)) (cfg_layer_hidden_sizes c))
               (cfg_embed_size c) ->
  F <> 0%nat ->
  shape X = [B; T; F] -> shape M = [B; T] ->
  exists p e,
    callPredictor_init init c = Ok p
    /\ forward gru_eval p (mkBatch X M cur_M) = Raise e
    /\ is_RuntimeError e.
Proof.
  intros Hgru Hf Hn Hw HF HX HM.
  pose proof (callPredictor_init_prefix init c F Hf Hn) as Hp.
  match type of Hp with _ = Ok ?q => set (p := q) in * end.
  cut (exists e, forward gru_eval p (mkBatch X M cur_M) = Raise e
                 /\ is_RuntimeError e).
  { intros (e & H). exists p, e. split; [exact Hp | exact H]. }
  clear Hp. subst p.
  set (hs := cfg_layer_hidden_sizes c) in *. set (E := cfg_embed_size c) in *.
  set (W := List.last (E :: map (widen (cfg_bidirectional c)) hs) E) in *.
  set (used := firstn (cfg_num_layers c) hs) in *.
  set (gs := build_stack init c 0 E used).
  unfold forward. cbn [input_X input_M input_cur_M embed_func output_func
                       rnn_models embed_size label_size].
  rewrite HX, (view_rows_ok X B T F HX) by exact HF.
  cbn [mbind result_bind].
  destruct (Linear_forward_shape (nn_Linear init "embed_func" F E)
              (mkTensor [B * T; F]%nat (data X)) (B * T) eq_refl)
    as (e & He & Hes & _).
  rewrite He. cbn [mbind result_bind].
  rewrite (reshape_ok e [B; T; E])
    by (rewrite Hes; symmetry; apply numel_rows).
  cbn [mbind result_bind].
  destruct (build_stack_chain init c 0 E used) as [Hok Hout].
  destruct (stack_forward_shape gru_eval Hgru gs
              (mkTensor [B; T; E] (data e)) B T E Hok eq_refl)
    as (o & Ho & Hos).
  fold gs in Hout. rewrite Hout in Hos.
  rewrite Ho. cbn [mbind result_bind].
  destruct (mul3_mask_shape o M B T _ Hos HM) as (m & Hm & Hms & _).
  rewrite Hm. cbn [mbind result_bind]. rewrite Hms.
  rewrite (reshape_ok o) by (rewrite Hos; apply numel_rows).
  cbn [mbind result_bind].
  unfold Linear_forward. cbn [shape nn_Linear in_features].
  destruct (Nat.eqb_spec (List.last (E :: map (widen (cfg_bidirectional c)) used) E) W)
    as [Heq|_]; [contradiction|].
  cbn [mbind result_bind].
  eexists. split; [reflexivity | eexists; reflexivity].
Qed.

(** The scenario with two modules: the stack ends 40 wide, the output layer
    expects 30. *)
Lemma forward_fails_for_two_of_three :
  exists p e,
    callPredictor_init (init_const 1) (with_num_layers cfg_scenario 2) = Ok p
    /\ forward toy_gru p batch_scenario = Raise e
    /\ is_RuntimeError e.
Proof.
  apply (forward_fails_when_layers_fall_short toy_gru (init_const 1)
           (with_num_layers cfg_scenario 2) 1 3 8
           (input_X batch_scenario) (input_M batch_scenario)
           (input_cur_M batch_scenario));
    try solve [apply toy_gru_contract | reflexivity | cbn; lia].
Defined.
